(** * pkasolver.data: from annotated molecules to (paired) graph samples

    A shallow embedding of [src/pkasolver/data.py].  Python's two effects
    that matter here, raising and printing, are explicit: [result] is the
    outcome of code that may raise, [py] additionally carries what was
    printed.  The chemistry toolkit's molecules are records of the
    observations the module makes on them.  The feature tables of
    [pkasolver.constants] and [pkasolver.chem.create_conjugate] are not part
    of the module: they enter as the classes [Constants] and [Chem], and
    every statement below holds for all their instances. *)

From Stdlib Require Import ZArith Floats.SpecFloat.
From stdpp Require Import gmap strings list list_monad pretty.

(** ** Exceptions and results *)

Inductive exn :=
| KeyError (key : string)
| RuntimeError (msg : string)
| AssertionError (msg : string)
| ValueError (msg : string)
| IndexError (msg : string)
| TypeError (msg : string)
| AttributeError (msg : string).

(** [str(e)]: a [KeyError] shows the repr of the missing key. *)
Definition str_exn (e : exn) : string :=
  match e with
  | KeyError key => "'" +:+ key +:+ "'"
  | RuntimeError msg | AssertionError msg | ValueError msg
  | IndexError msg | TypeError msg | AttributeError msg => msg
  end.

Inductive result (A : Type) :=
| Ok (a : A)
| Raise (e : exn).
Arguments Ok {A} a.
Arguments Raise {A} e.

#[global] Instance result_ret : MRet result := λ A, Ok.
#[global] Instance result_bind : MBind result := λ A B f m,
  match m with Ok a => f a | Raise e => Raise e end.
#[global] Instance result_fmap : FMap result := λ A B f m,
  match m with Ok a => Ok (f a) | Raise e => Raise e end.

(** ** Python numbers and floats

    A Python [float] is a binary64 value; [torch.float32] rounds it to
    binary32 (24 bits of precision, exponents below 128). *)

Definition float : Type := spec_float.

Definition float_of_Z (z : Z) : float := binary_normalize 53 1024 z 0 false.

Definition float32 (v : float) : float :=
  match v with
  | S754_finite s m e => binary_round 24 128 s m e
  | _ => v
  end.

(** A binary32 value read back as a Python float: exact. *)
Definition double_of_float32 (v : float) : float :=
  match v with
  | S754_finite s m e => binary_round 53 1024 s m e
  | _ => v
  end.

Inductive pynum :=
| PyInt (z : Z)
| PyFloat (v : float).

Definition float_of_num (n : pynum) : float :=
  match n with PyInt z => float_of_Z z | PyFloat v => v end.

(** What a feature function returns: a number, or a (nested) sequence of
    numbers such as a one-hot list. *)
#[warnings="-register-all"]
Inductive pyval :=
| Num (n : pynum)
| Seq (l : list pyval).

(** [pandas.core.common.flatten]: the numbers of a nested sequence, left to
    right. *)
Fixpoint flatten_val (v : pyval) : list pynum :=
  match v with
  | Num n => [n]
  | Seq l => concat (map flatten_val l)
  end.

Definition flatten (line : list pyval) : list pynum :=
  concat (map flatten_val line).

(** A value of a molecule's property bag. *)
Inductive propval :=
| PropNum (n : pynum)
| PropStr (s : string).

(** ** Printed output *)

Inductive printed :=
| Line (s : string)
| Dict (pre : string) (d : gmap string propval).

Record py (A : Type) := Py { output : list printed; outcome : result A }.
Arguments Py {A} output outcome.
Arguments output {A} p.
Arguments outcome {A} p.

#[global] Instance py_ret : MRet py := λ A a, Py [] (Ok a).
#[global] Instance py_bind : MBind py := λ A B f m,
  match outcome m with
  | Ok a => Py (output m ++ output (f a)) (outcome (f a))
  | Raise e => Py (output m) (Raise e)
  end.

Definition print (p : printed) : py unit := Py [p] (Ok tt).
Definition raise {A} (e : exn) : py A := Py [] (Raise e).
Definition lift {A} (r : result A) : py A := Py [] r.

(** [try: body  except <class> as e: handler(e)]; [catches] tells which
    exceptions the clause names. *)
Definition try_except {A} (body : py A) (catches : exn → bool)
    (handler : exn → py A) : py A :=
  match outcome body with
  | Raise e =>
      if catches e
      then Py (output body ++ output (handler e)) (outcome (handler e))
      else body
  | Ok _ => body
  end.

Definition is_Exception (e : exn) : bool := true.
Definition is_KeyError (e : exn) : bool :=
  match e with KeyError _ => true | _ => false end.
Definition is_AssertionError (e : exn) : bool :=
  match e with AssertionError _ => true | _ => false end.

(** [str(b)] for a boolean inside an f-string. *)
Definition str_bool (b : bool) : string := if b then "True" else "False".

(** ** Dictionaries

    [d[k]] raises [KeyError]; [k in d] is a test. *)

Definition getitem {V} (d : gmap string V) (k : string) : result V :=
  match d !! k with
  | Some v => Ok v
  | None => Raise (KeyError k)
  end.

Definition contains {V} (d : gmap string V) (k : string) : bool :=
  match d !! k with Some _ => true | None => false end.

(** A dict built by a comprehension keeps its keys in order of first
    insertion; a repeated key keeps its place and takes the new value. *)
Fixpoint odict_set {V} (d : list (string * V)) (k : string) (v : V)
  : list (string * V) :=
  match d with
  | [] => [(k, v)]
  | (k', v') :: d' =>
      if decide (k' = k) then (k, v) :: d' else (k', v') :: odict_set d' k v
  end.

Definition odict_keys {V} (d : list (string * V)) : list string := d.*1.
Definition odict_values {V} (d : list (string * V)) : list V := d.*2.

(** [for x in xs: s = body(x, s)] in a monad. *)
Fixpoint for_each {M : Type → Type} `{!MBind M, !MRet M} {X S : Type}
    (xs : list X) (body : X → S → M S) (s : S) : M S :=
  match xs with
  | [] => mret s
  | x :: xs' => s' ← body x s; for_each xs' body s'
  end.

(** ** Molecules, as the module observes them *)

Record Atom := {
  GetIdx : Z;
  GetAtomicNum : Z;
  GetFormalCharge : Z;
}.

Record Bond := {
  GetBeginAtomIdx : Z;
  GetEndAtomIdx : Z;
  GetBondType : Z;
}.

Record Mol := {
  GetAtoms : list Atom;
  GetBonds : list Bond;
  GetPropsAsDict : gmap string propval;
  MolToSmiles : string;
}.

(** The toolkit raises on an index that is not an atom of the molecule. *)
Definition GetAtomWithIdx (mol : Mol) (idx : Z) : result Atom :=
  if decide (0 ≤ idx)%Z then
    match GetAtoms mol !! Z.to_nat idx with
    | Some a => Ok a
    | None => Raise (RuntimeError "Range Error")
    end
  else Raise (RuntimeError "Range Error").

(** ** Arrays and tensors

    A two-dimensional array is the list of its rows.  [np.array] of rows of
    different lengths is no numeric array, and [torch.tensor] refuses it.
    The [Float] tensors have dtype [torch.float32] (which [torch.float]
    names too): their entries are binary32 values.  [LongMatrix] has dtype
    [torch.long]. *)

Inductive Tensor :=
| FloatScalar (v : float)
| FloatVector (v : list float)
| FloatMatrix (rows : list (list float))
| LongMatrix (rows : list (list Z)).

Definition rectangular {A} (rows : list (list A)) : bool :=
  match rows with
  | [] => true
  | r :: rs => forallb (λ r', length r' =? length r) rs
  end.

Definition np_array {A} (rows : list (list A)) : result (list (list A)) :=
  if rectangular rows then Ok rows
  else Raise (ValueError "inhomogeneous shape").

(** [np.hstack] glues blocks with equally many rows side by side, and
    refuses an empty sequence of blocks. *)
Definition np_hstack {A} (blocks : list (list (list A))) : result (list (list A)) :=
  match blocks with
  | [] => Raise (ValueError "need at least one array to concatenate")
  | b :: bs => Ok (foldl (zip_with app) b bs)
  end.

(** The element type [np.array] finds for Python numbers.  An integer is
    an [int64] when it fits, a [uint64] when it is at least 2^63 and fits,
    and a Python object otherwise; a float is a [float64].  An array
    takes the smallest type that holds all its numbers: [float64] for an
    [int64] next to a [uint64] or a float, an object array as soon as one
    number is an object, and [float64] when it holds no number at all. *)
Inductive dtype := int64 | uint64 | float64 | object_.

Definition dtype_of (n : pynum) : dtype :=
  match n with
  | PyFloat _ => float64
  | PyInt z =>
      if decide (- 2 ^ 63 ≤ z < 2 ^ 63)%Z then int64
      else if decide (2 ^ 63 ≤ z < 2 ^ 64)%Z then uint64
      else object_
  end.

Definition promote_types (a b : dtype) : dtype :=
  match a, b with
  | object_, _ | _, object_ => object_
  | float64, _ | _, float64 => float64
  | int64, int64 => int64
  | uint64, uint64 => uint64
  | int64, uint64 | uint64, int64 => float64
  end.

Definition result_type (ns : list pynum) : dtype :=
  match ns with
  | [] => float64
  | n :: ns' => foldl (λ d n', promote_types d (dtype_of n')) (dtype_of n) ns'
  end.

(** One number of an array of type [d] as a 32-bit float: an [int64] is
    rounded once, to binary32; in a [float64] array every number is a
    double first. *)
Definition cast_float32 (d : dtype) (n : pynum) : float :=
  match d, n with
  | int64, PyInt z => binary_normalize 24 128 z 0 false
  | _, _ => float32 (float_of_num n)
  end.

Definition as_float32 (d : dtype) (v : list pynum) : list float :=
  map (cast_float32 d) v.

(** [torch.tensor(arr, dtype=torch.float)] of the array of these rows: the
    tensor library takes no [uint64] and no object array, and the array of
    no rows at all has one dimension, of length 0. *)
Definition torch_float (rows : list (list pynum)) : result Tensor :=
  match result_type (concat rows) with
  | uint64 =>
      Raise (TypeError "can't convert np.ndarray of type numpy.uint64. The only supported types are: float64, float32, float16, complex64, complex128, int64, int32, int16, int8, uint8, and bool.")
  | object_ =>
      Raise (TypeError "can't convert np.ndarray of type numpy.object_. The only supported types are: float64, float32, float16, complex64, complex128, int64, int32, int16, int8, uint8, and bool.")
  | d =>
      Ok (match rows with
          | [] => FloatVector []
          | _ => FloatMatrix (map (as_float32 d) rows)
          end)
  end.

Definition torch_long (rows : list (list Z)) : Tensor := LongMatrix rows.

(** [t.size(0)], which is also [len(t)]. *)
Definition size0 (t : Tensor) : result nat :=
  match t with
  | FloatScalar _ => Raise (IndexError "dimension specified as 0 but tensor has no dimensions")
  | FloatVector v => Ok (length v)
  | FloatMatrix rows => Ok (length rows)
  | LongMatrix rows => Ok (length rows)
  end.

(** ** The constants module and the chemistry helper *)

Class Constants := {
  NODE_FEATURES : gmap string (Atom → Z → result pyval);
  EDGE_FEATURES : gmap string (Bond → result pyval);
  node_feat_values : gmap string (list Z);
  edge_feat_values : gmap string (list Z);
  DEVICE : string;
}.

Class Chem := {
  create_conjugate : Mol → Z → float → bool → result Mol;
}.

(** ** Data frames

    A frame is the list of its rows under the default integer index.  The
    scalar columns hold parsed values; the molecule columns are looked up by
    name, since the functions below take column names. *)

Module Row.
Record t := {
  ID : string;
  marvin_atom : Z;
  marvin_pKa : float;
  pKa : float;
  mols : gmap string Mol;
}.
End Row.

Abbreviation DataFrame := (list Row.t).

Definition df_row (df : DataFrame) (i : nat) : result Row.t :=
  match df !! i with
  | Some r => Ok r
  | None => Raise (KeyError (pretty i))
  end.

(** [df[col][i]] for a molecule column. *)
Definition df_mol (df : DataFrame) (col : string) (i : nat) : result Mol :=
  r ← df_row df i; getitem (Row.mols r) col.

Definition set_mol (col : string) (r : Row.t) (m : Mol) : Row.t :=
  {| Row.ID := Row.ID r; Row.marvin_atom := Row.marvin_atom r;
     Row.marvin_pKa := Row.marvin_pKa r; Row.pKa := Row.pKa r;
     Row.mols := <[col := m]> (Row.mols r) |}.

Definition del_mol (col : string) (r : Row.t) : Row.t :=
  {| Row.ID := Row.ID r; Row.marvin_atom := Row.marvin_atom r;
     Row.marvin_pKa := Row.marvin_pKa r; Row.pKa := Row.pKa r;
     Row.mols := delete col (Row.mols r) |}.

(** [df[col] = values]: the lengths must agree. *)
Definition df_set_column (df : DataFrame) (col : string) (values : list Mol)
  : result DataFrame :=
  if decide (length values = length df) then Ok (zip_with (set_mol col) df values)
  else Raise (ValueError "Length of values does not match length of index").

(** [col in df.columns] for a structure column.  The frame keeps no header
    of its own: a column is one that some row holds a structure under (a
    row without one stands for a missing cell), and a frame without rows is
    taken to have the column. *)
Definition has_column (df : DataFrame) (col : string) : bool :=
  match df with
  | [] => true
  | _ => existsb (λ r, contains (Row.mols r) col) df
  end.

(** [repr] of a list of plain names, as an f-string shows it. *)
Fixpoint join (sep : string) (l : list string) : string :=
  match l with
  | [] => ""
  | [s] => s
  | s :: l' => s +:+ sep +:+ join sep l'
  end.

Definition repr_list (l : list string) : string :=
  "[" +:+ join ", " ((λ s, "'" +:+ s +:+ "'") <$> l) +:+ "]".

(** [df.drop(columns=cols)] for structure columns: the labels that are no
    column are reported together, in one [KeyError]. *)
Definition df_drop (df : DataFrame) (cols : list string) : result DataFrame :=
  match filter (λ col, has_column df col = false) cols with
  | [] => Ok (foldl (λ df col, del_mol col <$> df) df cols)
  | missing => Raise (KeyError (repr_list missing +:+ " not found in axis"))
  end.

(** ** Graph samples

    [Data] is the graph library's attribute bag: an attribute that was never
    set is [None].  [PairData] extends it with the two sides of a pair. *)

Module Data.
Record t := {
  x : option Tensor;
  edge_index : option Tensor;
  edge_attr : option Tensor;
  num_nodes : option nat;
  reference_value : option Tensor;
  ID : option propval;
  pka_type : option propval;
  device : option string;
}.

Definition empty : t :=
  {| x := None; edge_index := None; edge_attr := None; num_nodes := None;
     reference_value := None; ID := None; pka_type := None; device := None |}.

(** [Data(x=.., edge_index=.., edge_attr=..)] *)
Definition __init__ (x edge_index edge_attr : Tensor) : t :=
  {| x := Some x; edge_index := Some edge_index; edge_attr := Some edge_attr;
     num_nodes := None; reference_value := None; ID := None; pka_type := None;
     device := None |}.

Definition set_x (v : Tensor) (m : t) : t :=
  {| x := Some v; edge_index := edge_index m; edge_attr := edge_attr m;
     num_nodes := num_nodes m; reference_value := reference_value m;
     ID := ID m; pka_type := pka_type m; device := device m |}.

Definition set_num_nodes (n : nat) (m : t) : t :=
  {| x := x m; edge_index := edge_index m; edge_attr := edge_attr m;
     num_nodes := Some n; reference_value := reference_value m;
     ID := ID m; pka_type := pka_type m; device := device m |}.

Definition set_reference_value (v : Tensor) (m : t) : t :=
  {| x := x m; edge_index := edge_index m; edge_attr := edge_attr m;
     num_nodes := num_nodes m; reference_value := Some v;
     ID := ID m; pka_type := pka_type m; device := device m |}.

Definition set_ID (v : propval) (m : t) : t :=
  {| x := x m; edge_index := edge_index m; edge_attr := edge_attr m;
     num_nodes := num_nodes m; reference_value := reference_value m;
     ID := Some v; pka_type := pka_type m; device := device m |}.

Definition set_pka_type (v : propval) (m : t) : t :=
  {| x := x m; edge_index := edge_index m; edge_attr := edge_attr m;
     num_nodes := num_nodes m; reference_value := reference_value m;
     ID := ID m; pka_type := Some v; device := device m |}.

(** [m.to(device=d)] *)
Definition to (d : string) (m : t) : t :=
  {| x := x m; edge_index := edge_index m; edge_attr := edge_attr m;
     num_nodes := num_nodes m; reference_value := reference_value m;
     ID := ID m; pka_type := pka_type m; device := Some d |}.
End Data.

(** Lines 211-249. *)
Module PairData.
Record t := {
  base : Data.t;
  edge_index_p : Tensor;
  edge_index_d : Tensor;
  x_p : option Tensor;
  x_d : option Tensor;
  edge_attr_p : Tensor;
  edge_attr_d : Tensor;
  charge_prot : Z;
  charge_deprot : Z;
}.

(** An attribute of the base class set on a pair. *)
Definition on_base (f : Data.t → Data.t) (m : t) : t :=
  {| base := f (base m);
     edge_index_p := edge_index_p m; edge_index_d := edge_index_d m;
     x_p := x_p m; x_d := x_d m;
     edge_attr_p := edge_attr_p m; edge_attr_d := edge_attr_d m;
     charge_prot := charge_prot m; charge_deprot := charge_deprot m |}.

Definition __init__ (edge_index_p edge_attr_p : Tensor) (x_p : option Tensor)
    (charge_p : Z) (edge_index_d edge_attr_d : Tensor) (x_d : option Tensor)
    (charge_d : Z) : result t :=
  let self :=
    {| base := Data.empty;
       edge_index_p := edge_index_p; edge_index_d := edge_index_d;
       x_p := x_p; x_d := x_d;
       edge_attr_p := edge_attr_p; edge_attr_d := edge_attr_d;
       charge_prot := charge_p; charge_deprot := charge_d |} in
  match x_p with
  | Some v => n ← size0 v; mret (on_base (Data.set_num_nodes n) self)
  | None => mret self
  end.

(** [self.x_p.size(0)] on an attribute that may be [None]. *)
Definition rows_of (v : option Tensor) : result nat :=
  match v with
  | Some v => size0 v
  | None => Raise (AttributeError "'NoneType' object has no attribute 'size'")
  end.

(** The increment of [key] when samples are batched; [super_inc] is the
    base class's rule for every other key. *)
Definition __inc__ {V : Type} (super_inc : Data.t → string → V → result nat)
    (self : t) (key : string) (value : V) : result nat :=
  if decide (key = "edge_index_p") then rows_of (x_p self)
  else if decide (key = "edge_index_d") then rows_of (x_d self)
  else super_inc (base self) key value.
End PairData.

(** What the dataset holds: pairs, or single-sided graphs. *)
Inductive sample :=
| Paired (m : PairData.t)
| Single (m : Data.t).

(** ** Preprocessing: conjugates and their roles *)

Section Preprocessing.
Context {chem : Chem}.

(** Lines 97-125.  The progress bar around the row numbers prints to the
    error stream and is left out. *)
Definition conjugates_to_dataframe (df : DataFrame) (mol_col : string)
  : py DataFrame :=
  conjugates ← for_each (seq 0 (length df))
    (λ i conjugates,
       mol ← lift (df_mol df mol_col i);
       index ← lift (Row.marvin_atom <$> df_row df i);
       pka ← lift (Row.marvin_pKa <$> df_row df i);
       try_except
         (conj ← lift (create_conjugate mol index pka true);
          mret (conjugates ++ [conj]))
         is_Exception
         (λ e,
            print (Line ("Could not create conjugate of mol number " +:+ pretty i));;
            print (Line (str_exn e));;
            mret (conjugates ++ [mol])))
    [];
  lift (df_set_column df "Conjugates" conjugates).

(** Lines 128-171. *)
Definition sort_conjugates (df : DataFrame) (mol_col_1 mol_col_2 : string)
  : py DataFrame :=
  '(prot, deprot) ← for_each (seq 0 (length df))
    (λ i '(prot, deprot),
       indx ← lift (Row.marvin_atom <$> df_row df i);
       mol ← lift (df_mol df mol_col_1 i);
       conj ← lift (df_mol df mol_col_2 i);
       charge_mol ← lift (GetFormalCharge <$> GetAtomWithIdx mol indx);
       charge_conj ← lift (GetFormalCharge <$> GetAtomWithIdx conj indx);
       if decide (charge_mol < charge_conj)%Z then
         mret (prot ++ [conj], deprot ++ [mol])
       else if decide (charge_mol > charge_conj)%Z then
         mret (prot ++ [mol], deprot ++ [conj])
       else
         print (Line "prot = deprot");;
         mret (prot ++ [mol], deprot ++ [conj]))
    ([], []);
  df ← lift (df_set_column df "protonated" prot);
  df ← lift (df_set_column df "deprotonated" deprot);
  lift (df_drop df ["ROMol"; "Conjugates"]).

(** Lines 175-181, once the structure file was read into a frame. *)
Definition preprocess (df : DataFrame) : py DataFrame :=
  df ← conjugates_to_dataframe df "ROMol";
  sort_conjugates df "ROMol" "Conjugates".
End Preprocessing.

(** ** Graph builder *)

(** Lines 266-293.  Each row is made an array before the rows are: the
    array of the rows has the type the rows' types promote to, which is
    the type found for all the numbers together. *)
Definition make_nodes (mol : Mol) (atom_idx : Z)
    (n_features : list (string * (Atom → Z → result pyval))) : result Tensor :=
  x ← for_each (GetAtoms mol)
    (λ atom x,
       node ← for_each (odict_values n_features)
         (λ feat node, v ← feat atom atom_idx; mret (node ++ [v])) [];
       let node := flatten node in
       mret (x ++ [node]))
    [];
  arr ← np_array x;
  torch_float arr.

(** Lines 296-342. *)
Definition make_edges_and_attr (mol : Mol)
    (e_features : list (string * (Bond → result pyval)))
  : result (Tensor * Tensor) :=
  '(edges, edge_attr) ← for_each (GetBonds mol)
    (λ bond '(edges, edge_attr),
       let edges := edges ++ [[[GetBeginAtomIdx bond]; [GetEndAtomIdx bond]]] in
       let edges := edges ++ [[[GetEndAtomIdx bond]; [GetBeginAtomIdx bond]]] in
       edge ← for_each (odict_values e_features)
         (λ feat edge, v ← feat bond; mret (edge ++ [v])) [];
       let edge := flatten edge in
       mret (edges, edge_attr ++ replicate 2 edge))
    ([], []);
  stacked ← np_hstack edges;
  let edge_index := torch_long stacked in
  arr ← np_array edge_attr;
  edge_attr ← torch_float arr;
  mret (edge_index, edge_attr).

(** Lines 346-351: [{x: all_features[x] for x in feat_list}]. *)
Definition make_features_dicts {F} (all_features : gmap string F)
    (feat_list : list string) : result (list (string * F)) :=
  for_each feat_list
    (λ x d, f ← getitem all_features x; mret (odict_set d x f)) [].

(** Lines 371-401. *)
Definition mol_to_features (mol : Mol) (atom_idx : Z)
    (n_features : list (string * (Atom → Z → result pyval)))
    (e_features : list (string * (Bond → result pyval)))
  : result (Tensor * Tensor * Tensor * Z) :=
  nodes ← make_nodes mol atom_idx n_features;
  '(edge_index, edge_attr) ← make_edges_and_attr mol e_features;
  let charge := foldr Z.add 0%Z (GetFormalCharge <$> GetAtoms mol) in
  mret (nodes, edge_index, edge_attr, charge).

(** Lines 404-431. *)
Definition mol_to_paired_mol_data (prot deprot : Mol) (atom_idx : Z)
    (n_features : list (string * (Atom → Z → result pyval)))
    (e_features : list (string * (Bond → result pyval)))
  : result PairData.t :=
  '(node_p, edge_index_p, edge_attr_p, charge_p) ←
    mol_to_features prot atom_idx n_features e_features;
  '(node_d, edge_index_d, edge_attr_d, charge_d) ←
    mol_to_features deprot atom_idx n_features e_features;
  PairData.__init__ edge_index_p edge_attr_p (Some node_p) charge_p
    edge_index_d edge_attr_d (Some node_d) charge_d.

(** Lines 434-446. *)
Definition mol_to_single_mol_data (mol : Mol) (atom_idx : Z)
    (n_features : list (string * (Atom → Z → result pyval)))
    (e_features : list (string * (Bond → result pyval)))
  : result (Data.t * Z) :=
  '(node_p, edge_index_p, edge_attr_p, charge) ←
    mol_to_features mol atom_idx n_features e_features;
  mret (Data.__init__ node_p edge_index_p edge_attr_p, charge).

(** ** Feature width and the dataset materializer *)

Section Dataset.
Context {constants : Constants}.

(** Lines 252-263. *)
Definition calculate_nr_of_features (feature_list : list string) : result nat :=
  let i_n := 0 in
  if forallb (contains node_feat_values) feature_list then
    for_each feature_list
      (λ feat i_n, v ← getitem node_feat_values feat; mret (i_n + length v)) i_n
  else if forallb (contains edge_feat_values) feature_list then
    for_each feature_list
      (λ feat i_n, v ← getitem edge_feat_values feat; mret (i_n + length v)) i_n
  else Raise (RuntimeError "").

(** Lines 449-501. *)
Definition make_pyg_dataset_from_dataframe (df : DataFrame)
    (list_n list_e : list string) (paired : bool) (mode : string)
  : py (list sample) :=
  print (Line ("Generating data with paired boolean set to: " +:+ str_bool paired));;
  if negb paired && bool_decide (mode ∉ ["protonated"; "deprotonated"]) then
    raise (RuntimeError
             ("Wrong combination of " +:+ mode +:+ " and " +:+ str_bool paired))
  else
    selected_node_features ← lift (make_features_dicts NODE_FEATURES list_n);
    selected_edge_features ← lift (make_features_dicts EDGE_FEATURES list_e);
    if paired then
      for_each (seq 0 (length df))
        (λ i dataset,
           prot ← lift (df_mol df "protonated" i);
           deprot ← lift (df_mol df "deprotonated" i);
           r ← lift (df_row df i);
           m ← lift (mol_to_paired_mol_data prot deprot (Row.marvin_atom r)
                       selected_node_features selected_edge_features);
           let m := PairData.on_base
                      (Data.set_reference_value (FloatVector [float32 (Row.pKa r)])) m in
           let m := PairData.on_base (Data.set_ID (PropStr (Row.ID r))) m in
           let m := PairData.on_base (Data.to DEVICE) m in
           mret (dataset ++ [Paired m]))
        []
    else
      print (Line ("Generating data with " +:+ mode +:+ " form"));;
      for_each (seq 0 (length df))
        (λ i dataset,
           '(m, molecular_charge) ←
             (if decide (mode = "protonated") then
                mol ← lift (df_mol df "protonated" i);
                r ← lift (df_row df i);
                lift (mol_to_single_mol_data mol (Row.marvin_atom r)
                        selected_node_features selected_edge_features)
              else if decide (mode = "deprotonated") then
                mol ← lift (df_mol df "deprotonated" i);
                r ← lift (df_row df i);
                lift (mol_to_single_mol_data mol (Row.marvin_atom r)
                        selected_node_features selected_edge_features)
              else raise (RuntimeError ""));
           r ← lift (df_row df i);
           let m := Data.set_reference_value (FloatVector [float32 (Row.pKa r)]) m in
           let m := Data.set_ID (PropStr (Row.ID r)) m in
           let m := Data.to DEVICE m in
           mret (dataset ++ [Single m]))
        [].
End Dataset.

(** ** One annotated molecule *)

(** The dynamic types the calls below need from a property's value. *)
Definition as_index (v : propval) : result Z :=
  match v with
  | PropNum (PyInt z) => Ok z
  | _ => Raise (TypeError "an integer is required")
  end.

Definition as_float (v : propval) : result float :=
  match v with
  | PropNum n => Ok (float_of_num n)
  | PropStr _ => Raise (TypeError "a number is required")
  end.

Section AnnotatedMolecule.
Context {chem : Chem}.

(** Lines 509-516: the equilibrium constant. *)
Definition read_pKa (mol : Mol) (props : gmap string propval) : py propval :=
  try_except (lift (getitem props "pKa")) is_KeyError
    (λ e,
       print (Dict "No pKa found for molecule: " props);;
       print (Dict "" props);;
       print (Line (MolToSmiles mol));;
       raise e).

(** Lines 517-525: the reaction centre. *)
Definition read_atom_idx (mol : Mol) (props : gmap string propval) : py propval :=
  if contains props "epik_atom" then lift (getitem props "epik_atom")
  else if contains props "marvin_atom" then lift (getitem props "marvin_atom")
  else
    print (Dict "No reaction center foundfor molecule: " props);;
    print (Dict "" props);;
    print (Line (MolToSmiles mol));;
    raise (RuntimeError "").

(** Lines 533-541: which of the two is the protonated one. *)
Definition assign_roles (mol conj : Mol) (atom_idx : Z) : result (Mol * Mol) :=
  charge_mol ← GetFormalCharge <$> GetAtomWithIdx mol atom_idx;
  charge_conj ← GetFormalCharge <$> GetAtomWithIdx conj atom_idx;
  if decide (charge_mol > charge_conj)%Z then mret (mol, conj)
  else mret (conj, mol).

(** Lines 527-564: everything after the two look-ups. *)
Definition assemble_pair (mol : Mol) (props : gmap string propval)
    (pka atom_idx : propval)
    (selected_node_features : list (string * (Atom → Z → result pyval)))
    (selected_edge_features : list (string * (Bond → result pyval)))
  : py PairData.t :=
  conj ← try_except
    (lift (idx ← as_index atom_idx; v ← as_float pka;
           create_conjugate mol idx v false))
    is_AssertionError
    (λ e, print (Line ("mol is failing because: " +:+ str_exn e));; raise e);
  atom_idx ← lift (as_index atom_idx);
  '(prot, deprot) ← lift (assign_roles mol conj atom_idx);
  m ← lift (mol_to_paired_mol_data prot deprot atom_idx
              selected_node_features selected_edge_features);
  v ← lift (as_float pka);
  let m := PairData.on_base (Data.set_x (FloatScalar (float32 v))) m in
  pka_type ←
    (if contains props "pka_number" then lift (getitem props "pka_number")
     else if contains props "marvin_pKa_type" then
       lift (getitem props "marvin_pKa_type")
     else mret (PropStr ""));
  let m := PairData.on_base (Data.set_pka_type pka_type) m in
  ID ← try_except (lift (getitem props "ID")) is_Exception
         (λ _, mret (PropStr ""));
  let m := PairData.on_base (Data.set_ID ID) m in
  mret m.

(** Lines 504-564. *)
Definition make_paired_pyg_data_from_mol (mol : Mol)
    (selected_node_features : list (string * (Atom → Z → result pyval)))
    (selected_edge_features : list (string * (Bond → result pyval)))
  : py PairData.t :=
  let props := GetPropsAsDict mol in
  pka ← read_pKa mol props;
  atom_idx ← read_atom_idx mol props;
  assemble_pair mol props pka atom_idx
    selected_node_features selected_edge_features.
End AnnotatedMolecule.

(** ** Vocabulary of the statements *)

(** [needle in hay] on strings. *)
Fixpoint includes (needle hay : string) : bool :=
  String.prefix needle hay ||
  match hay with
  | EmptyString => false
  | String _ hay' => includes needle hay'
  end.

(** The size of a feature's value domain in a vocabulary. *)
Definition domain_size (vocab : gmap string (list Z)) (name : string) : nat :=
  match vocab !! name with Some v => length v | None => 0 end.

(** How a node feature is called on an atom, given the reaction centre, and
    an edge feature on a bond. *)
Definition on_atom (atom_idx : Z) (f : Atom → Z → result pyval) (atom : Atom)
  : result pyval := f atom atom_idx.

(** Every selected feature function returns, on every entity of [xs], a
    value that flattens to [width name] numbers. *)
Definition encodes_with {F X} (call : F → X → result pyval) (xs : list X)
    (features : list (string * F)) (width : string → nat) : Prop :=
  ∀ name f e, (name, f) ∈ features → e ∈ xs →
    ∃ v, call f e = Ok v ∧ length (flatten_val v) = width name.

(** A number the arrays take as it is: a float, or an integer of the
    int64 range. *)
Definition machine_number (n : pynum) : Prop :=
  match n with
  | PyInt z => (- 2 ^ 63 ≤ z < 2 ^ 63)%Z
  | PyFloat _ => True
  end.

(** Every selected feature function returns such numbers only, on every
    entity of [xs]. *)
Definition returns_machine_numbers {F X} (call : F → X → result pyval)
    (xs : list X) (features : list (string * F)) : Prop :=
  ∀ name f e v, (name, f) ∈ features → e ∈ xs → call f e = Ok v →
    Forall machine_number (flatten_val v).

(** The feature vector of one entity: each selected function applied in
    selection order, the results flattened. *)
Definition feature_vector {F X} (call : F → X → result pyval)
    (features : list (string * F)) (e : X) : result (list pynum) :=
  vs ← mapM (λ f, call f e) (odict_values features);
  mret (flatten vs).



Section SelectionKinds.
Context {constants : Constants}.

Definition node_only (name : string) : Prop :=
  is_Some (node_feat_values !! name) ∧ edge_feat_values !! name = None.
Definition edge_only (name : string) : Prop :=
  node_feat_values !! name = None ∧ is_Some (edge_feat_values !! name).
Definition unknown_name (name : string) : Prop :=
  node_feat_values !! name = None ∧ edge_feat_values !! name = None.

Definition mixes_node_and_edge (l : list string) : Prop :=
  (∃ a, a ∈ l ∧ node_only a) ∧ (∃ b, b ∈ l ∧ edge_only b).
Definition has_unknown_name (l : list string) : Prop :=
  ∃ u, u ∈ l ∧ unknown_name u.
End SelectionKinds.

Section ConjugateColumn.
Context {chem : Chem}.

(** What [conjugates_to_dataframe] stores for a row: the conjugate, or the
    structure itself when none could be made. *)
Definition conjugate_or_self (r : Row.t) (mol : Mol) : Mol :=
  match create_conjugate mol (Row.marvin_atom r) (Row.marvin_pKa r) true with
  | Ok c => c
  | Raise _ => mol
  end.

(** What it prints for row [i]. *)
Definition conjugate_log (i : nat) (r : Row.t) (mol : Mol) : list printed :=
  match create_conjugate mol (Row.marvin_atom r) (Row.marvin_pKa r) true with
  | Ok _ => []
  | Raise e =>
      [Line ("Could not create conjugate of mol number " +:+ pretty i);
       Line (str_exn e)]
  end.
End ConjugateColumn.

(** The role assignment of [sort_conjugates] on one row: the pair
    (protonated, deprotonated) and what is printed. *)
Definition sorted_pair (mol conj : Mol) (charge_mol charge_conj : Z)
  : Mol * Mol * list printed :=
  if decide (charge_mol < charge_conj)%Z then (conj, mol, [])
  else if decide (charge_mol > charge_conj)%Z then (mol, conj, [])
  else (mol, conj, [Line "prot = deprot"]).

(** ** A small vocabulary and a few structures to run the functions on *)

Module Toy.
Definition one_hot (v : Z) (domain : list Z) : pyval :=
  Seq (map (λ s, Num (PyInt (if decide (v = s) then 1 else 0))) domain).

Definition dyadic (m e : Z) : float := binary_normalize 53 1024 m e false.

Definition element_values : list Z := [1; 6; 7; 8]%Z.
Definition charge_values : list Z := [-1; 0; 1]%Z.
Definition bond_values : list Z := [1; 2; 3; 12]%Z.

Definition node_values : gmap string (list Z) :=
  <["element" := element_values]>
    (<["formal_charge" := charge_values]> (<["reaction_center" := [1%Z]]> ∅)).

Definition edge_values : gmap string (list Z) :=
  <["bond_type" := bond_values]> ∅.

Definition node_features : gmap string (Atom → Z → result pyval) :=
  <["element" := λ atom _, Ok (one_hot (GetAtomicNum atom) element_values)]>
    (<["formal_charge" := λ atom _, Ok (one_hot (GetFormalCharge atom) charge_values)]>
       (<["reaction_center" := λ atom idx,
            Ok (Num (PyInt (if decide (GetIdx atom = idx) then 1 else 0)))]> ∅)).

Definition edge_features : gmap string (Bond → result pyval) :=
  <["bond_type" := λ bond, Ok (one_hot (GetBondType bond) bond_values)]> ∅.

Definition constants : Constants :=
  {| NODE_FEATURES := node_features; EDGE_FEATURES := edge_features;
     node_feat_values := node_values; edge_feat_values := edge_values;
     DEVICE := "cpu" |}.

Definition atom (idx num charge : Z) : Atom :=
  {| GetIdx := idx; GetAtomicNum := num; GetFormalCharge := charge |}.

Definition single_bond (a b : Z) : Bond :=
  {| GetBeginAtomIdx := a; GetEndAtomIdx := b; GetBondType := 1 |}.

(** Two atoms, one bond; [q0] and [q1] are the formal charges. *)
Definition diatomic (q0 q1 : Z) (smiles : string)
    (props : gmap string propval) : Mol :=
  {| GetAtoms := [atom 0 7 q0; atom 1 6 q1];
     GetBonds := [single_bond 0 1];
     GetPropsAsDict := props;
     MolToSmiles := smiles |}.

Definition annotated : gmap string propval :=
  <["pKa" := PropNum (PyFloat (dyadic 21 (-1)))]>
    (<["epik_atom" := PropNum (PyInt 0)]>
       (<["marvin_atom" := PropNum (PyInt 1)]>
          (<["ID" := PropStr "mol1"]> ∅))).

Definition amine : Mol := diatomic 0 0 "CN" annotated.
Definition ammonium : Mol := diatomic 1 0 "C[NH3+]" annotated.
Definition no_pKa : Mol := diatomic 0 0 "CN" (delete "pKa" annotated).
Definition no_center : Mol :=
  diatomic 0 0 "CN" (delete "epik_atom" (delete "marvin_atom" annotated)).
Definition marvin_only : Mol := diatomic 0 0 "CN" (delete "epik_atom" annotated).
Definition anion : Mol := diatomic (-1) 0 "C[NH-]" ∅.

Definition set_charge (mol : Mol) (i : nat) (q : Z) : Mol :=
  {| GetAtoms := alter (λ a, atom (GetIdx a) (GetAtomicNum a) q) i (GetAtoms mol);
     GetBonds := GetBonds mol;
     GetPropsAsDict := GetPropsAsDict mol;
     MolToSmiles := MolToSmiles mol |}.

(** A conjugate generator that removes a proton at the given atom, and
    refuses an atom that is already an anion. *)
Definition deprotonate : Chem :=
  {| create_conjugate := λ mol idx _ _,
       a ← GetAtomWithIdx mol idx;
       if decide (GetFormalCharge a < 0)%Z
       then Raise (AssertionError "no proton to remove")
       else Ok (set_charge mol (Z.to_nat idx) (GetFormalCharge a - 1)) |}.

Definition row (id : string) (idx : Z) (pka : float)
    (cols : gmap string Mol) : Row.t :=
  {| Row.ID := id; Row.marvin_atom := idx; Row.marvin_pKa := pka;
     Row.pKa := pka; Row.mols := cols |}.

(** A frame as read from a structure file: the second structure is an anion. *)
Definition raw_frame : DataFrame :=
  [row "a" 0 (dyadic 21 (-1)) (<["ROMol" := amine]> ∅);
   row "b" 0 (dyadic 9 (-1)) (<["ROMol" := anion]> ∅)].

(** A frame after preprocessing. *)
Definition sorted_frame : DataFrame :=
  [row "a" 0 (dyadic 21 (-1))
     (<["protonated" := ammonium]> (<["deprotonated" := amine]> ∅));
   row "b" 0 (dyadic 9 (-1))
     (<["protonated" := amine]> (<["deprotonated" := anion]> ∅))].
End Toy.

(** ** Row-wise descriptions of the loops over a frame *)

(** The value of a result, if it is one. *)
Definition ok_of {A} (r : result A) : option A :=
  match r with Ok a => Some a | Raise _ => None end.

(** A loop over the rows of a frame, described row by row: [spec i r] is
    what row number [i] contributes and prints, or [None] when the body
    raises there. *)
Fixpoint run_rows {R T} (spec : nat → R → option (T * list printed))
    (start : nat) (rows : list R) : option (list (T * list printed)) :=
  match rows with
  | [] => Some []
  | r :: rows' =>
      tl ← spec start r; rest ← run_rows spec (S start) rows'; Some (tl :: rest)
  end.

Section RowSpecs.
Context {chem : Chem}.

(** Row [i] of [conjugates_to_dataframe]: what is stored and printed. *)
Definition conjugate_row (mol_col : string) (i : nat) (r : Row.t)
  : option (Mol * list printed) :=
  mol ← Row.mols r !! mol_col;
  Some (conjugate_or_self r mol, conjugate_log i r mol).

(** A row [conjugates_to_dataframe] and [sort_conjugates] both get through:
    it has a structure, and the reaction centre is an atom of the structure
    and of what is stored as its conjugate. *)
Definition well_annotated (r : Row.t) : Prop :=
  ∃ mol a b,
    Row.mols r !! "ROMol" = Some mol
    ∧ GetAtomWithIdx mol (Row.marvin_atom r) = Ok a
    ∧ GetAtomWithIdx (conjugate_or_self r mol) (Row.marvin_atom r) = Ok b.
End RowSpecs.

(** A row of [sort_conjugates]: the pair (protonated, deprotonated) and
    what is printed. *)
Definition sort_row (mol_col_1 mol_col_2 : string) (i : nat) (r : Row.t)
  : option (Mol * Mol * list printed) :=
  mol ← Row.mols r !! mol_col_1;
  conj ← Row.mols r !! mol_col_2;
  a ← ok_of (GetAtomWithIdx mol (Row.marvin_atom r));
  b ← ok_of (GetAtomWithIdx conj (Row.marvin_atom r));
  Some (sorted_pair mol conj (GetFormalCharge a) (GetFormalCharge b)).

Section DatasetRows.
Context {constants : Constants}.

(** Row [i] of the single-sided loop of [make_pyg_dataset_from_dataframe]:
    the sample appended to the dataset (nothing is printed). *)
Definition single_row (mode : string)
    (nf : list (string * (Atom → Z → result pyval)))
    (ef : list (string * (Bond → result pyval)))
    (i : nat) (r : Row.t) : option (sample * list printed) :=
  mol ← Row.mols r !! mode;
  g ← ok_of (mol_to_single_mol_data mol (Row.marvin_atom r) nf ef);
  Some (Single
          (Data.to DEVICE
             (Data.set_ID (PropStr (Row.ID r))
                (Data.set_reference_value
                   (FloatVector [float32 (Row.pKa r)]) g.1))), []).
End DatasetRows.

(** ** Selections, a pair and a tie on the toy structures *)

Module Fixture.
Definition selected_nodes : list (string * (Atom → Z → result pyval)) :=
  [("element", λ atom _, Ok (Toy.one_hot (GetAtomicNum atom) Toy.element_values));
   ("reaction_center", λ atom idx,
      Ok (Num (PyInt (if decide (GetIdx atom = idx) then 1 else 0))))].

Definition selected_edges : list (string * (Bond → result pyval)) :=
  [("bond_type", λ bond, Ok (Toy.one_hot (GetBondType bond) Toy.bond_values))].

(** The amine with its neighbour atom charged: atom 0 keeps its charge. *)
Definition shifted : Mol := Toy.set_charge Toy.amine 1 1.

(** A frame in which a structure meets a conjugate with the same charge at
    the reaction centre. *)
Definition tie_frame : DataFrame :=
  [Toy.row "a" 0 (Toy.dyadic 21 (-1))
     (<["ROMol" := Toy.amine]> (<["Conjugates" := shifted]> ∅))].

(** A pair whose sides differ in size: three protonated nodes, two
    deprotonated ones. *)
Definition pair : PairData.t :=
  {| PairData.base := Data.empty;
     PairData.edge_index_p := LongMatrix [[0; 1; 1; 2]; [1; 0; 2; 1]]%Z;
     PairData.edge_index_d := LongMatrix [[0; 1]; [1; 0]]%Z;
     PairData.x_p := Some (FloatMatrix [[]; []; []]);
     PairData.x_d := Some (FloatMatrix [[]; []]);
     PairData.edge_attr_p := FloatMatrix [[]; []; []; []];
     PairData.edge_attr_d := FloatMatrix [[]; []];
     PairData.charge_prot := 1;
     PairData.charge_deprot := 0 |}.

(** A base-class rule that never shifts anything. *)
Definition no_inc (_ : Data.t) (_ : string) (_ : unit) : result nat := Ok 0.
End Fixture.

(** ** The remaining helpers: folds and the random split

    [slice_list] and [train_validation_set_split] can meet three built-in
    exceptions that the functions above never raise. *)

Inductive pyexn :=
| Exn (e : exn)
| ZeroDivisionError
| OverflowError
| StopIteration.

Inductive attempt (A : Type) :=
| Done (a : A)
| Raised (e : pyexn).
Arguments Done {A} a.
Arguments Raised {A} e.

#[global] Instance attempt_ret : MRet attempt := λ A, Done.
#[global] Instance attempt_bind : MBind attempt := λ A B f m,
  match m with Done a => f a | Raised e => Raised e end.

Definition of_result {A} (r : result A) : attempt A :=
  match r with Ok a => Done a | Raise e => Raised (Exn e) end.

(** [a // b] and [a % b] on integers: the quotient is rounded down and the
    remainder has the sign of [b], as [Z.div] and [Z.modulo] have them. *)
Definition floordiv (a b : Z) : attempt Z :=
  if decide (b = 0)%Z then Raised ZeroDivisionError else Done (a `div` b)%Z.
Definition pymod (a b : Z) : attempt Z :=
  if decide (b = 0)%Z then Raised ZeroDivisionError else Done (a `mod` b)%Z.

(** [range(n)]: empty for a negative [n]. *)
Definition range (n : Z) : list nat := seq 0 (Z.to_nat n).

(** [next(iterator)] on a list iterator, which is what is left of the list. *)
Definition next {A} (iterator : list A) : attempt (A * list A) :=
  match iterator with
  | [] => Raised StopIteration
  | a :: rest => Done (a, rest)
  end.

(** [result[i].append(x)] *)
Definition append_at {A} (rows : list (list A)) (i : nat) (x : A)
  : attempt (list (list A)) :=
  match rows !! i with
  | Some row => Done (<[i := row ++ [x]]> rows)
  | None => Raised (Exn (IndexError "list index out of range"))
  end.

(** [l[i]] on a list: a negative index counts from the end. *)
Definition list_getitem {A} (l : list A) (i : Z) : result A :=
  let n := Z.of_nat (length l) in
  let j := if decide (i < 0)%Z then (i + n)%Z else i in
  if decide (0 ≤ j < n)%Z then
    match l !! Z.to_nat j with
    | Some a => Ok a
    | None => Raise (IndexError "list index out of range")
    end
  else Raise (IndexError "list index out of range").

(** Where the slices [l[:k]] and [l[k:]] cut: a negative [k] counts from
    the end, and the cut is clipped to the list. *)
Definition slice_bound {A} (l : list A) (k : Z) : nat :=
  let n := Z.of_nat (length l) in
  Z.to_nat (if decide (k < 0)%Z then Z.max 0 (n + k) else Z.min k n).
Definition slice_to {A} (l : list A) (k : Z) : list A := take (slice_bound l k) l.
Definition slice_from {A} (l : list A) (k : Z) : list A := drop (slice_bound l k) l.

(** [enumerate(l)] *)
Definition enumerate {A} (l : list A) : list (Z * A) :=
  imap (λ i x, (Z.of_nat i, x)) l.

(** Lines 567-581; [rows] is the source's [result], and the iterator is what
    is left of the list. *)
Definition slice_list {A} (input_list : list A) (size : Z)
  : attempt (list (list A)) :=
  let input_size := Z.of_nat (length input_list) in
  slice_size ← floordiv input_size size;
  remain ← pymod input_size size;
  let iterator := input_list in
  '(rows, iterator, remain) ← for_each (range size)
    (λ i '(rows, iterator, remain),
       let rows := rows ++ [[]] in
       '(rows, iterator) ← for_each (range slice_size)
         (λ j '(rows, iterator),
            '(x, iterator) ← next iterator;
            rows ← append_at rows i x;
            mret (rows, iterator))
         (rows, iterator);
       if decide (remain ≠ 0)%Z then
         '(x, iterator) ← next iterator;
         rows ← append_at rows i x;
         mret (rows, iterator, (remain - 1)%Z)
       else mret (rows, iterator, remain))
    ([], iterator, remain);
  mret rows.

(** Lines 584-588. *)
Definition cross_val_lists {A} (sliced_lists : list (list A)) (num : Z)
  : result (list A * list A) :=
  let not_flattend :=
    snd <$> filter (λ ix, ix.1 ≠ num) (enumerate sliced_lists) in
  let train_list := concat not_flattend in
  val_list ← list_getitem sliced_lists num;
  mret (train_list, val_list).

(** [round(v)] of a float: to the nearest integer, a tie to the even one. *)
Definition round_half_even (m : positive) (e : Z) : Z :=
  if decide (0 ≤ e)%Z then (Z.pos m * 2 ^ e)%Z
  else
    let d := (2 ^ (- e))%Z in
    let q := (Z.pos m `div` d)%Z in
    let r := (Z.pos m `mod` d)%Z in
    if decide (2 * r < d)%Z then q
    else if decide (d < 2 * r)%Z then (q + 1)%Z
    else if Z.even q then q else (q + 1)%Z.

Definition py_round (v : float) : attempt Z :=
  match v with
  | S754_zero _ => Done 0%Z
  | S754_infinity _ => Raised OverflowError
  | S754_nan => Raised (Exn (ValueError "cannot convert float NaN to integer"))
  | S754_finite s m e =>
      Done (if s then (- round_half_even m e)%Z else round_half_even m e)
  end.

(** [n * v] for an integer [n] and a float [v]. *)
Definition int_times_float (n : Z) (v : float) : float :=
  SFmul 53 1024 (float_of_Z n) v.

(** [random.seed(seed)] followed by [random.shuffle(ids)]: the generator is
    the standard library's and enters as a class. *)
Class Random := {
  shuffle : Z → list nat → list nat;
}.

(** [df.iloc[ids, :]]: the rows at these positions, each still labelled
    with its row number in [df]. *)
Definition iloc (df : DataFrame) (ids : list nat) : result (list (nat * Row.t)) :=
  mapM (λ i, match df !! i with
             | Some r => Ok (i, r)
             | None => Raise (IndexError "positional indexers are out-of-bounds")
             end) ids.

Section Split.
Context {random : Random}.

(** Lines 56-84.  The two frames keep the row numbers of [df] as their
    index. *)
Definition train_validation_set_split (df : DataFrame) (ratio : float) (seed : Z)
  : attempt (list (nat * Row.t) * list (nat * Row.t)) :=
  if negb (SFltb (S754_zero false) ratio && SFltb ratio (float_of_Z 1)) then
    Raised (Exn (AssertionError ""))
  else
    let length := Z.of_nat (length df) in
    split ← py_round (int_times_float length ratio);
    let ids := range length in
    let ids := shuffle seed ids in
    let train_ids := slice_to ids split in
    let val_ids := slice_from ids split in
    train_df ← of_result (iloc df train_ids);
    val_df ← of_result (iloc df val_ids);
    mret (train_df, val_df).
End Split.

(** ** Vocabulary of the statements about them *)

(** [k] slice lengths for a quotient [q]: the first [rem] are [q + 1]. *)
Fixpoint slice_sizes (q rem k : nat) : list nat :=
  match k with
  | 0 => []
  | S k' => (match rem with 0 => q | S _ => S q end) :: slice_sizes q (pred rem) k'
  end.

(** A list cut into pieces of the given lengths. *)
Fixpoint chunks {A} (sizes : list nat) (l : list A) : list (list A) :=
  match sizes with
  | [] => []
  | n :: sizes' => take n l :: chunks sizes' (drop n l)
  end.

(** The names of a list in order of first occurrence, those of [seen] left out. *)
Fixpoint first_occurrences (seen l : list string) : list string :=
  match l with
  | [] => []
  | x :: l' =>
      if decide (x ∈ seen) then first_occurrences seen l'
      else x :: first_occurrences (seen ++ [x]) l'
  end.

Section PairedRows.
Context {constants : Constants}.

(** Row [i] of the paired loop of [make_pyg_dataset_from_dataframe]. *)
Definition paired_row
    (nf : list (string * (Atom → Z → result pyval)))
    (ef : list (string * (Bond → result pyval)))
    (i : nat) (r : Row.t) : option (sample * list printed) :=
  prot ← Row.mols r !! "protonated";
  deprot ← Row.mols r !! "deprotonated";
  m ← ok_of (mol_to_paired_mol_data prot deprot (Row.marvin_atom r) nf ef);
  Some (Paired
          (PairData.on_base (Data.to DEVICE)
             (PairData.on_base (Data.set_ID (PropStr (Row.ID r)))
                (PairData.on_base
                   (Data.set_reference_value
                      (FloatVector [float32 (Row.pKa r)])) m))), []).
End PairedRows.

(** ** Further structures and frames to run the functions on *)

Module Cases.
(** A lone sodium ion: one atom, no bond. *)
Definition sodium : Mol :=
  {| GetAtoms := [Toy.atom 0 11 1];
     GetBonds := [];
     GetPropsAsDict := ∅;
     MolToSmiles := "[Na+]" |}.

(** A preprocessed frame whose second row holds the ion as its
    deprotonated structure. *)
Definition salt_row : Row.t :=
  Toy.row "s" 0 (Toy.dyadic 9 (-1))
    (<["protonated" := Toy.amine]> (<["deprotonated" := sodium]> ∅)).

Definition salt_frame : DataFrame :=
  [Toy.row "a" 0 (Toy.dyadic 21 (-1))
     (<["protonated" := Toy.ammonium]> (<["deprotonated" := Toy.amine]> ∅));
   salt_row].

(** A frame that keeps its structures under names of its own. *)
Definition renamed_frame : DataFrame :=
  [Toy.row "a" 0 (Toy.dyadic 21 (-1))
     (<["mol" := Toy.ammonium]> (<["conj" := Toy.amine]> ∅))].

(** An annotated anion, from which [Toy.deprotonate] takes no proton. *)
Definition annotated_anion : Mol := Toy.diatomic (-1) 0 "C[NH-]" Toy.annotated.


(** A structure without atoms, as an empty structure block gives. *)
Definition no_atoms : Mol :=
  {| GetAtoms := [];
     GetBonds := [];
     GetPropsAsDict := ∅;
     MolToSmiles := "" |}.

(** A frame as read from a structure file whose second row names a
    reaction centre, 5, that its structure of two atoms does not have. *)
Definition off_range_frame : DataFrame :=
  [Toy.row "a" 0 (Toy.dyadic 21 (-1)) (<["ROMol" := Toy.amine]> ∅);
   Toy.row "b" 5 (Toy.dyadic 9 (-1)) (<["ROMol" := Toy.amine]> ∅)].

(** The Python float [4.2], and what binary32 keeps of it,
    [4.19999980926513671875]. *)
Definition four_point_two : float := S754_finite false 4728779608739021 (-50).
Definition four_point_two_single : float := S754_finite false 8808038 (-21).

(** A preprocessed frame of one row whose pKa is [4.2]. *)
Definition decimal_frame : DataFrame :=
  [Toy.row "a" 0 four_point_two
     (<["protonated" := Toy.ammonium]> (<["deprotonated" := Toy.amine]> ∅))].

(** A shuffle that turns the list around, whatever the seed. *)
Definition reversing : Random := {| shuffle := λ _ ids, reverse ids |}.
End Cases.

(** * Properties *)

(** ** Lookups and loops that cannot fail *)

Lemma contains_true {V} (d : gmap string V) k :
  contains d k = true ↔ is_Some (d !! k).
Proof. unfold contains. destruct (d !! k); split; try done. Qed.

Lemma contains_false {V} (d : gmap string V) k :
  contains d k = false ↔ d !! k = None.
Proof. unfold contains. by destruct (d !! k). Qed.

Lemma getitem_Some {V} (d : gmap string V) k v :
  d !! k = Some v → getitem d k = Ok v.
Proof. unfold getitem. by intros ->. Qed.

Lemma getitem_None {V} (d : gmap string V) k :
  d !! k = None → getitem d k = Raise (KeyError k).
Proof. unfold getitem. by intros ->. Qed.

Lemma forallb_contains {V} (d : gmap string V) l :
  forallb (contains d) l = true ↔ ∀ k, k ∈ l → is_Some (d !! k).
Proof.
  rewrite forallb_forall. setoid_rewrite contains_true.
  by setoid_rewrite <- list_elem_of_In.
Qed.

Lemma forallb_contains_false {V} (d : gmap string V) l :
  forallb (contains d) l = false → ∃ k, k ∈ l ∧ d !! k = None.
Proof.
  induction l as [|k l IH]; simpl; [done|].
  destruct (contains d k) eqn:Hk; simpl.
  - intros [k' [??]]%IH. exists k'. split; [by right | done].
  - intros _. exists k. split; [by left | by apply contains_false].
Qed.

Lemma domain_size_Some vocab name v :
  vocab !! name = Some v → domain_size vocab name = length v.
Proof. unfold domain_size. by intros ->. Qed.

(** The summing loop never meets a [KeyError] once its guard held. *)
Lemma sum_loop_ok (vocab : gmap string (list Z)) l acc :
  forallb (contains vocab) l = true →
  for_each l (λ feat i_n, v ← getitem vocab feat; mret (i_n + length v)) acc
  = Ok (acc + sum_list_with (domain_size vocab) l).
Proof.
  revert acc. induction l as [|k l IH]; intros acc; simpl.
  - intros _. by rewrite Nat.add_0_r.
  - intros [Hk Hl]%andb_prop. apply contains_true in Hk as [v Hv].
    rewrite (getitem_Some _ _ _ Hv). simpl.
    rewrite IH by done. f_equal.
    rewrite (domain_size_Some _ _ _ Hv). lia.
Qed.

Section FeatureWidth.
Context {constants : Constants}.

Lemma width_of_node_selection l :
  (∀ k, k ∈ l → is_Some (node_feat_values !! k)) →
  calculate_nr_of_features l = Ok (sum_list_with (domain_size node_feat_values) l).
Proof.
  intros Hall%forallb_contains. unfold calculate_nr_of_features.
  rewrite Hall. by rewrite sum_loop_ok.
Qed.

Lemma width_of_edge_selection l :
  forallb (contains node_feat_values) l = false →
  (∀ k, k ∈ l → is_Some (edge_feat_values !! k)) →
  calculate_nr_of_features l = Ok (sum_list_with (domain_size edge_feat_values) l).
Proof.
  intros Hn Hall%forallb_contains. unfold calculate_nr_of_features.
  rewrite Hn, Hall. by rewrite sum_loop_ok.
Qed.

Lemma width_raises l :
  forallb (contains node_feat_values) l = false →
  forallb (contains edge_feat_values) l = false →
  calculate_nr_of_features l = Raise (RuntimeError "").
Proof. intros Hn He. unfold calculate_nr_of_features. by rewrite Hn, He. Qed.

(** Neither guard holds exactly when the selection mixes the two
    vocabularies or names something unknown. *)
Lemma guards_fail_iff l :
  forallb (contains node_feat_values) l = false ∧
  forallb (contains edge_feat_values) l = false
  ↔ mixes_node_and_edge l ∨ has_unknown_name l.
Proof.
  split.
  - intros [(a & Ha & Hna)%forallb_contains_false
            (b & Hb & Hnb)%forallb_contains_false].
    destruct (edge_feat_values !! a) as [va|] eqn:Hea;
      [|right; by exists a].
    destruct (node_feat_values !! b) as [vb|] eqn:Hnb';
      [|right; by exists b].
    left. split; [exists b | exists a]; repeat split; eauto.
  - assert (∀ k d, k ∈ l → d !! k = None →
              forallb (contains (V:=list Z) d) l = false) as Hfail.
    { intros k d Hk Hd. destruct (forallb (contains d) l) eqn:Hall; [|done].
      rewrite forallb_contains in Hall. destruct (Hall k Hk) as [? ?]. congruence. }
    intros [[(a & Ha & _ & Hea) (b & Hb & Hnb & _)] | (u & Hu & Hnu & Heu)];
      split; eauto.
Qed.

(** C7: the feature-width computation raises when the selection mixes
    node-only and edge-only names or holds a name of neither vocabulary;
    otherwise all names belong to one vocabulary (the node one when both
    would do) and the result is the sum of their value-domain sizes there. *)
Theorem calculate_nr_of_features_spec (feature_list : list string) :
  (mixes_node_and_edge feature_list ∨ has_unknown_name feature_list →
     calculate_nr_of_features feature_list = Raise (RuntimeError ""))
  ∧ (¬ (mixes_node_and_edge feature_list ∨ has_unknown_name feature_list) →
       ((∀ k, k ∈ feature_list → is_Some (node_feat_values !! k)) ∧
        calculate_nr_of_features feature_list
        = Ok (sum_list_with (domain_size node_feat_values) feature_list))
     ∨ ((∀ k, k ∈ feature_list → is_Some (edge_feat_values !! k)) ∧
        calculate_nr_of_features feature_list
        = Ok (sum_list_with (domain_size edge_feat_values) feature_list))).
Proof.
  split.
  - intros [Hn He]%guards_fail_iff. by apply width_raises.
  - intros Hgood.
    destruct (forallb (contains node_feat_values) feature_list) eqn:Hn.
    { left. rewrite forallb_contains in Hn.
      split; [done | by apply width_of_node_selection]. }
    destruct (forallb (contains edge_feat_values) feature_list) eqn:He.
    { right. rewrite forallb_contains in He.
      split; [done | by apply width_of_edge_selection]. }
    destruct Hgood. by apply guards_fail_iff.
Qed.

(** C10: the empty selection has width 0 and raises nothing. *)
Theorem calculate_nr_of_features_nil :
  calculate_nr_of_features [] = Ok 0.
Proof. reflexivity. Qed.
End FeatureWidth.

(** On the toy vocabulary: a node selection, an edge selection, a mixed
    one and an unknown name. *)
Example width_examples :
  @calculate_nr_of_features Toy.constants ["element"; "formal_charge"] = Ok 7
  ∧ @calculate_nr_of_features Toy.constants ["bond_type"] = Ok 4
  ∧ @calculate_nr_of_features Toy.constants ["element"; "bond_type"]
    = Raise (RuntimeError "")
  ∧ @calculate_nr_of_features Toy.constants ["element"; "colour"]
    = Raise (RuntimeError "").
Proof. by vm_compute. Qed.

(** ** Batching increments of a pair *)

(** C2: the increment for [edge_index_p] is the row count of [x_p], the one
    for [edge_index_d] the row count of [x_d]; each is fixed by its own
    side alone, whatever the other side, the passed value or the base
    class's rule are. *)
Theorem PairData_inc_sides {V} (super_inc : Data.t → string → V → result nat)
    (self : PairData.t) (value : V) (rows_p rows_d : list (list float)) :
  PairData.x_p self = Some (FloatMatrix rows_p) →
  PairData.x_d self = Some (FloatMatrix rows_d) →
  PairData.__inc__ super_inc self "edge_index_p" value = Ok (length rows_p)
  ∧ PairData.__inc__ super_inc self "edge_index_d" value = Ok (length rows_d)
  ∧ (∀ other value',
       PairData.x_p other = PairData.x_p self →
       PairData.__inc__ super_inc other "edge_index_p" value' = Ok (length rows_p))
  ∧ (∀ other value',
       PairData.x_d other = PairData.x_d self →
       PairData.__inc__ super_inc other "edge_index_d" value' = Ok (length rows_d)).
Proof.
  intros Hp Hd. unfold PairData.__inc__. simpl.
  repeat split.
  - by rewrite Hp.
  - by rewrite Hd.
  - intros other _ ->. by rewrite Hp.
  - intros other _ ->. by rewrite Hd.
Qed.

(** ** From a selection list to the selected dict *)

Lemma odict_set_fresh {V} (d : list (string * V)) k v :
  k ∉ odict_keys d → odict_set d k v = d ++ [(k, v)].
Proof.
  induction d as [|[k' v'] d IH]; simpl; [done|].
  intros Hk. apply not_elem_of_cons in Hk as [Hne Hk].
  rewrite decide_False by done. by rewrite IH.
Qed.

Lemma make_features_dicts_loop {F} (all_features : gmap string F) feat_list d :
  NoDup (odict_keys d ++ feat_list) →
  (∀ x, x ∈ feat_list → is_Some (all_features !! x)) →
  ∃ d', for_each feat_list
          (λ x d, f ← getitem all_features x; mret (odict_set d x f)) d
        = Ok (d ++ d')
        ∧ odict_keys d' = feat_list
        ∧ ∀ name f, (name, f) ∈ d' → all_features !! name = Some f.
Proof.
  revert d. induction feat_list as [|x l IH]; intros d Hnd Hall; simpl.
  - exists []. rewrite app_nil_r. split_and!; [done..|]. by intros ?? ?%elem_of_nil.
  - destruct (Hall x) as [f Hf]; [by left|].
    rewrite (getitem_Some _ _ _ Hf). simpl.
    apply NoDup_app in Hnd as (Hd & Hdisj & Hl).
    rewrite odict_set_fresh by (intros Hin; eapply Hdisj; [done | by left]).
    destruct (IH (d ++ [(x, f)])) as (d' & Hrun & Hkeys & Hfrom).
    { unfold odict_keys. rewrite fmap_app. simpl. rewrite <- app_assoc. simpl.
      apply NoDup_app. split_and!; [done | | done].
      intros y Hy. by apply Hdisj. }
    { intros y Hy. apply Hall. by right. }
    exists ((x, f) :: d'). rewrite Hrun, <- app_assoc. simpl.
    split_and!; [done | by rewrite <- Hkeys |].
    intros name g [Heq | Hin]%elem_of_cons; [by injection Heq as -> -> | eauto].
Qed.

(** A selection without repeated names, all of them in the table, gives a
    dict with exactly these keys in this order, each bound to the table's
    function. *)
Lemma make_features_dicts_NoDup {F} (all_features : gmap string F) feat_list :
  NoDup feat_list →
  (∀ x, x ∈ feat_list → is_Some (all_features !! x)) →
  ∃ d, make_features_dicts all_features feat_list = Ok d
       ∧ odict_keys d = feat_list
       ∧ ∀ name f, (name, f) ∈ d → all_features !! name = Some f.
Proof.
  intros Hnd Hall.
  destruct (make_features_dicts_loop all_features feat_list [] Hnd Hall)
    as (d & Hrun & Hkeys & Hfrom).
  by exists d.
Qed.

(** A repeated name is kept once by the dict, but counted twice by the
    width computation. *)
Example repeated_name_collapses :
  (odict_keys <$> make_features_dicts Toy.node_features ["element"; "element"])
  = Ok ["element"]
  ∧ @calculate_nr_of_features Toy.constants ["element"; "element"] = Ok 8.
Proof. by vm_compute. Qed.

(** ** Loops that collect their results *)

Lemma for_each_ext {X S} (xs : list X) (body body' : X → S → result S) s :
  (∀ x s, body x s = body' x s) →
  for_each xs body s = for_each xs body' s.
Proof.
  intros Hext. revert s. induction xs as [|x xs IH]; intros s; simpl; [done|].
  rewrite Hext. destruct (body' x s); simpl; [apply IH | done].
Qed.

Lemma collect_loop {X Y} (f : X → result Y) xs acc :
  for_each xs (λ x acc, y ← f x; mret (acc ++ [y])) acc
  = (ys ← mapM f xs; mret (acc ++ ys)).
Proof.
  revert acc. induction xs as [|x xs IH]; intros acc; simpl.
  - by rewrite app_nil_r.
  - destruct (f x) as [y|e]; simpl; [|done].
    rewrite IH. destruct (mapM f xs); simpl; [|done].
    by rewrite <- app_assoc.
Qed.

Lemma mapM_Ok {X Y} (f : X → result Y) (P : Y → Prop) xs :
  (∀ x, x ∈ xs → ∃ y, f x = Ok y ∧ P y) →
  ∃ ys, mapM f xs = Ok ys ∧ Forall2 (λ x y, f x = Ok y) xs ys ∧ Forall P ys.
Proof.
  induction xs as [|x xs IH]; intros Hall; simpl.
  - exists []. by repeat constructor.
  - destruct (Hall x) as (y & Hy & HP); [by left|].
    destruct IH as (ys & Hys & HF & HPs); [intros; apply Hall; by right|].
    exists (y :: ys). rewrite Hy; simpl. rewrite Hys; simpl.
    by repeat constructor.
Qed.

(** ** One feature vector *)

Lemma flatten_cons v vs : flatten (v :: vs) = flatten_val v ++ flatten vs.
Proof. reflexivity. Qed.

Lemma encodes_with_tail {F X} (call : F → X → result pyval) xs p features width :
  encodes_with call xs (p :: features) width → encodes_with call xs features width.
Proof. intros H name f e Hin He. apply H; [by right | done]. Qed.

Lemma feature_vector_ok {F X} (call : F → X → result pyval) xs features width e :
  encodes_with call xs features width → e ∈ xs →
  ∃ v, feature_vector call features e = Ok v
       ∧ length v = sum_list_with width (odict_keys features).
Proof.
  intros Henc He. unfold feature_vector, odict_values, odict_keys.
  induction features as [|[name f] features IH]; csimpl.
  - by exists [].
  - destruct (Henc name f e) as (v & Hv & Hlen); [by left | done |].
    destruct IH as (w & Hw & Hwlen); [by eapply encodes_with_tail|].
    rewrite Hv; csimpl.
    destruct (mapM (λ f0, call f0 e) features.*2) as [vs|] eqn:Hvs; simpl in *;
      [|done].
    injection Hw as <-. eexists; split; [done|].
    rewrite flatten_cons, length_app. lia.
Qed.

Lemma rectangular_same_width {A} (rows : list (list A)) w :
  Forall (λ row, length row = w) rows → rectangular rows = true.
Proof.
  destruct 1 as [|r rs Hr Hrs]; simpl; [done|].
  apply forallb_forall. intros r' Hin%list_elem_of_In.
  rewrite Forall_forall in Hrs. apply Nat.eqb_eq. rewrite Hr. by apply Hrs.
Qed.

Lemma np_array_ok {A} (rows : list (list A)) w :
  Forall (λ row, length row = w) rows → np_array rows = Ok rows.
Proof. intros H. unfold np_array. by rewrite (rectangular_same_width _ w). Qed.

Lemma float_rows_width d (x : list (list pynum)) w :
  Forall (λ v, length v = w) x →
  Forall (λ row, length row = w) (as_float32 d <$> x).
Proof.
  intros H. apply Forall_fmap. eapply Forall_impl; [exact H|].
  intros v Hv. simpl. unfold as_float32. by rewrite length_map.
Qed.

(** ** Numbers the tensor library takes *)

Lemma promote_machine d n :
  d = int64 ∨ d = float64 → machine_number n →
  promote_types d (dtype_of n) = int64 ∨ promote_types d (dtype_of n) = float64.
Proof.
  intros Hd Hn. destruct n as [z|v]; simpl in *.
  - rewrite decide_True by done. destruct Hd as [-> | ->]; by (left + right).
  - destruct Hd as [-> | ->]; by right.
Qed.

Lemma result_type_machine ns :
  Forall machine_number ns → result_type ns = int64 ∨ result_type ns = float64.
Proof.
  destruct 1 as [|n ns Hn Hns]; simpl; [by right|].
  assert (dtype_of n = int64 ∨ dtype_of n = float64) as Hd.
  { destruct n as [z|v]; simpl in *; [rewrite decide_True by done; by left|by right]. }
  revert Hd. generalize (dtype_of n). induction Hns as [|n' ns Hn' _ IH]; intros d Hd;
    simpl; [done|].
  apply IH. by apply promote_machine.
Qed.

(** An array of machine numbers with at least one row becomes a float
    matrix of the same shape. *)
Lemma torch_float_ok (rows : list (list pynum)) :
  rows ≠ [] → Forall machine_number (concat rows) →
  torch_float rows
  = Ok (FloatMatrix (as_float32 (result_type (concat rows)) <$> rows)).
Proof.
  intros Hne Hnum. unfold torch_float.
  destruct (result_type_machine _ Hnum) as [-> | ->]; by destruct rows.
Qed.

Lemma torch_float_Ok (rows : list (list pynum)) t :
  torch_float rows = Ok t → size0 t = Ok (length rows).
Proof.
  unfold torch_float.
  destruct (result_type (concat rows)); try done; intros [= <-];
    destruct rows; simpl; by rewrite ?length_map.
Qed.

(** An [int64] array is rounded once, to binary32; next to a float the
    same integer is a double first, and the two roundings differ. *)
Example int64_is_rounded_once :
  torch_float [[PyInt (2 ^ 60 + 2 ^ 36 + 1)]]
  = Ok (FloatMatrix [[S754_finite false 8388609 37]])
  ∧ torch_float [[PyInt (2 ^ 60 + 2 ^ 36 + 1); PyFloat (S754_zero false)]]
    = Ok (FloatMatrix [[S754_finite false 8388608 37; S754_zero false]]).
Proof. split; by vm_compute. Qed.

(** An integer outside the [int64] range makes an array the tensor library
    refuses. *)
Example uint64_is_refused :
  ∃ msg, torch_float [[PyInt (2 ^ 63)]] = Raise (TypeError msg).
Proof. eexists. by vm_compute. Qed.

Lemma feature_vector_machine {F X} (call : F → X → result pyval) xs features e v :
  returns_machine_numbers call xs features → e ∈ xs →
  feature_vector call features e = Ok v → Forall machine_number v.
Proof.
  intros Hnum He. unfold feature_vector, odict_values. revert v.
  induction features as [|[name f] features IH]; intros v; csimpl.
  - intros [= <-]. constructor.
  - destruct (call f e) as [w|] eqn:Hw; csimpl; [|done].
    destruct (mapM (λ f0, call f0 e) features.*2) as [ws|] eqn:Hws; csimpl; [|done].
    intros [= <-]. rewrite flatten_cons. apply Forall_app. split.
    + eapply Hnum; [by left | done | done].
    + apply IH; [|done].
      intros name' f' e' v' Hin. apply (Hnum name' f' e' v'). by right.
Qed.

(** ** The node builder *)

Lemma make_nodes_rows mol atom_idx n_features :
  make_nodes mol atom_idx n_features
  = (x ← mapM (feature_vector (on_atom atom_idx) n_features) (GetAtoms mol);
     arr ← np_array x;
     torch_float arr).
Proof.
  unfold make_nodes.
  rewrite (for_each_ext _ _
             (λ atom x, node ← feature_vector (on_atom atom_idx) n_features atom;
                        mret (x ++ [node]))).
  - rewrite collect_loop.
    by destruct (mapM (feature_vector (on_atom atom_idx) n_features) (GetAtoms mol)).
  - intros atom x. rewrite collect_loop. unfold feature_vector, on_atom.
    by destruct (mapM (λ f, f atom atom_idx) (odict_values n_features)).
Qed.

(** What the node builder returns for a molecule with atoms when every
    selected function encodes every atom with [width name] machine
    numbers. *)
Lemma make_nodes_matrix mol atom_idx n_features width :
  GetAtoms mol ≠ [] →
  encodes_with (on_atom atom_idx) (GetAtoms mol) n_features width →
  returns_machine_numbers (on_atom atom_idx) (GetAtoms mol) n_features →
  ∃ x,
    make_nodes mol atom_idx n_features
    = Ok (FloatMatrix (as_float32 (result_type (concat x)) <$> x))
    ∧ Forall2 (λ atom v, feature_vector (on_atom atom_idx) n_features atom = Ok v)
        (GetAtoms mol) x
    ∧ Forall (λ v, length v = sum_list_with width (odict_keys n_features)) x
    ∧ Forall machine_number (concat x).
Proof.
  intros Hatoms Henc Hnum.
  destruct (mapM_Ok (feature_vector (on_atom atom_idx) n_features)
              (λ v, length v = sum_list_with width (odict_keys n_features))
              (GetAtoms mol)) as (x & Hx & HF & Hw).
  { intros atom Hatom. by eapply feature_vector_ok. }
  assert (Forall machine_number (concat x)) as Hmach.
  { apply Forall_concat, Forall_forall. intros v Hv.
    apply list_elem_of_lookup in Hv as [i Hi].
    destruct (Forall2_lookup_r _ _ _ _ _ HF Hi) as (atom & Hatom & Hfv).
    eapply feature_vector_machine; [done | by eapply list_elem_of_lookup_2 | done]. }
  exists x. split_and!; [| done | done | done].
  rewrite make_nodes_rows, Hx. simpl.
  rewrite (np_array_ok _ (sum_list_with width (odict_keys n_features))) by done.
  simpl. apply torch_float_ok; [|done].
  intros ->. apply Forall2_nil_inv_r in HF. done.
Qed.

Section NodeBuilder.
Context {constants : Constants}.

(** C4, as the code has it: for a molecule with at least one atom and a
    selection of node-vocabulary names whose functions encode every atom
    with as many numbers as the feature's value domain has, each a float
    or an integer of the int64 range, the node builder returns a matrix
    with one row per atom, row [i] being the feature vector of the [i]-th
    atom in the molecule's own order, cast to 32-bit floats from the type
    the array of all the vectors has ([x] below is the list of the
    vectors), and every row as wide as the feature width computed for the
    selection, the sum of the selected features' value-domain sizes. *)
Theorem make_nodes_shape (mol : Mol) (atom_idx : Z)
    (n_features : list (string * (Atom → Z → result pyval))) :
  GetAtoms mol ≠ [] →
  (∀ name, name ∈ odict_keys n_features → is_Some (node_feat_values !! name)) →
  encodes_with (on_atom atom_idx) (GetAtoms mol) n_features
    (domain_size node_feat_values) →
  returns_machine_numbers (on_atom atom_idx) (GetAtoms mol) n_features →
  ∃ rows width x,
    make_nodes mol atom_idx n_features = Ok (FloatMatrix rows)
    ∧ calculate_nr_of_features (odict_keys n_features) = Ok width
    ∧ width = sum_list_with (domain_size node_feat_values) (odict_keys n_features)
    ∧ length rows = length (GetAtoms mol)
    ∧ Forall (λ row, length row = width) rows
    ∧ Forall2 (λ atom v, feature_vector (on_atom atom_idx) n_features atom = Ok v)
        (GetAtoms mol) x
    ∧ (result_type (concat x) = int64 ∨ result_type (concat x) = float64)
    ∧ ∀ i atom, GetAtoms mol !! i = Some atom →
        ∃ v, feature_vector (on_atom atom_idx) n_features atom = Ok v
             ∧ rows !! i = Some (as_float32 (result_type (concat x)) v).
Proof.
  intros Hatoms Hnames Henc Hnum.
  destruct (make_nodes_matrix _ _ _ _ Hatoms Henc Hnum)
    as (x & Hmk & HF & Hw & Hmach).
  eexists (as_float32 (result_type (concat x)) <$> x), _, x.
  split_and!.
  - done.
  - by apply width_of_node_selection.
  - done.
  - rewrite length_fmap. symmetry. by eapply Forall2_length.
  - by apply float_rows_width.
  - done.
  - by apply result_type_machine.
  - intros i atom Hi.
    destruct (Forall2_lookup_l _ _ _ _ _ HF Hi) as (v & Hv & Hfv).
    exists v. split; [done|]. by rewrite list_lookup_fmap, Hv.
Qed.

(** The same for a selection given as a list of names without repeats,
    through [make_features_dicts]: the width is the one computed for the
    list. *)
Lemma make_nodes_of_selection_list (mol : Mol) (atom_idx : Z)
    (list_n : list string) :
  GetAtoms mol ≠ [] →
  NoDup list_n →
  (∀ name, name ∈ list_n →
     is_Some (NODE_FEATURES !! name) ∧ is_Some (node_feat_values !! name)) →
  (∀ name f atom, NODE_FEATURES !! name = Some f → atom ∈ GetAtoms mol →
     ∃ v, f atom atom_idx = Ok v
          ∧ length (flatten_val v) = domain_size node_feat_values name
          ∧ Forall machine_number (flatten_val v)) →
  ∃ n_features rows width,
    make_features_dicts NODE_FEATURES list_n = Ok n_features
    ∧ make_nodes mol atom_idx n_features = Ok (FloatMatrix rows)
    ∧ calculate_nr_of_features list_n = Ok width
    ∧ length rows = length (GetAtoms mol)
    ∧ Forall (λ row, length row = width) rows.
Proof.
  intros Hatoms Hnd Hnames Hfun.
  destruct (make_features_dicts_NoDup NODE_FEATURES list_n Hnd)
    as (n_features & Hdict & Hkeys & Hfrom); [intros; by apply Hnames|].
  destruct (make_nodes_matrix mol atom_idx n_features
              (domain_size node_feat_values)) as (x & Hmk & HF & Hw & _).
  { done. }
  { intros name f atom Hin Hatom.
    destruct (Hfun name f atom) as (v & Hv & Hlen & _); [by apply Hfrom | done |].
    by exists v. }
  { intros name f atom v Hin Hatom Hv.
    destruct (Hfun name f atom) as (v' & Hv' & _ & Hm); [by apply Hfrom | done |].
    unfold on_atom in Hv. congruence. }
  eexists n_features, (as_float32 (result_type (concat x)) <$> x), _. split_and!.
  - done.
  - done.
  - apply width_of_node_selection. intros; by apply Hnames.
  - rewrite length_fmap. symmetry. by eapply Forall2_length.
  - rewrite <- Hkeys. by apply float_rows_width.
Qed.
End NodeBuilder.

(** ** The edge builder *)



Lemma mapM_cons {X Y} (f : X → result Y) x xs :
  mapM f (x :: xs) = (y ← f x; k ← mapM f xs; mret (y :: k)).
Proof. reflexivity. Qed.





(** A molecule without bonds leaves nothing to stack. *)
Lemma make_edges_and_attr_no_bonds mol e_features :
  GetBonds mol = [] →
  make_edges_and_attr mol e_features
  = Raise (ValueError "need at least one array to concatenate").
Proof. intros H. unfold make_edges_and_attr. by rewrite H. Qed.





(** ** Printing code: the monad, and loops over row numbers *)

Lemma py_eta {A} (m : py A) : Py (output m) (outcome m) = m.
Proof. by destruct m. Qed.

Lemma bind_Py_Ok {A B} out (a : A) (f : A → py B) :
  (Py out (Ok a) ≫= f) = Py (out ++ output (f a)) (outcome (f a)).
Proof. reflexivity. Qed.

Lemma bind_Py_Raise {A B} out e (f : A → py B) :
  (Py out (Raise e) ≫= f) = Py out (Raise e).
Proof. reflexivity. Qed.

Lemma bind_lift_Ok {A B} (a : A) (f : A → py B) : (lift (Ok a) ≫= f) = f a.
Proof. unfold lift. rewrite bind_Py_Ok. apply py_eta. Qed.

Lemma for_each_py_cons {X S} (x : X) xs (body : X → S → py S) s :
  for_each (x :: xs) body s = (s' ← body x s; for_each xs body s').
Proof. reflexivity. Qed.

(** A loop whose body raises at one of its elements, whatever the state,
    raises. *)
Lemma for_each_py_raises {X S} (xs : list X) (body : X → S → py S) x :
  x ∈ xs →
  (∀ s, ∃ out e, body x s = Py out (Raise e)) →
  ∀ s, ∃ out e, for_each xs body s = Py out (Raise e).
Proof.
  intros Hx Hbody. induction xs as [|y xs IH]; intros s; [by apply elem_of_nil in Hx|].
  rewrite for_each_py_cons.
  apply elem_of_cons in Hx as [<-|Hx].
  - destruct (Hbody s) as (out & e & ->). by eexists _, _.
  - destruct (body y s) as [out [s'|e]]; [|by eexists _, _].
    rewrite bind_Py_Ok.
    destruct (IH Hx s') as (out' & e & ->). by eexists _, _.
Qed.

Lemma df_row_Some (df : DataFrame) i r : df !! i = Some r → df_row df i = Ok r.
Proof. unfold df_row. by intros ->. Qed.

Lemma df_mol_Some (df : DataFrame) col i r mol :
  df !! i = Some r → Row.mols r !! col = Some mol → df_mol df col i = Ok mol.
Proof.
  intros Hr Hm. unfold df_mol. rewrite (df_row_Some _ _ _ Hr). simpl.
  by apply getitem_Some.
Qed.

(** A loop over the row numbers of a frame whose body, on row [i], prints
    [log] and folds [t] into the state, where [spec i r = Some (t, log)]. *)
Lemma index_loop {R St T} (df : list R) (body : nat → St → py St)
    (spec : nat → R → option (T * list printed)) (step : St → T → St) :
  (∀ i r t log s, df !! i = Some r → spec i r = Some (t, log) →
     body i s = Py log (Ok (step s t))) →
  ∀ suf pre ts s,
    df = pre ++ suf → run_rows spec (length pre) suf = Some ts →
    for_each (seq (length pre) (length suf)) body s
    = Py (concat ts.*2) (Ok (foldl step s ts.*1)).
Proof.
  intros Hbody. induction suf as [|r suf IH]; intros pre ts s Hdf Hrun.
  - injection Hrun as <-. reflexivity.
  - simpl in Hrun.
    destruct (spec (length pre) r) as [[t log]|] eqn:Hspec; [|done].
    simpl in Hrun.
    destruct (run_rows spec (S (length pre)) suf) as [rest|] eqn:Hrest; [|done].
    injection Hrun as <-.
    simpl length. simpl seq. rewrite for_each_py_cons.
    rewrite (Hbody _ r t log); [|by rewrite Hdf, list_lookup_middle|done].
    rewrite bind_Py_Ok.
    specialize (IH (pre ++ [r]) rest (step s t)).
    rewrite length_app in IH. simpl in IH.
    rewrite Nat.add_1_r in IH.
    rewrite IH; [done | by rewrite <- app_assoc | done].
Qed.

Lemma run_rows_lookup {R T} (spec : nat → R → option (T * list printed))
    rows start ts k r :
  run_rows spec start rows = Some ts → rows !! k = Some r →
  ∃ tl, ts !! k = Some tl ∧ spec (start + k) r = Some tl.
Proof.
  revert start ts k. induction rows as [|r0 rows IH]; intros start ts k Hrun Hk;
    [done|].
  simpl in Hrun.
  destruct (spec start r0) as [tl0|] eqn:Hspec; [|done]. simpl in Hrun.
  destruct (run_rows spec (S start) rows) as [rest|] eqn:Hrest; [|done].
  injection Hrun as <-.
  destruct k as [|k]; simpl in *.
  - injection Hk as <-. exists tl0. by rewrite Nat.add_0_r.
  - destruct (IH _ _ _ Hrest Hk) as (tl & ? & ?). exists tl.
    split; [done|]. by rewrite <- Nat.add_succ_comm.
Qed.

Lemma run_rows_length {R T} (spec : nat → R → option (T * list printed))
    rows start ts :
  run_rows spec start rows = Some ts → length ts = length rows.
Proof.
  revert start ts. induction rows as [|r0 rows IH]; intros start ts Hrun.
  - by injection Hrun as <-.
  - simpl in Hrun.
    destruct (spec start r0) as [tl0|]; [|done]. simpl in Hrun.
    destruct (run_rows spec (S start) rows) as [rest|] eqn:Hrest; [|done].
    injection Hrun as <-. simpl. f_equal. by eapply IH.
Qed.

Lemma run_rows_total {R T} (spec : nat → R → option (T * list printed))
    rows start :
  (∀ k r, rows !! k = Some r → is_Some (spec (start + k) r)) →
  is_Some (run_rows spec start rows).
Proof.
  revert start. induction rows as [|r0 rows IH]; intros start Hall; [by eexists|].
  simpl. destruct (Hall 0 r0) as [tl Htl]; [done|].
  rewrite Nat.add_0_r in Htl. rewrite Htl. simpl.
  destruct (IH (S start)) as [rest Hrest].
  { intros k r Hk. rewrite Nat.add_succ_comm. by apply (Hall (S k)). }
  rewrite Hrest. by eexists.
Qed.

(** ** Conjugates of a frame and their roles *)

Lemma foldl_snoc {A} (acc l : list A) :
  foldl (λ acc a, acc ++ [a]) acc l = acc ++ l.
Proof.
  revert acc. induction l as [|a l IH]; intros acc; simpl.
  - by rewrite app_nil_r.
  - by rewrite IH, <- app_assoc.
Qed.

(** The two role assignments agree whenever the charges differ. *)
Lemma roles_agree_off_ties mol conj q1 q2 :
  q1 ≠ q2 →
  (sorted_pair mol conj q1 q2).1
  = if decide (q1 > q2)%Z then (mol, conj) else (conj, mol).
Proof. intros Hne. unfold sorted_pair. repeat case_decide; try done; lia. Qed.



Lemma sorted_pair_tie mol conj q :
  sorted_pair mol conj q q = (mol, conj, [Line "prot = deprot"]).
Proof. unfold sorted_pair. by rewrite !decide_False by lia. Qed.

Section ConjugateFacts.
Context {chem : Chem}.

Lemma conjugates_to_dataframe_rows (df : DataFrame) mol_col ts :
  run_rows (conjugate_row mol_col) 0 df = Some ts →
  conjugates_to_dataframe df mol_col
  = Py (concat ts.*2) (Ok (zip_with (set_mol "Conjugates") df ts.*1)).
Proof.
  intros Hrun. unfold conjugates_to_dataframe.
  pose proof (index_loop df
    (λ i conjugates,
       mol ← lift (df_mol df mol_col i);
       index ← lift (Row.marvin_atom <$> df_row df i);
       pka ← lift (Row.marvin_pKa <$> df_row df i);
       try_except
         (conj ← lift (create_conjugate mol index pka true);
          mret (conjugates ++ [conj]))
         is_Exception
         (λ e,
            print (Line ("Could not create conjugate of mol number " +:+ pretty i));;
            print (Line (str_exn e));;
            mret (conjugates ++ [mol])))
    (conjugate_row mol_col) (λ acc c, acc ++ [c])) as Hloop.
  rewrite (Hloop) with (pre := []) (ts := ts); [|clear Hloop|done|done].
  - rewrite bind_Py_Ok, foldl_snoc. simpl.
    unfold df_set_column. rewrite decide_True.
    + simpl. by rewrite app_nil_r.
    + rewrite length_fmap. by eapply run_rows_length.
  - intros i r t log s Hr Hspec. unfold conjugate_row in Hspec.
    destruct (Row.mols r !! mol_col) as [mol|] eqn:Hmol; [|done].
    injection Hspec as <- <-.
    rewrite (df_mol_Some _ _ _ _ _ Hr Hmol), (df_row_Some _ _ _ Hr).
    cbn [fmap result_fmap]. rewrite !bind_lift_Ok.
    unfold conjugate_or_self, conjugate_log.
    by destruct (create_conjugate mol (Row.marvin_atom r) (Row.marvin_pKa r) true).
Qed.

Lemma foldl_snoc_pair {A B} (l : list (A * B)) (p : list A) (d : list B) :
  foldl (λ '(p, d) '(a, b), (p ++ [a], d ++ [b])) (p, d) l = (p ++ l.*1, d ++ l.*2).
Proof.
  revert p d. induction l as [|[a b] l IH]; intros p d; simpl.
  - by rewrite !app_nil_r.
  - by rewrite IH, <- !app_assoc.
Qed.

Lemma bind_lift_lift {A B C} (r : result A) (f : A → result B)
    (g : B → result C) :
  (lift r ≫= λ a, lift (f a) ≫= λ b, lift (g b)) = lift (r ≫= λ a, f a ≫= g).
Proof.
  destruct r as [a|]; [|done]. cbn.
  destruct (f a) as [b|]; [|done]. cbn.
  by destruct (g b).
Qed.

Lemma sort_conjugates_rows (df : DataFrame) mol_col_1 mol_col_2 ts :
  run_rows (sort_row mol_col_1 mol_col_2) 0 df = Some ts →
  sort_conjugates df mol_col_1 mol_col_2
  = Py (concat ts.*2)
       (df1 ← df_set_column df "protonated" ts.*1.*1;
        df2 ← df_set_column df1 "deprotonated" ts.*1.*2;
        df_drop df2 ["ROMol"; "Conjugates"]).
Proof.
  intros Hrun. unfold sort_conjugates.
  pose proof (index_loop df
    (λ i '(prot, deprot),
       indx ← lift (Row.marvin_atom <$> df_row df i);
       mol ← lift (df_mol df mol_col_1 i);
       conj ← lift (df_mol df mol_col_2 i);
       charge_mol ← lift (GetFormalCharge <$> GetAtomWithIdx mol indx);
       charge_conj ← lift (GetFormalCharge <$> GetAtomWithIdx conj indx);
       if decide (charge_mol < charge_conj)%Z then
         mret (prot ++ [conj], deprot ++ [mol])
       else if decide (charge_mol > charge_conj)%Z then
         mret (prot ++ [mol], deprot ++ [conj])
       else
         print (Line "prot = deprot");;
         mret (prot ++ [mol], deprot ++ [conj]))
    (sort_row mol_col_1 mol_col_2)
    (λ '(p, d) '(a, b), (p ++ [a], d ++ [b]))) as Hloop.
  rewrite (Hloop) with (pre := []) (ts := ts); [|clear Hloop|done|done].
  - rewrite bind_Py_Ok, foldl_snoc_pair. cbn beta iota. rewrite !app_nil_l.
    rewrite (bind_lift_lift _
               (λ df1, df_set_column df1 "deprotonated" ts.*1.*2)
               (λ df2, df_drop df2 ["ROMol"; "Conjugates"])).
    unfold lift. cbn [output outcome]. by rewrite app_nil_r.
  - intros i r [p d] log [prot deprot] Hr Hspec. unfold sort_row in Hspec.
    destruct (Row.mols r !! mol_col_1) as [mol|] eqn:Hmol; [|done].
    destruct (Row.mols r !! mol_col_2) as [conj|] eqn:Hconj; [|done].
    simpl in Hspec.
    destruct (GetAtomWithIdx mol (Row.marvin_atom r)) as [a|] eqn:Ha; [|done].
    destruct (GetAtomWithIdx conj (Row.marvin_atom r)) as [b|] eqn:Hb; [|done].
    simpl in Hspec. unfold sorted_pair in Hspec.
    rewrite (df_mol_Some _ _ _ _ _ Hr Hmol), (df_mol_Some _ _ _ _ _ Hr Hconj),
      (df_row_Some _ _ _ Hr).
    cbn [fmap result_fmap]. rewrite !bind_lift_Ok. rewrite Ha, Hb.
    cbn [fmap result_fmap]. rewrite !bind_lift_Ok.
    repeat case_decide; by injection Hspec as <- <- <-.
Qed.

(** A row the sorting pass cannot read stops it. *)
Lemma sort_conjugates_raises (df : DataFrame) mol_col_1 mol_col_2 i r :
  df !! i = Some r → sort_row mol_col_1 mol_col_2 i r = None →
  ∃ out e, sort_conjugates df mol_col_1 mol_col_2 = Py out (Raise e).
Proof.
  intros Hi Hrow. unfold sort_conjugates.
  match goal with |- context [for_each ?xs ?body ?s0] =>
    assert (∃ out e, for_each xs body s0 = Py out (Raise e)) as (out & e & ->);
      [apply (for_each_py_raises xs body i)|by eexists _, _]
  end.
  - apply elem_of_seq. apply lookup_lt_Some in Hi. lia.
  - intros [prot deprot]. unfold df_mol. rewrite (df_row_Some _ _ _ Hi).
    cbn [fmap result_fmap]. rewrite bind_lift_Ok. cbn [mbind result_bind].
    unfold sort_row in Hrow.
    destruct (Row.mols r !! mol_col_1) as [mol|] eqn:Hmol.
    + rewrite (getitem_Some _ _ _ Hmol), bind_lift_Ok.
      destruct (Row.mols r !! mol_col_2) as [conj|] eqn:Hconj.
      * rewrite (getitem_Some _ _ _ Hconj), bind_lift_Ok.
        simpl in Hrow.
        destruct (GetAtomWithIdx mol (Row.marvin_atom r)) as [a|]; [|by eexists _, _].
        destruct (GetAtomWithIdx conj (Row.marvin_atom r)) as [b|]; [|by eexists _, _].
        done.
      * unfold getitem. rewrite Hconj. by eexists _, _.
    + unfold getitem. rewrite Hmol. by eexists _, _.
Qed.

Lemma has_column_all (df : DataFrame) col :
  Forall (λ r, is_Some (Row.mols r !! col)) df → has_column df col = true.
Proof.
  destruct 1 as [|r df Hr _]; [done|].
  apply contains_true in Hr. unfold has_column. cbn [existsb]. by rewrite Hr.
Qed.

Lemma df_set_column_ok (df : DataFrame) col vs :
  length vs = length df →
  df_set_column df col vs = Ok (zip_with (set_mol col) df vs).
Proof. intros H. unfold df_set_column. by rewrite decide_True. Qed.

Lemma df_drop_two (df : DataFrame) a b :
  Forall (λ r, is_Some (Row.mols r !! a) ∧ is_Some (Row.mols r !! b)) df →
  df_drop df [a; b] = Ok (del_mol b <$> (del_mol a <$> df)).
Proof.
  intros Hall. unfold df_drop.
  assert (has_column df a = true) as Ha.
  { apply has_column_all. eapply Forall_impl; [exact Hall|]. by intros r [? _]. }
  assert (has_column df b = true) as Hb.
  { apply has_column_all. eapply Forall_impl; [exact Hall|]. by intros r [_ ?]. }
  rewrite filter_cons, decide_False by (by rewrite Ha).
  rewrite filter_cons, decide_False by (by rewrite Hb).
  by rewrite filter_nil.
Qed.

(** The frame [sort_conjugates] returns, from the two sorted columns. *)
Lemma sorted_frame_ok (df : DataFrame) ps ds :
  length ps = length df → length ds = length df →
  Forall (λ r, is_Some (Row.mols r !! "ROMol")
               ∧ is_Some (Row.mols r !! "Conjugates")) df →
  (df1 ← df_set_column df "protonated" ps;
   df2 ← df_set_column df1 "deprotonated" ds;
   df_drop df2 ["ROMol"; "Conjugates"])
  = Ok (del_mol "Conjugates" <$>
          (del_mol "ROMol" <$>
             zip_with (set_mol "deprotonated")
               (zip_with (set_mol "protonated") df ps) ds)).
Proof.
  intros Hp Hd Hall.
  rewrite df_set_column_ok by done. simpl.
  rewrite df_set_column_ok by (by rewrite length_zip_with_l_eq). simpl.
  apply df_drop_two.
  apply Forall_lookup. intros k r2 Hk.
  apply lookup_zip_with_Some in Hk as (r1 & d & -> & Hk & _).
  apply lookup_zip_with_Some in Hk as (r & p & -> & Hk & _).
  destruct (Forall_lookup_1 _ _ _ _ Hall Hk) as [HR HC]. simpl.
  by rewrite !lookup_insert_ne.
Qed.

Lemma sorted_frame_lookup (df : DataFrame) ps ds k r p d :
  df !! k = Some r → ps !! k = Some p → ds !! k = Some d →
  let out := del_mol "Conjugates" <$>
               (del_mol "ROMol" <$>
                  zip_with (set_mol "deprotonated")
                    (zip_with (set_mol "protonated") df ps) ds) in
  df_mol out "protonated" k = Ok p ∧ df_mol out "deprotonated" k = Ok d.
Proof.
  intros Hr Hp Hd out.
  assert (out !! k = Some (del_mol "Conjugates" (del_mol "ROMol"
            (set_mol "deprotonated" (set_mol "protonated" r p) d)))) as Hout.
  { unfold out. rewrite !list_lookup_fmap, !lookup_zip_with, Hr, Hp. simpl.
    by rewrite Hd. }
  split; eapply df_mol_Some; try exact Hout; simpl.
  - by rewrite !lookup_delete_ne, lookup_insert_ne, lookup_insert_eq.
  - by rewrite !lookup_delete_ne, lookup_insert_eq.
Qed.

Lemma concat_lookup_split {A} (l : list (list A)) i x :
  l !! i = Some x → ∃ before after, concat l = before ++ x ++ after.
Proof.
  intros H. exists (concat (take i l)), (concat (drop (S i) l)).
  rewrite <- (take_drop_middle l i x H) at 1.
  by rewrite concat_app.
Qed.

Lemma conjugate_rows_total (df : DataFrame) :
  Forall well_annotated df → is_Some (run_rows (conjugate_row "ROMol") 0 df).
Proof.
  intros Hall. apply run_rows_total. intros k r Hk.
  destruct (Forall_lookup_1 _ _ _ _ Hall Hk) as (mol & a & b & Hmol & _).
  unfold conjugate_row. rewrite Hmol. by eexists.
Qed.

Lemma conjugate_rows_run (df : DataFrame) :
  Forall (λ r, is_Some (Row.mols r !! "ROMol")) df →
  is_Some (run_rows (conjugate_row "ROMol") 0 df).
Proof.
  intros Hall. apply run_rows_total. intros k r Hk.
  destruct (Forall_lookup_1 _ _ _ _ Hall Hk) as [mol Hmol].
  unfold conjugate_row. rewrite Hmol. by eexists.
Qed.

(** C6, as the code has it: in the batch path, on a frame with a structure
    in every row, a row [i] for which the conjugate generator raises [e]
    does not stop [conjugates_to_dataframe]: the two lines "Could not
    create conjugate of mol number i" and the message of [e] are printed,
    the row's own structure is stored as its conjugate, and every other row
    gets what the generator made for it.  What [sort_conjugates] then does
    depends on the reaction centres: when in every row the centre is an
    atom of the structure and of what was stored as its conjugate, the
    structure of row [i] ends up in both the protonated and the
    deprotonated column; when some row's centre is not, [sort_conjugates]
    raises and no frame is returned. *)
Theorem failed_conjugate_keeps_structure (df : DataFrame) (i : nat)
    (r : Row.t) (mol : Mol) (e : exn) :
  Forall (λ r', is_Some (Row.mols r' !! "ROMol")) df →
  df !! i = Some r →
  Row.mols r !! "ROMol" = Some mol →
  create_conjugate mol (Row.marvin_atom r) (Row.marvin_pKa r) true = Raise e →
  ∃ out1 df1,
    conjugates_to_dataframe df "ROMol" = Py out1 (Ok df1)
    ∧ (∃ before after,
         out1 = before
                ++ [Line ("Could not create conjugate of mol number " +:+ pretty i);
                    Line (str_exn e)]
                ++ after)
    ∧ length df1 = length df
    ∧ df_mol df1 "Conjugates" i = Ok mol
    ∧ (∀ k r' mol', df !! k = Some r' → Row.mols r' !! "ROMol" = Some mol' →
         df_mol df1 "Conjugates" k = Ok (conjugate_or_self r' mol'))
    ∧ (Forall well_annotated df →
       ∃ out2 df2,
         sort_conjugates df1 "ROMol" "Conjugates" = Py out2 (Ok df2)
         ∧ length df2 = length df
         ∧ df_mol df2 "protonated" i = Ok mol
         ∧ df_mol df2 "deprotonated" i = Ok mol)
    ∧ (∀ k r', df !! k = Some r' → ¬ well_annotated r' →
       ∃ out2 e2,
         sort_conjugates df1 "ROMol" "Conjugates" = Py out2 (Raise e2)).
Proof.
  intros Hcol Hi Hmol Hfail.
  destruct (conjugate_rows_run df Hcol) as [ts1 Hts1].
  pose proof (run_rows_length _ _ _ _ Hts1) as Hlen1.
  set (df1 := zip_with (set_mol "Conjugates") df ts1.*1).
  assert (length df1 = length df) as Hlen_df1.
  { unfold df1. rewrite length_zip_with_l_eq; [done | by rewrite length_fmap]. }
  (* what every row of the new frame holds *)
  assert (∀ k r' mol', df !! k = Some r' → Row.mols r' !! "ROMol" = Some mol' →
            ts1 !! k = Some (conjugate_or_self r' mol', conjugate_log k r' mol')
            ∧ df1 !! k = Some (set_mol "Conjugates" r' (conjugate_or_self r' mol')))
    as Hrows.
  { intros k r' mol' Hk Hmol'.
    destruct (run_rows_lookup _ _ _ _ _ _ Hts1 Hk) as (tl & Htl & Hspec).
    unfold conjugate_row in Hspec. rewrite Hmol' in Hspec. simpl in Hspec.
    injection Hspec as <-. split; [done|].
    unfold df1. by rewrite lookup_zip_with, Hk, list_lookup_fmap, Htl. }
  exists (concat ts1.*2), df1. split_and!.
  - by apply conjugates_to_dataframe_rows.
  - destruct (Hrows _ _ _ Hi Hmol) as [Hts _].
    unfold conjugate_log in Hts. rewrite Hfail in Hts.
    eapply concat_lookup_split. by rewrite list_lookup_fmap, Hts.
  - done.
  - destruct (Hrows _ _ _ Hi Hmol) as [_ Hdf1].
    unfold conjugate_or_self in Hdf1. rewrite Hfail in Hdf1.
    eapply df_mol_Some; [exact Hdf1|]. simpl. by rewrite lookup_insert_eq.
  - intros k r' mol' Hk Hmol'. destruct (Hrows _ _ _ Hk Hmol') as [_ Hdf1].
    eapply df_mol_Some; [exact Hdf1|]. simpl. by rewrite lookup_insert_eq.
  - intros Hall.
    (* the sorting pass gets through every row *)
    assert (is_Some (run_rows (sort_row "ROMol" "Conjugates") 0 df1)) as [ts2 Hts2].
    { apply run_rows_total. intros k r1 Hk.
      unfold df1 in Hk. apply lookup_zip_with_Some in Hk as (r' & c & -> & Hk & Hc).
      destruct (Forall_lookup_1 _ _ _ _ Hall Hk) as (mol' & a & b & Hmol' & Ha & Hb).
      destruct (Hrows _ _ _ Hk Hmol') as [Hts _].
      rewrite list_lookup_fmap, Hts in Hc. injection Hc as <-.
      unfold sort_row. simpl.
      rewrite (lookup_insert_ne _ "Conjugates" "ROMol"), Hmol', lookup_insert_eq
        by done. simpl.
      rewrite Ha, Hb. by eexists. }
    pose proof (run_rows_length _ _ _ _ Hts2) as Hlen2.
    (* the failed row: the structure meets itself, charges tie *)
    assert (∃ log, ts2 !! i = Some (mol, mol, log)) as [log Hrow2].
    { destruct (Hrows _ _ _ Hi Hmol) as [_ Hdf1].
      unfold conjugate_or_self in Hdf1. rewrite Hfail in Hdf1.
      destruct (run_rows_lookup _ _ _ _ _ _ Hts2 Hdf1) as (tl & Htl & Hspec).
      destruct (Forall_lookup_1 _ _ _ _ Hall Hi) as (mol' & a & b & Hmol' & Ha & _).
      assert (mol' = mol) as -> by congruence.
      unfold sort_row in Hspec. simpl in Hspec.
      rewrite (lookup_insert_ne _ "Conjugates" "ROMol"), Hmol, lookup_insert_eq
        in Hspec by done.
      simpl in Hspec. rewrite Ha in Hspec. simpl in Hspec.
      injection Hspec as <-. rewrite Htl, sorted_pair_tie. by eexists. }
    exists (concat ts2.*2). eexists. split_and!.
    + rewrite (sort_conjugates_rows _ _ _ _ Hts2).
      rewrite sorted_frame_ok; [done | | |].
      * by rewrite !length_fmap.
      * by rewrite !length_fmap.
      * apply Forall_lookup. intros k r1 Hk.
        unfold df1 in Hk. apply lookup_zip_with_Some in Hk as (r' & c & -> & Hk & Hc).
        destruct (Forall_lookup_1 _ _ _ _ Hall Hk) as (mol' & a & b & Hmol' & _).
        simpl. rewrite (lookup_insert_ne _ "Conjugates" "ROMol"), Hmol', lookup_insert_eq
        by done.
        split; by eexists.
    + rewrite !length_fmap, length_zip_with_l_eq;
        rewrite length_zip_with_l_eq; rewrite ?length_fmap; congruence.
    + destruct (Hrows _ _ _ Hi Hmol) as [_ Hdf1].
      eapply (sorted_frame_lookup df1 ts2.*1.*1 ts2.*1.*2); [exact Hdf1 | |];
        by rewrite !list_lookup_fmap, Hrow2.
    + destruct (Hrows _ _ _ Hi Hmol) as [_ Hdf1].
      eapply (sorted_frame_lookup df1 ts2.*1.*1 ts2.*1.*2); [exact Hdf1 | |];
        by rewrite !list_lookup_fmap, Hrow2.
  - intros k r' Hk Hbad.
    destruct (Forall_lookup_1 _ _ _ _ Hcol Hk) as [mol' Hmol'].
    destruct (Hrows _ _ _ Hk Hmol') as [_ Hdf1].
    apply (sort_conjugates_raises _ _ _ _ _ Hdf1).
    unfold sort_row. simpl.
    rewrite (lookup_insert_ne _ "Conjugates" "ROMol"), Hmol', lookup_insert_eq
      by done. simpl.
    destruct (GetAtomWithIdx mol' (Row.marvin_atom r')) as [a|] eqn:Ha; [|done].
    destruct (GetAtomWithIdx (conjugate_or_self r' mol') (Row.marvin_atom r'))
      as [b|] eqn:Hb; [|done].
    destruct Hbad. by exists mol', a, b.
Qed.
End ConjugateFacts.


(** ** The dataset materializer *)

(** What the float32 cast does to a reference value: 10.5 is kept as it
    is, while the double nearest to 4.2 is rounded to another number. *)
Example float32_keeps_or_rounds :
  double_of_float32 (float32 (Toy.dyadic 21 (-1))) = Toy.dyadic 21 (-1)
  ∧ float32 (S754_finite false 4728779608739021 (-50))
    = S754_finite false 8808038 (-21)
  ∧ double_of_float32 (float32 (S754_finite false 4728779608739021 (-50)))
    = S754_finite false 4728779393990656 (-50).
Proof. by vm_compute. Qed.

Lemma print_then {A} p (m : py A) out r :
  m = Py out r → (print p ≫= λ _, m) = Py (p :: out) r.
Proof. by intros ->. Qed.

Lemma lift_then {A B} (r : result A) a (f : A → py B) out res :
  r = Ok a → f a = Py out res → (lift r ≫= f) = Py out res.
Proof. intros -> Hf. by rewrite bind_lift_Ok. Qed.

Section DatasetFacts.
Context {constants : Constants}.

Lemma single_sided_rows (df : DataFrame) list_n list_e mode nf ef ts :
  mode = "protonated" ∨ mode = "deprotonated" →
  make_features_dicts NODE_FEATURES list_n = Ok nf →
  make_features_dicts EDGE_FEATURES list_e = Ok ef →
  run_rows (single_row mode nf ef) 0 df = Some ts →
  make_pyg_dataset_from_dataframe df list_n list_e false mode
  = Py (Line "Generating data with paired boolean set to: False"
        :: Line ("Generating data with " +:+ mode +:+ " form")
        :: concat ts.*2)
       (Ok ts.*1).
Proof.
  intros Hmode Hnf Hef Hrun. unfold make_pyg_dataset_from_dataframe.
  apply print_then.
  rewrite bool_decide_eq_false_2.
  2:{ intros Hnot. apply Hnot. destruct Hmode as [-> | ->]; set_solver. }
  cbn [negb andb].
  eapply lift_then; [exact Hnf|]. eapply lift_then; [exact Hef|].
  apply print_then.
  pose proof (index_loop df
    (λ i dataset,
       '(m, molecular_charge) ←
         (if decide (mode = "protonated") then
            mol ← lift (df_mol df "protonated" i);
            r ← lift (df_row df i);
            lift (mol_to_single_mol_data mol (Row.marvin_atom r) nf ef)
          else if decide (mode = "deprotonated") then
            mol ← lift (df_mol df "deprotonated" i);
            r ← lift (df_row df i);
            lift (mol_to_single_mol_data mol (Row.marvin_atom r) nf ef)
          else raise (RuntimeError ""));
       r ← lift (df_row df i);
       let m := Data.set_reference_value (FloatVector [float32 (Row.pKa r)]) m in
       let m := Data.set_ID (PropStr (Row.ID r)) m in
       let m := Data.to DEVICE m in
       mret (dataset ++ [Single m]))
    (single_row mode nf ef) (λ acc s, acc ++ [s])) as Hloop.
  rewrite (Hloop) with (pre := []) (ts := ts); [|clear Hloop|done|done].
  - by rewrite foldl_snoc.
  - intros i r t log s Hr Hspec. unfold single_row in Hspec.
    destruct (Row.mols r !! mode) as [mol|] eqn:Hmol; [|done]. simpl in Hspec.
    destruct (mol_to_single_mol_data mol (Row.marvin_atom r) nf ef)
      as [[g charge]|] eqn:Hg; [|done].
    injection Hspec as <- <-.
    rewrite (df_row_Some _ _ _ Hr).
    destruct Hmode as [-> | ->].
    + rewrite decide_True by done.
      rewrite (df_mol_Some _ _ _ _ _ Hr Hmol), !bind_lift_Ok, Hg.
      by rewrite !bind_lift_Ok.
    + rewrite decide_False, decide_True by done.
      rewrite (df_mol_Some _ _ _ _ _ Hr Hmol), !bind_lift_Ok, Hg.
      by rewrite !bind_lift_Ok.
Qed.

(** C9, as the code has it: with [paired=False] and a valid mode, a frame
    of [n] rows whose graphs can all be built (every row holds, in the
    column of the mode, a structure the graph builder accepts) gives
    exactly [n] samples, in row order; the [i]-th sample is the
    single-sided graph of the [i]-th row's structure, and its reference
    value is the one-element tensor holding that row's pKa rounded to
    binary32 (24 bits of precision, exponents below 128), which is the
    row's value itself only when that value is a binary32 number. *)
Theorem single_sided_dataset (df : DataFrame) (list_n list_e : list string)
    (mode : string) (nf : list (string * (Atom → Z → result pyval)))
    (ef : list (string * (Bond → result pyval))) :
  mode = "protonated" ∨ mode = "deprotonated" →
  make_features_dicts NODE_FEATURES list_n = Ok nf →
  make_features_dicts EDGE_FEATURES list_e = Ok ef →
  (∀ r, r ∈ df →
     ∃ mol g, Row.mols r !! mode = Some mol
              ∧ mol_to_single_mol_data mol (Row.marvin_atom r) nf ef = Ok g) →
  ∃ out samples,
    make_pyg_dataset_from_dataframe df list_n list_e false mode
    = Py out (Ok samples)
    ∧ length samples = length df
    ∧ ∀ i r, df !! i = Some r →
        ∃ mol g charge m,
          Row.mols r !! mode = Some mol
          ∧ mol_to_single_mol_data mol (Row.marvin_atom r) nf ef = Ok (g, charge)
          ∧ samples !! i = Some (Single m)
          ∧ Data.reference_value m
            = Some (FloatVector [match Row.pKa r with
                                 | S754_finite s m e => binary_round 24 128 s m e
                                 | v => v
                                 end])
          ∧ Data.ID m = Some (PropStr (Row.ID r))
          ∧ Data.x m = Data.x g
          ∧ Data.edge_index m = Data.edge_index g
          ∧ Data.edge_attr m = Data.edge_attr g.
Proof.
  intros Hmode Hnf Hef Hrows.
  destruct (run_rows_total (single_row mode nf ef) df 0) as [ts Hts].
  { intros k r Hk.
    destruct (Hrows r) as (mol & g & Hmol & Hg); [by eapply list_elem_of_lookup_2|].
    unfold single_row. rewrite Hmol. simpl. rewrite Hg. by eexists. }
  exists (Line "Generating data with paired boolean set to: False"
          :: Line ("Generating data with " +:+ mode +:+ " form")
          :: concat ts.*2), ts.*1.
  split_and!.
  - by eapply single_sided_rows.
  - rewrite length_fmap. by eapply run_rows_length.
  - intros i r Hi.
    destruct (run_rows_lookup _ _ _ _ _ _ Hts Hi) as (tl & Htl & Hspec).
    unfold single_row in Hspec.
    destruct (Row.mols r !! mode) as [mol|] eqn:Hmol; [|done]. simpl in Hspec.
    destruct (mol_to_single_mol_data mol (Row.marvin_atom r) nf ef)
      as [[g charge]|] eqn:Hg; [|done].
    injection Hspec as <-.
    exists mol, g, charge,
      (Data.to DEVICE
         (Data.set_ID (PropStr (Row.ID r))
            (Data.set_reference_value (FloatVector [float32 (Row.pKa r)]) g))).
    split_and!; try done.
    + by rewrite list_lookup_fmap, Htl.
    + cbn. unfold float32. by destruct (Row.pKa r).
Qed.
End DatasetFacts.

(** ** One annotated molecule *)

Section AnnotatedFacts.
Context {chem : Chem}.

Lemma read_pKa_present mol (props : gmap string propval) pka :
  props !! "pKa" = Some pka → read_pKa mol props = Py [] (Ok pka).
Proof. intros H. unfold read_pKa. by rewrite (getitem_Some _ _ _ H). Qed.

Lemma read_pKa_missing mol (props : gmap string propval) :
  props !! "pKa" = None →
  read_pKa mol props
  = Py [Dict "No pKa found for molecule: " props; Dict "" props;
        Line (MolToSmiles mol)]
       (Raise (KeyError "pKa")).
Proof. intros H. unfold read_pKa. by rewrite (getitem_None _ _ H). Qed.

Lemma read_atom_idx_primary mol (props : gmap string propval) a :
  props !! "epik_atom" = Some a → read_atom_idx mol props = Py [] (Ok a).
Proof.
  intros H. unfold read_atom_idx, contains. rewrite H.
  by rewrite (getitem_Some _ _ _ H).
Qed.

Lemma read_atom_idx_fallback mol (props : gmap string propval) b :
  props !! "epik_atom" = None → props !! "marvin_atom" = Some b →
  read_atom_idx mol props = Py [] (Ok b).
Proof.
  intros H1 H2. unfold read_atom_idx, contains. rewrite H1, H2.
  by rewrite (getitem_Some _ _ _ H2).
Qed.

Lemma read_atom_idx_missing mol (props : gmap string propval) :
  props !! "epik_atom" = None → props !! "marvin_atom" = None →
  read_atom_idx mol props
  = Py [Dict "No reaction center foundfor molecule: " props; Dict "" props;
        Line (MolToSmiles mol)]
       (Raise (RuntimeError "")).
Proof. intros H1 H2. unfold read_atom_idx, contains. by rewrite H1, H2. Qed.

(** C5, as the code has it: without a pKa property the entry point prints
    the property bag and the canonical SMILES, and then re-raises the
    look-up's own [KeyError], which names the missing key only. *)
Theorem missing_pKa_is_reported_then_raised (mol : Mol)
    (nf : list (string * (Atom → Z → result pyval)))
    (ef : list (string * (Bond → result pyval))) :
  GetPropsAsDict mol !! "pKa" = None →
  make_paired_pyg_data_from_mol mol nf ef
  = Py [Dict "No pKa found for molecule: " (GetPropsAsDict mol);
        Dict "" (GetPropsAsDict mol);
        Line (MolToSmiles mol)]
       (Raise (KeyError "pKa")).
Proof.
  intros H. unfold make_paired_pyg_data_from_mol. cbv zeta.
  by rewrite (read_pKa_missing _ _ H).
Qed.

(** C8: the reaction centre is read under "epik_atom" when that property
    is present, whatever "marvin_atom" holds; else under "marvin_atom"; and
    with neither the entry point raises: a [RuntimeError], after printing
    the property bag and the SMILES, when the pKa was found (and the
    [KeyError] of the pKa look-up before that otherwise). *)
Theorem reaction_center_lookup (mol : Mol)
    (nf : list (string * (Atom → Z → result pyval)))
    (ef : list (string * (Bond → result pyval))) :
  (∀ pka a,
     GetPropsAsDict mol !! "pKa" = Some pka →
     GetPropsAsDict mol !! "epik_atom" = Some a →
     read_atom_idx mol (GetPropsAsDict mol) = Py [] (Ok a)
     ∧ make_paired_pyg_data_from_mol mol nf ef
       = assemble_pair mol (GetPropsAsDict mol) pka a nf ef)
  ∧ (∀ pka b,
       GetPropsAsDict mol !! "pKa" = Some pka →
       GetPropsAsDict mol !! "epik_atom" = None →
       GetPropsAsDict mol !! "marvin_atom" = Some b →
       read_atom_idx mol (GetPropsAsDict mol) = Py [] (Ok b)
       ∧ make_paired_pyg_data_from_mol mol nf ef
         = assemble_pair mol (GetPropsAsDict mol) pka b nf ef)
  ∧ (GetPropsAsDict mol !! "epik_atom" = None →
     GetPropsAsDict mol !! "marvin_atom" = None →
     (∃ out e, make_paired_pyg_data_from_mol mol nf ef = Py out (Raise e))
     ∧ (is_Some (GetPropsAsDict mol !! "pKa") →
        make_paired_pyg_data_from_mol mol nf ef
        = Py [Dict "No reaction center foundfor molecule: " (GetPropsAsDict mol);
              Dict "" (GetPropsAsDict mol);
              Line (MolToSmiles mol)]
             (Raise (RuntimeError "")))).
Proof.
  unfold make_paired_pyg_data_from_mol. cbv zeta. split_and!.
  - intros pka a Hpka Ha.
    rewrite (read_pKa_present _ _ _ Hpka), bind_Py_Ok.
    rewrite (read_atom_idx_primary _ _ _ Ha), bind_Py_Ok.
    split; [done|]. simpl. apply py_eta.
  - intros pka b Hpka Ha Hb.
    rewrite (read_pKa_present _ _ _ Hpka), bind_Py_Ok.
    rewrite (read_atom_idx_fallback _ _ _ Ha Hb), bind_Py_Ok.
    split; [done|]. simpl. apply py_eta.
  - intros Ha Hb.
    assert (is_Some (GetPropsAsDict mol !! "pKa") →
            (pka ← read_pKa mol (GetPropsAsDict mol);
             atom_idx ← read_atom_idx mol (GetPropsAsDict mol);
             assemble_pair mol (GetPropsAsDict mol) pka atom_idx nf ef)
            = Py [Dict "No reaction center foundfor molecule: " (GetPropsAsDict mol);
                  Dict "" (GetPropsAsDict mol);
                  Line (MolToSmiles mol)]
                 (Raise (RuntimeError ""))) as Hfound.
    { intros [pka Hpka].
      rewrite (read_pKa_present _ _ _ Hpka), bind_Py_Ok.
      by rewrite (read_atom_idx_missing _ _ Ha Hb). }
    split; [|done].
    destruct (GetPropsAsDict mol !! "pKa") as [pka|] eqn:Hpka.
    + rewrite Hfound by (by eexists). by eexists _, _.
    + rewrite (read_pKa_missing _ _ Hpka). by eexists _, _.
Qed.


End AnnotatedFacts.

(** C5, at a structure without a pKa property whose SMILES is "CN": the
    error raised is [KeyError "pKa"], its message is the quoted key, and
    that message does not hold the SMILES, which went to the printed
    output instead. *)
Lemma missing_pKa_message_lacks_smiles :
  outcome (@make_paired_pyg_data_from_mol Toy.deprotonate Toy.no_pKa [] [])
  = Raise (KeyError "pKa")
  ∧ MolToSmiles Toy.no_pKa = "CN"
  ∧ str_exn (KeyError "pKa") = "'pKa'"
  ∧ includes (MolToSmiles Toy.no_pKa) (str_exn (KeyError "pKa")) = false
  ∧ Line (MolToSmiles Toy.no_pKa)
    ∈ output (@make_paired_pyg_data_from_mol Toy.deprotonate Toy.no_pKa [] []).
Proof. split_and!; try by vm_compute. vm_compute. set_solver. Qed.


(** ** The statements at work on the toy data *)

Ltac cases_of_membership :=
  repeat match goal with
         | H : _ ∈ _ :: _ |- _ => apply elem_of_cons in H as [H|H]
         | H : _ ∈ [] |- _ => by apply elem_of_nil in H
         | H : (_, _) = (_, _) |- _ => injection H as -> ->
         end;
  subst.

Ltac machine_numbers :=
  intros ? ? ? ? Hin He Hv; simpl in Hin, He;
  cases_of_membership; injection Hv as <-;
  repeat constructor; done.

Lemma calculate_nr_of_features_spec_witness :
  @calculate_nr_of_features Toy.constants ["element"; "bond_type"]
  = Raise (RuntimeError "")
  ∧ @calculate_nr_of_features Toy.constants ["element"; "formal_charge"] = Ok 7.
Proof.
  split.
  - apply (proj1 (@calculate_nr_of_features_spec Toy.constants
                    ["element"; "bond_type"])).
    left. split.
    + exists "element". split; [set_solver|]. split; [by eexists | done].
    + exists "bond_type". split; [set_solver|]. split; [done | by eexists].
  - destruct (proj2 (@calculate_nr_of_features_spec Toy.constants
                       ["element"; "formal_charge"])) as [[_ H]|[Hedge _]].
    + intros [[_ (b & Hb & Hnone & _)] | (u & Hu & Hnone & _)];
        cases_of_membership; done.
    + exact H.
    + destruct (Hedge "element") as [? ?]; [set_solver | done].
Defined.

Lemma PairData_inc_sides_witness :
  PairData.x_p Fixture.pair = Some (FloatMatrix [[]; []; []])
  ∧ PairData.x_d Fixture.pair = Some (FloatMatrix [[]; []])
  ∧ PairData.__inc__ Fixture.no_inc Fixture.pair "edge_index_p" tt = Ok 3
  ∧ PairData.__inc__ Fixture.no_inc Fixture.pair "edge_index_d" tt = Ok 2.
Proof.
  assert (PairData.x_p Fixture.pair = Some (FloatMatrix [[]; []; []])) as Hp
    by reflexivity.
  assert (PairData.x_d Fixture.pair = Some (FloatMatrix [[]; []])) as Hd
    by reflexivity.
  destruct (PairData_inc_sides Fixture.no_inc Fixture.pair tt _ _ Hp Hd)
    as (H1 & H2 & _).
  by split_and!.
Defined.

Lemma make_nodes_shape_witness :
  GetAtoms Toy.amine ≠ []
  ∧ (∀ name, name ∈ odict_keys Fixture.selected_nodes →
             is_Some (@node_feat_values Toy.constants !! name))
  ∧ encodes_with (on_atom 0) (GetAtoms Toy.amine) Fixture.selected_nodes
      (domain_size (@node_feat_values Toy.constants))
  ∧ returns_machine_numbers (on_atom 0) (GetAtoms Toy.amine)
      Fixture.selected_nodes
  ∧ ∃ rows,
      make_nodes Toy.amine 0 Fixture.selected_nodes = Ok (FloatMatrix rows)
      ∧ @calculate_nr_of_features Toy.constants
          (odict_keys Fixture.selected_nodes) = Ok 5
      ∧ length rows = 2
      ∧ Forall (λ row, length row = 5) rows.
Proof.
  assert (GetAtoms Toy.amine ≠ []) as Hatoms by done.
  assert (∀ name, name ∈ odict_keys Fixture.selected_nodes →
                  is_Some (@node_feat_values Toy.constants !! name)) as Hnames.
  { intros name Hin. simpl in Hin. cases_of_membership; by eexists. }
  assert (encodes_with (on_atom 0) (GetAtoms Toy.amine) Fixture.selected_nodes
            (domain_size (@node_feat_values Toy.constants))) as Henc.
  { intros name f e Hin He. simpl in Hin, He. unfold Fixture.selected_nodes in Hin.
    cases_of_membership; eexists; split; reflexivity. }
  assert (returns_machine_numbers (on_atom 0) (GetAtoms Toy.amine)
            Fixture.selected_nodes) as Hnum.
  { unfold Fixture.selected_nodes. machine_numbers. }
  split; [exact Hatoms|]. split; [exact Hnames|]. split; [exact Henc|].
  split; [exact Hnum|].
  destruct (@make_nodes_shape Toy.constants Toy.amine 0 Fixture.selected_nodes
              Hatoms Hnames Henc Hnum)
    as (rows & width & x & Hmk & Hw & Hsum & Hlen & Hall & _).
  exists rows. subst width. by split_and!.
Defined.

(** C4, where the code departs from it: a structure without atoms gives a
    tensor of one dimension, with no rows to count columns in, whatever
    width the selection has. *)
Lemma make_nodes_without_atoms :
  GetAtoms Cases.no_atoms = []
  ∧ make_nodes Cases.no_atoms 0 Fixture.selected_nodes = Ok (FloatVector [])
  ∧ @calculate_nr_of_features Toy.constants (odict_keys Fixture.selected_nodes)
    = Ok 5.
Proof. split_and!; by vm_compute. Qed.



Lemma missing_pKa_is_reported_then_raised_witness :
  GetPropsAsDict Toy.no_pKa !! "pKa" = None
  ∧ @make_paired_pyg_data_from_mol Toy.deprotonate Toy.no_pKa
      Fixture.selected_nodes Fixture.selected_edges
    = Py [Dict "No pKa found for molecule: " (GetPropsAsDict Toy.no_pKa);
          Dict "" (GetPropsAsDict Toy.no_pKa);
          Line "CN"]
         (Raise (KeyError "pKa")).
Proof.
  assert (GetPropsAsDict Toy.no_pKa !! "pKa" = None) as H by reflexivity.
  split; [exact H|].
  exact (@missing_pKa_is_reported_then_raised Toy.deprotonate Toy.no_pKa
           Fixture.selected_nodes Fixture.selected_edges H).
Defined.

Lemma reaction_center_lookup_witness :
  GetPropsAsDict Toy.amine !! "epik_atom" = Some (PropNum (PyInt 0))
  ∧ GetPropsAsDict Toy.amine !! "marvin_atom" = Some (PropNum (PyInt 1))
  ∧ @make_paired_pyg_data_from_mol Toy.deprotonate Toy.amine
      Fixture.selected_nodes Fixture.selected_edges
    = @assemble_pair Toy.deprotonate Toy.amine (GetPropsAsDict Toy.amine)
        (PropNum (PyFloat (Toy.dyadic 21 (-1)))) (PropNum (PyInt 0))
        Fixture.selected_nodes Fixture.selected_edges
  ∧ GetPropsAsDict Toy.marvin_only !! "epik_atom" = None
  ∧ @make_paired_pyg_data_from_mol Toy.deprotonate Toy.marvin_only
      Fixture.selected_nodes Fixture.selected_edges
    = @assemble_pair Toy.deprotonate Toy.marvin_only
        (GetPropsAsDict Toy.marvin_only)
        (PropNum (PyFloat (Toy.dyadic 21 (-1)))) (PropNum (PyInt 1))
        Fixture.selected_nodes Fixture.selected_edges
  ∧ outcome (@make_paired_pyg_data_from_mol Toy.deprotonate Toy.no_center
               Fixture.selected_nodes Fixture.selected_edges)
    = Raise (RuntimeError "").
Proof.
  pose proof (@reaction_center_lookup Toy.deprotonate Toy.amine
                Fixture.selected_nodes Fixture.selected_edges) as (H1 & _ & _).
  pose proof (@reaction_center_lookup Toy.deprotonate Toy.marvin_only
                Fixture.selected_nodes Fixture.selected_edges) as (_ & H2 & _).
  pose proof (@reaction_center_lookup Toy.deprotonate Toy.no_center
                Fixture.selected_nodes Fixture.selected_edges) as (_ & _ & H3).
  split_and!.
  - reflexivity.
  - reflexivity.
  - by apply (H1 (PropNum (PyFloat (Toy.dyadic 21 (-1)))) (PropNum (PyInt 0))).
  - reflexivity.
  - by apply (H2 (PropNum (PyFloat (Toy.dyadic 21 (-1)))) (PropNum (PyInt 1))).
  - destruct H3 as [_ H3]; [reflexivity | reflexivity |].
    rewrite H3; [reflexivity | by eexists].
Defined.

Lemma failed_conjugate_keeps_structure_witness :
  Forall (λ r, is_Some (Row.mols r !! "ROMol")) Toy.raw_frame
  ∧ Forall (@well_annotated Toy.deprotonate) Toy.raw_frame
  ∧ Toy.raw_frame !! 1
    = Some (Toy.row "b" 0 (Toy.dyadic 9 (-1)) (<["ROMol" := Toy.anion]> ∅))
  ∧ @create_conjugate Toy.deprotonate Toy.anion 0 (Toy.dyadic 9 (-1)) true
    = Raise (AssertionError "no proton to remove")
  ∧ ∃ out1 df1 out2 df2,
      @conjugates_to_dataframe Toy.deprotonate Toy.raw_frame "ROMol"
      = Py out1 (Ok df1)
      ∧ df_mol df1 "Conjugates" 1 = Ok Toy.anion
      ∧ sort_conjugates df1 "ROMol" "Conjugates" = Py out2 (Ok df2)
      ∧ length df2 = 2
      ∧ df_mol df2 "protonated" 1 = Ok Toy.anion
      ∧ df_mol df2 "deprotonated" 1 = Ok Toy.anion.
Proof.
  assert (Forall (λ r, is_Some (Row.mols r !! "ROMol")) Toy.raw_frame) as Hcol.
  { repeat constructor; by eexists. }
  assert (Forall (@well_annotated Toy.deprotonate) Toy.raw_frame) as Hall.
  { repeat constructor; eexists _, _, _; split_and!; reflexivity. }
  assert (Toy.raw_frame !! 1
          = Some (Toy.row "b" 0 (Toy.dyadic 9 (-1))
                    (<["ROMol" := Toy.anion]> ∅))) as Hi by reflexivity.
  assert (@create_conjugate Toy.deprotonate Toy.anion 0
            (Toy.dyadic 9 (-1)) true
          = Raise (AssertionError "no proton to remove")) as Hfail by reflexivity.
  split; [exact Hcol|]. split; [exact Hall|]. split; [exact Hi|].
  split; [exact Hfail|].
  destruct (@failed_conjugate_keeps_structure Toy.deprotonate Toy.raw_frame 1
              _ Toy.anion _ Hcol Hi eq_refl Hfail)
    as (out1 & df1 & H1 & _ & _ & H2 & _ & Hsort & _).
  destruct (Hsort Hall) as (out2 & df2 & H3 & H4 & H5 & H6).
  exists out1, df1, out2, df2. by split_and!.
Defined.

(** C6, where the code departs from it: the second row names atom 5 of a
    structure of two atoms.  The conjugate generator raises there, the
    failure is logged and the structure stored as its own conjugate; the
    sorting pass then raises on the same row, so the frame gets no
    protonated and no deprotonated column and the preprocessing as a whole
    raises. *)
Lemma out_of_range_centre_stops_sorting :
  ∃ e df1,
    Cases.off_range_frame !! 1
    = Some (Toy.row "b" 5 (Toy.dyadic 9 (-1)) (<["ROMol" := Toy.amine]> ∅))
    ∧ @create_conjugate Toy.deprotonate Toy.amine 5 (Toy.dyadic 9 (-1)) true
      = Raise e
    ∧ @conjugates_to_dataframe Toy.deprotonate Cases.off_range_frame "ROMol"
      = Py [Line "Could not create conjugate of mol number 1"; Line (str_exn e)]
           (Ok df1)
    ∧ df_mol df1 "Conjugates" 1 = Ok Toy.amine
    ∧ sort_conjugates df1 "ROMol" "Conjugates" = Py [] (Raise e)
    ∧ @preprocess Toy.deprotonate Cases.off_range_frame
      = Py [Line "Could not create conjugate of mol number 1"; Line (str_exn e)]
           (Raise e).
Proof. eexists _, _. split_and!; by vm_compute. Qed.

Lemma single_sided_dataset_witness :
  make_features_dicts (@NODE_FEATURES Toy.constants) ["element"; "reaction_center"]
  = Ok Fixture.selected_nodes
  ∧ make_features_dicts (@EDGE_FEATURES Toy.constants) ["bond_type"]
    = Ok Fixture.selected_edges
  ∧ ∃ out samples,
      @make_pyg_dataset_from_dataframe Toy.constants Cases.decimal_frame
        ["element"; "reaction_center"] ["bond_type"] false "protonated"
      = Py out (Ok samples)
      ∧ length samples = 1
      ∧ ∃ m, samples !! 0 = Some (Single m)
             ∧ Data.reference_value m
               = Some (FloatVector [Cases.four_point_two_single]).
Proof.
  assert (make_features_dicts (@NODE_FEATURES Toy.constants)
            ["element"; "reaction_center"] = Ok Fixture.selected_nodes) as Hn
    by reflexivity.
  assert (make_features_dicts (@EDGE_FEATURES Toy.constants) ["bond_type"]
          = Ok Fixture.selected_edges) as He by reflexivity.
  split; [exact Hn|]. split; [exact He|].
  destruct (@single_sided_dataset Toy.constants Cases.decimal_frame
              ["element"; "reaction_center"] ["bond_type"] "protonated"
              Fixture.selected_nodes Fixture.selected_edges
              (or_introl eq_refl) Hn He)
    as (out & samples & Hrun & Hlen & Hrows).
  { intros r Hr. unfold Cases.decimal_frame in Hr.
    cases_of_membership; eexists _, _; split; reflexivity. }
  exists out, samples. split; [exact Hrun|]. split; [exact Hlen|].
  destruct (Hrows 0 _ eq_refl) as (mol & g & charge & m & _ & _ & Hm & Href & _).
  exists m. split; [exact Hm|]. rewrite Href. by vm_compute.
Defined.

(** C9, where the code departs from it.  A row whose pKa is the Python
    float 4.2 gets the reference value 4.19999980926513671875, the nearest
    binary32 number, which is less than the row's value; and a frame with a
    bondless structure in the column that is read gives no samples at all:
    the call raises. *)
Lemma reference_value_is_rounded :
  ∃ m,
    Row.pKa <$> Cases.decimal_frame = [Cases.four_point_two]
    ∧ outcome (@make_pyg_dataset_from_dataframe Toy.constants Cases.decimal_frame
                 ["element"; "reaction_center"] ["bond_type"] false "protonated")
      = Ok [Single m]
    ∧ Data.reference_value m = Some (FloatVector [Cases.four_point_two_single])
    ∧ SFltb (double_of_float32 Cases.four_point_two_single) Cases.four_point_two
      = true
    ∧ length Cases.salt_frame = 2
    ∧ @make_pyg_dataset_from_dataframe Toy.constants Cases.salt_frame
        ["element"; "reaction_center"] ["bond_type"] false "deprotonated"
      = Py [Line "Generating data with paired boolean set to: False";
            Line "Generating data with deprotonated form"]
           (Raise (ValueError "need at least one array to concatenate")).
Proof. eexists. split_and!; by vm_compute. Qed.

(** ** Folds: [slice_list] and [cross_val_lists] *)

Lemma attempt_bind_Done {A B} (a : A) (f : A → attempt B) : (Done a ≫= f) = f a.
Proof. reflexivity. Qed.

Lemma append_at_last {A} (pre : list (list A)) row (x : A) :
  append_at (pre ++ [row]) (length pre) x = Done (pre ++ [row ++ [x]]).
Proof.
  unfold append_at. rewrite list_lookup_middle by done.
  rewrite insert_app_r_alt by done. by rewrite Nat.sub_diag.
Qed.

(** The inner loop moves the next [n] items of the iterator to the end of
    the last slice. *)
Lemma fill_loop {A} (pre : list (list A)) n : ∀ start row (it : list A),
  n ≤ length it →
  for_each (seq start n)
    (λ (j : nat) '(rows, iterator),
       '(x, iterator) ← next iterator;
       rows ← append_at rows (length pre) x;
       mret (rows, iterator))
    (pre ++ [row], it)
  = Done (pre ++ [row ++ take n it], drop n it).
Proof.
  induction n as [|n IH]; intros start row it Hn; simpl.
  - by rewrite app_nil_r.
  - destruct it as [|x it]; [simpl in Hn; lia|]. simpl.
    rewrite append_at_last. simpl.
    rewrite IH by (simpl in Hn; lia).
    by rewrite <- app_assoc.
Qed.

Lemma slice_sizes_length q rem k : length (slice_sizes q rem k) = k.
Proof. revert rem. induction k as [|k IH]; intros rem; simpl; [done|]. by rewrite IH. Qed.

Lemma slice_sizes_lookup q : ∀ k rem i,
  i < k → slice_sizes q rem k !! i = Some (q + if decide (i < rem) then 1 else 0).
Proof.
  induction k as [|k IH]; intros rem i Hi; [lia|].
  destruct i as [|i]; simpl.
  - destruct rem; simpl; f_equal; try case_decide; lia.
  - rewrite IH by lia. f_equal. f_equal.
    destruct rem; simpl; repeat case_decide; try lia.
Qed.

Lemma slice_sizes_sum q : ∀ k rem,
  rem ≤ k → sum_list (slice_sizes q rem k) = k * q + rem.
Proof.
  induction k as [|k IH]; intros rem Hrem; simpl; [lia|].
  rewrite IH by lia. destruct rem; simpl; lia.
Qed.

Lemma chunks_length {A} sizes (l : list A) : length (chunks sizes l) = length sizes.
Proof. revert l. induction sizes as [|n sizes IH]; intros l; simpl; [done|]. by rewrite IH. Qed.

Lemma chunks_concat {A} sizes : ∀ l : list A,
  concat (chunks sizes l) = take (sum_list sizes) l.
Proof.
  induction sizes as [|n sizes IH]; intros l; simpl; [done|].
  rewrite IH. apply take_take_drop.
Qed.

Lemma chunks_lookup {A} sizes : ∀ (l : list A) i n,
  sum_list sizes ≤ length l → sizes !! i = Some n →
  ∃ row, chunks sizes l !! i = Some row ∧ length row = n.
Proof.
  induction sizes as [|m sizes IH]; intros l i n Hsum Hi; [done|].
  simpl in Hsum. destruct i as [|i]; simpl in *.
  - injection Hi as ->. eexists; split; [done|]. rewrite length_take. lia.
  - apply IH; [|done]. rewrite length_drop. lia.
Qed.

(** The outer loop, from slice number [length rows] on: [k] more slices
    are cut off the iterator, which then is used up. *)
Lemma slices_loop {A} (q : nat) : ∀ k (rows : list (list A)) it rem,
  length it = k * q + rem → rem ≤ k →
  for_each (seq (length rows) k)
    (λ (i : nat) '(rows, iterator, remain),
       let rows := rows ++ [[]] in
       '(rows, iterator) ← for_each (seq 0 q)
         (λ (j : nat) '(rows, iterator),
            '(x, iterator) ← next iterator;
            rows ← append_at rows i x;
            mret (rows, iterator))
         (rows, iterator);
       if decide (remain ≠ 0)%Z then
         '(x, iterator) ← next iterator;
         rows ← append_at rows i x;
         mret (rows, iterator, (remain - 1)%Z)
       else mret (rows, iterator, remain))
    (rows, it, Z.of_nat rem)
  = Done (rows ++ chunks (slice_sizes q rem k) it, [], 0%Z).
Proof.
  induction k as [|k IH]; intros rows it rem Hlen Hrem.
  - assert (rem = 0) as -> by lia. destruct it; [|simpl in Hlen; lia].
    simpl. by rewrite app_nil_r.
  - cbn [seq for_each]. cbv zeta.
    rewrite fill_loop by lia. rewrite attempt_bind_Done. cbn [app].
    destruct rem as [|rem].
    + rewrite decide_False by lia. rewrite !attempt_bind_Done.
      specialize (IH (rows ++ [take q it]) (drop q it) 0).
      rewrite length_app in IH. simpl in IH. rewrite Nat.add_1_r in IH.
      rewrite IH; [|rewrite length_drop; lia|lia].
      simpl. by rewrite <- app_assoc.
    + rewrite decide_True by lia.
      destruct (lookup_lt_is_Some_2 it q) as [x Hx]; [lia|].
      rewrite (drop_S _ _ _ Hx). cbn [next]. rewrite !attempt_bind_Done.
      rewrite append_at_last, !attempt_bind_Done.
      rewrite <- (take_S_r _ _ _ Hx).
      replace (Z.of_nat (S rem) - 1)%Z with (Z.of_nat rem) by lia.
      specialize (IH (rows ++ [take (S q) it]) (drop (S q) it) rem).
      rewrite length_app in IH. simpl in IH. rewrite Nat.add_1_r in IH.
      rewrite IH; [|rewrite length_drop; lia|lia].
      simpl. by rewrite <- app_assoc.
Qed.

Lemma slice_list_chunks {A} (l : list A) (k : nat) :
  0 < k →
  slice_list l (Z.of_nat k)
  = Done (chunks (slice_sizes (length l / k) (length l `mod` k) k) l).
Proof.
  intros Hk. unfold slice_list, floordiv, pymod. cbv zeta.
  rewrite !decide_False by lia. rewrite !attempt_bind_Done.
  rewrite <- Nat2Z.inj_div, <- Nat2Z.inj_mod.
  unfold range. rewrite !Nat2Z.id.
  pose proof (Nat.div_mod_eq (length l) k) as Hdm.
  pose proof (Nat.mod_upper_bound (length l) k) as Hlt.
  pose proof (slices_loop (length l / k) k [] l (length l `mod` k)) as Hloop.
  cbv zeta in Hloop. cbn [length app] in Hloop.
  rewrite Hloop by lia. reflexivity.
Qed.

(** X1: for a positive [size], [slice_list] returns (it neither divides by
    zero nor runs the iterator past its end) exactly [size] slices, and the
    slices put end to end are the input list: every item is in one slice,
    in the input's order. *)
Theorem slice_list_partition {A} (input_list : list A) (size : Z) :
  (0 < size)%Z →
  ∃ slices,
    slice_list input_list size = Done slices
    ∧ length slices = Z.to_nat size
    ∧ concat slices = input_list.
Proof.
  intros Hsize.
  pose proof (slice_list_chunks input_list (Z.to_nat size)) as Hrun.
  rewrite Z2Nat.id in Hrun by lia.
  eexists. split_and!; [apply Hrun; lia | |].
  - by rewrite chunks_length, slice_sizes_length.
  - rewrite chunks_concat, slice_sizes_sum.
    + apply take_ge.
      pose proof (Nat.div_mod_eq (length input_list) (Z.to_nat size)). lia.
    + pose proof (Nat.mod_upper_bound (length input_list) (Z.to_nat size)). lia.
Qed.

(** X2: the slices are balanced.  With [n] items and a positive [size],
    slice number [i] has [n // size] items, and one more when
    [i < n % size]: the lengths differ by at most one, the longer slices
    come first, and with more slices than items the last ones are empty. *)
Theorem slice_list_balanced {A} (input_list : list A) (size : Z) :
  (0 < size)%Z →
  ∃ slices,
    slice_list input_list size = Done slices
    ∧ ∀ i, i < Z.to_nat size →
        ∃ row, slices !! i = Some row
               ∧ length row
                 = length input_list / Z.to_nat size
                   + (if decide (i < length input_list `mod` Z.to_nat size)
                      then 1 else 0).
Proof.
  intros Hsize.
  pose proof (slice_list_chunks input_list (Z.to_nat size)) as Hrun.
  rewrite Z2Nat.id in Hrun by lia.
  eexists. split; [apply Hrun; lia|].
  intros i Hi. apply chunks_lookup.
  - pose proof (Nat.div_mod_eq (length input_list) (Z.to_nat size)).
    pose proof (Nat.mod_upper_bound (length input_list) (Z.to_nat size)).
    rewrite slice_sizes_sum; lia.
  - by apply slice_sizes_lookup.
Qed.

(** X3: the sizes that are no slice count.  [size = 0] raises
    [ZeroDivisionError]; a negative [size] raises nothing and returns the
    empty list, whatever the input holds. *)
Theorem slice_list_no_slices {A} (input_list : list A) :
  slice_list input_list 0 = Raised ZeroDivisionError
  ∧ ∀ p, slice_list input_list (Z.neg p) = Done [].
Proof. split; [done|]. intros p. unfold slice_list, floordiv, pymod. done. Qed.

(** What [cross_val_lists] keeps for training: every slice whose number is
    not [num]. *)
Lemma kept_all {A} (l : list A) (num : Z) : ∀ k,
  (∀ i, i < length l → Z.of_nat (k + i) ≠ num) →
  snd <$> filter (λ ix, ix.1 ≠ num) (imap (λ i x, (Z.of_nat (k + i), x)) l) = l.
Proof.
  induction l as [|x l IH]; intros k Hne; [done|].
  rewrite imap_cons. rewrite filter_cons_True by (simpl; apply (Hne 0); simpl; lia).
  csimpl. f_equal.
  rewrite <- (IH (S k)) at 2.
  - f_equal. f_equal. apply imap_ext. intros i y _. simpl. do 2 f_equal. lia.
  - intros i Hi. replace (S k + i) with (k + S i) by lia. apply Hne. simpl. lia.
Qed.

Lemma kept_but_one {A} (l : list A) : ∀ k n,
  n < length l →
  snd <$> filter (λ ix, ix.1 ≠ Z.of_nat (k + n))
            (imap (λ i x, (Z.of_nat (k + i), x)) l)
  = delete n l.
Proof.
  induction l as [|x l IH]; intros k n Hn; [simpl in Hn; lia|].
  rewrite imap_cons. destruct n as [|n].
  - rewrite filter_cons_False by (simpl; intros H; by apply H).
    simpl. rewrite <- (kept_all l (Z.of_nat (k + 0)) (S k)) at 2.
    + f_equal. f_equal. apply imap_ext. intros i y _. simpl. do 2 f_equal. lia.
    + intros i _. lia.
  - rewrite filter_cons_True by (simpl; lia).
    csimpl. f_equal.
    rewrite <- (IH (S k) n) by (simpl in Hn; lia).
    replace (S k + n) with (k + S n) by lia.
    f_equal. f_equal. apply imap_ext. intros i y _. simpl. do 2 f_equal. lia.
Qed.

Lemma list_getitem_nonneg {A} (l : list A) n x :
  l !! n = Some x → list_getitem l (Z.of_nat n) = Ok x.
Proof.
  intros Hx. pose proof (lookup_lt_Some _ _ _ Hx).
  unfold list_getitem. cbv zeta.
  destruct (decide (Z.of_nat n < 0)%Z); [lia|].
  rewrite decide_True by lia.
  by rewrite Nat2Z.id, Hx.
Qed.

Lemma list_getitem_negative {A} (l : list A) n x :
  n < length l → l !! n = Some x →
  list_getitem l (Z.of_nat n - Z.of_nat (length l)) = Ok x.
Proof.
  intros Hn Hx. unfold list_getitem. cbv zeta.
  destruct (decide (Z.of_nat n - Z.of_nat (length l) < 0)%Z); [|lia].
  rewrite decide_True by lia.
  replace (Z.of_nat n - Z.of_nat (length l) + Z.of_nat (length l))%Z
    with (Z.of_nat n) by lia.
  by rewrite Nat2Z.id, Hx.
Qed.

Lemma list_getitem_outside {A} (l : list A) (i : Z) :
  (i < - Z.of_nat (length l) ∨ Z.of_nat (length l) ≤ i)%Z →
  list_getitem l i = Raise (IndexError "list index out of range").
Proof.
  intros Hi. unfold list_getitem. cbv zeta.
  destruct (decide (i < 0)%Z); rewrite decide_False by lia; done.
Qed.

(** X4: for a fold number [num] of the list, [cross_val_lists] returns
    that fold as the validation list and the other folds, put end to end
    in their order, as the training list: together they hold every item of
    the folds exactly once. *)
Theorem cross_val_lists_holds_out {A} (sliced_lists : list (list A)) (num : Z) :
  (0 ≤ num < Z.of_nat (length sliced_lists))%Z →
  ∃ val_list,
    sliced_lists !! Z.to_nat num = Some val_list
    ∧ cross_val_lists sliced_lists num
      = Ok (concat (delete (Z.to_nat num) sliced_lists), val_list)
    ∧ concat (delete (Z.to_nat num) sliced_lists) ++ val_list
      ≡ₚ concat sliced_lists.
Proof.
  intros Hnum.
  destruct (lookup_lt_is_Some_2 sliced_lists (Z.to_nat num)) as [v Hv]; [lia|].
  exists v. split_and!; [done | |].
  - unfold cross_val_lists, enumerate. cbv zeta.
    pose proof (kept_but_one sliced_lists 0 (Z.to_nat num)) as Hkept.
    simpl in Hkept. rewrite Z2Nat.id in Hkept by lia.
    rewrite Hkept by lia.
    pose proof (list_getitem_nonneg _ _ _ Hv) as Hget.
    rewrite Z2Nat.id in Hget by lia. by rewrite Hget.
  - rewrite delete_take_drop.
    rewrite <- (take_drop_middle _ _ _ Hv) at 3.
    rewrite !concat_app. simpl.
    rewrite <- !app_assoc. apply Permutation_app_head, Permutation_app_comm.
Qed.

(** X5: a negative fold number is taken from the end by the look-up but
    matches no number of [enumerate]: the validation list is fold
    [len + num], and the training list holds every fold, the validation
    fold included. *)
Theorem cross_val_lists_negative_keeps_all {A}
    (sliced_lists : list (list A)) (num : Z) :
  (- Z.of_nat (length sliced_lists) ≤ num < 0)%Z →
  ∃ val_list,
    sliced_lists !! Z.to_nat (Z.of_nat (length sliced_lists) + num) = Some val_list
    ∧ cross_val_lists sliced_lists num = Ok (concat sliced_lists, val_list).
Proof.
  intros Hnum.
  destruct (lookup_lt_is_Some_2 sliced_lists
              (Z.to_nat (Z.of_nat (length sliced_lists) + num))) as [v Hv]; [lia|].
  exists v. split; [done|].
  unfold cross_val_lists, enumerate. cbv zeta.
  pose proof (kept_all sliced_lists num 0) as Hkept. simpl in Hkept.
  rewrite Hkept by (intros; lia).
  pose proof (list_getitem_negative _ _ _ (lookup_lt_Some _ _ _ Hv) Hv) as Hget.
  rewrite Z2Nat.id in Hget by lia.
  replace (Z.of_nat (length sliced_lists) + num - Z.of_nat (length sliced_lists))%Z
    with num in Hget by lia.
  by rewrite Hget.
Qed.

(** X6: a fold number beyond either end of the list raises [IndexError];
    in particular there is no fold to take from an empty list. *)
Theorem cross_val_lists_out_of_range {A} (sliced_lists : list (list A)) (num : Z) :
  (num < - Z.of_nat (length sliced_lists) ∨ Z.of_nat (length sliced_lists) ≤ num)%Z →
  cross_val_lists sliced_lists num = Raise (IndexError "list index out of range").
Proof.
  intros Hnum. unfold cross_val_lists. cbv zeta.
  by rewrite list_getitem_outside.
Qed.

(** X7: cross-validation over the slices of a list.  For a positive
    [size] and a fold number below it, slicing and then holding fold [num]
    out gives a training and a validation list that together are a
    rearrangement of the input list, the validation list having
    [n // size] items and one more when [num < n % size]. *)
Theorem slice_then_cross_val {A} (input_list : list A) (size num : Z) :
  (0 < size)%Z → (0 ≤ num < size)%Z →
  ∃ slices train_list val_list,
    slice_list input_list size = Done slices
    ∧ cross_val_lists slices num = Ok (train_list, val_list)
    ∧ train_list ++ val_list ≡ₚ input_list
    ∧ length val_list
      = length input_list / Z.to_nat size
        + (if decide (Z.to_nat num < length input_list `mod` Z.to_nat size)
           then 1 else 0).
Proof.
  intros Hsize Hnum.
  pose proof (slice_list_chunks input_list (Z.to_nat size)) as Hrun.
  rewrite Z2Nat.id in Hrun by lia. specialize (Hrun ltac:(lia)).
  set (slices := chunks _ _) in Hrun.
  pose proof (Nat.div_mod_eq (length input_list) (Z.to_nat size)) as Hdm.
  pose proof (Nat.mod_upper_bound (length input_list) (Z.to_nat size)) as Hlt.
  assert (length slices = Z.to_nat size) as Hlen
    by (unfold slices; by rewrite chunks_length, slice_sizes_length).
  assert (concat slices = input_list) as Hcat.
  { unfold slices. rewrite chunks_concat, slice_sizes_sum by lia.
    apply take_ge. lia. }
  destruct (chunks_lookup
              (slice_sizes (length input_list / Z.to_nat size)
                 (length input_list `mod` Z.to_nat size) (Z.to_nat size))
              input_list (Z.to_nat num)
              (length input_list / Z.to_nat size
               + (if decide (Z.to_nat num < length input_list `mod` Z.to_nat size)
                  then 1 else 0)))
    as (v & Hv & Hvlen).
  { rewrite slice_sizes_sum; lia. }
  { apply slice_sizes_lookup. lia. }
  fold slices in Hv.
  exists slices, (concat (delete (Z.to_nat num) slices)), v.
  split_and!; [done | | | done].
  - unfold cross_val_lists, enumerate. cbv zeta.
    pose proof (kept_but_one slices 0 (Z.to_nat num)) as Hkept.
    simpl in Hkept. rewrite Z2Nat.id in Hkept by lia.
    rewrite Hkept by lia.
    pose proof (list_getitem_nonneg _ _ _ Hv) as Hget.
    rewrite Z2Nat.id in Hget by lia. by rewrite Hget.
  - transitivity (concat slices); [|by rewrite Hcat].
    rewrite delete_take_drop.
    rewrite <- (take_drop_middle _ _ _ Hv) at 3.
    rewrite !concat_app. simpl.
    rewrite <- !app_assoc. apply Permutation_app_head, Permutation_app_comm.
Qed.
(** ** The random split *)

Lemma slice_to_from {A} (l : list A) k : slice_to l k ++ slice_from l k = l.
Proof. apply take_drop. Qed.

Lemma slice_to_length {A} (l : list A) k :
  (0 ≤ k)%Z → length (slice_to l k) = Z.to_nat k `min` length l.
Proof.
  intros Hk. unfold slice_to, slice_bound. rewrite length_take.
  rewrite decide_False by lia. lia.
Qed.

Lemma round_half_even_nonneg m e : (0 ≤ round_half_even m e)%Z.
Proof.
  unfold round_half_even. case_decide; [lia|]. cbv zeta.
  assert (0 < 2 ^ (- e))%Z by (apply Z.pow_pos_nonneg; lia).
  assert (0 ≤ Z.pos m `div` 2 ^ (- e))%Z by (apply Z.div_pos; lia).
  repeat case_decide; try lia. destruct (Z.even _); lia.
Qed.

Lemma binary_round_aux_sign prec emax s m e l s' m' e' :
  binary_round_aux prec emax s m e l = S754_finite s' m' e' → s' = s.
Proof.
  unfold binary_round_aux.
  destruct (shr_fexp prec emax m e l) as [mrs1 e1].
  destruct (shr_fexp prec emax _ e1 loc_Exact) as [mrs2 e2].
  destruct (shr_m mrs2); [done | | done].
  destruct (Z.leb e2 (emax - prec)); congruence.
Qed.

Lemma float_of_nat_sign n s m e :
  float_of_Z (Z.of_nat n) = S754_finite s m e → s = false.
Proof.
  unfold float_of_Z, binary_normalize. destruct (Z.of_nat n) eqn:Hn; [done | | lia].
  unfold binary_round. destruct (shl_align _ _ _) as [mz ez].
  apply binary_round_aux_sign.
Qed.

(** A count of rows times a positive ratio does not round below zero. *)
Lemma split_nonneg n ratio split :
  SFltb (S754_zero false) ratio = true →
  py_round (int_times_float (Z.of_nat n) ratio) = Done split →
  (0 ≤ split)%Z.
Proof.
  intros Hpos Hround. unfold int_times_float in Hround.
  destruct ratio as [sr | sr | | sr mr er]; try done.
  - destruct sr; [done|].
    destruct (float_of_Z (Z.of_nat n)); simpl in Hround; try done.
  - destruct sr; [done|].
    destruct (float_of_Z (Z.of_nat n)) as [sx | sx | | sx mx ex] eqn:Hx;
      simpl in Hround; try done.
    + injection Hround as <-. lia.
    + apply float_of_nat_sign in Hx as ->.
      destruct (binary_round_aux 53 1024 (xorb false false) (Z.pos (mx * mr))
                  (ex + er) loc_Exact) as [s | s | | s m e] eqn:Hmul;
        simpl in Hround; try done.
      * injection Hround as <-. lia.
      * apply binary_round_aux_sign in Hmul as ->. simpl in Hround.
        injection Hround as <-. apply round_half_even_nonneg.
Qed.

Lemma iloc_in_bounds (df : DataFrame) ids :
  Forall (λ i, i < length df) ids →
  ∃ rows, iloc df ids = Ok rows
          ∧ rows.*1 = ids
          ∧ Forall (λ ir, df !! ir.1 = Some ir.2) rows.
Proof.
  unfold iloc. induction 1 as [|i ids Hi _ IH].
  - by exists [].
  - rewrite mapM_cons.
    destruct (lookup_lt_is_Some_2 df i Hi) as [r Hr]. rewrite Hr.
    destruct IH as (rows & -> & <- & Hrows).
    exists ((i, r) :: rows). split_and!; [done..|]. by constructor.
Qed.

Lemma iloc_raises (df : DataFrame) ids e :
  iloc df ids = Raise e →
  e = IndexError "positional indexers are out-of-bounds".
Proof.
  unfold iloc. induction ids as [|i ids IH]; [done|].
  rewrite mapM_cons. destruct (df !! i); [|by intros [= <-]]. cbn.
  destruct (mapM _ ids); cbn; [done|]. intros [= ->]. by apply IH.
Qed.

Lemma omap_lookup_seq {A} (l : list A) : ∀ pre,
  omap (λ i, (pre ++ l) !! i) (seq (length pre) (length l)) = l.
Proof.
  induction l as [|x l IH]; intros pre; [done|].
  simpl. rewrite list_lookup_middle by done. f_equal.
  specialize (IH (pre ++ [x])). rewrite length_app, Nat.add_1_r in IH.
  rewrite <- IH at 2. by rewrite <- app_assoc.
Qed.

Lemma labelled_rows (df : DataFrame) (rows : list (nat * Row.t)) :
  Forall (λ ir, df !! ir.1 = Some ir.2) rows →
  omap (λ i, df !! i) rows.*1 = rows.*2.
Proof.
  induction 1 as [|[i r] rows Hr _ IH]; [done|].
  csimpl in *. by rewrite Hr, IH.
Qed.

Section SplitFacts.
Context {random : Random}.

(** X8: the random split loses and repeats nothing.  For a ratio strictly
    between 0 and 1, a shuffle that returns the row numbers rearranged, and
    [split = round(len(df) * ratio)], the function returns two frames: the
    rows at the first [split] shuffled numbers and the rows at the others,
    each row still labelled with its number in [df].  [split] is not
    negative, the training frame has [min(split, len(df))] rows, the labels
    of the two frames are the shuffled numbers, and the rows of the two
    frames together are the rows of [df], each once. *)
Theorem train_validation_set_split_partition (df : DataFrame) (ratio : float)
    (seed split : Z) :
  shuffle seed (seq 0 (length df)) ≡ₚ seq 0 (length df) →
  SFltb (S754_zero false) ratio = true →
  SFltb ratio (float_of_Z 1) = true →
  py_round (int_times_float (Z.of_nat (length df)) ratio) = Done split →
  ∃ train_df val_df,
    train_validation_set_split df ratio seed = Done (train_df, val_df)
    ∧ (0 ≤ split)%Z
    ∧ length train_df = Z.to_nat split `min` length df
    ∧ train_df.*1 ++ val_df.*1 = shuffle seed (seq 0 (length df))
    ∧ (∀ i r, (i, r) ∈ train_df ++ val_df → df !! i = Some r)
    ∧ train_df.*2 ++ val_df.*2 ≡ₚ df.
Proof.
  intros Hperm Hpos Hlt1 Hround.
  pose proof (split_nonneg _ _ _ Hpos Hround) as Hsplit.
  remember (shuffle seed (seq 0 (length df))) as ids eqn:Hids.
  assert (Forall (λ i, i < length df) ids) as Hbound.
  { apply Forall_forall. intros i Hi. rewrite Hperm in Hi.
    apply elem_of_seq in Hi. lia. }
  rewrite <- (slice_to_from ids split) in Hbound.
  apply Forall_app in Hbound as [Htrain Hval].
  destruct (iloc_in_bounds df _ Htrain) as (train & Hrun1 & Hl1 & Hr1).
  destruct (iloc_in_bounds df _ Hval) as (val & Hrun2 & Hl2 & Hr2).
  exists train, val. split_and!.
  - unfold train_validation_set_split. rewrite Hpos, Hlt1. cbn [andb negb].
    rewrite Hround. cbn. unfold range. rewrite Nat2Z.id, <- Hids.
    by rewrite Hrun1, Hrun2.
  - done.
  - rewrite <- (length_fmap fst train), Hl1, slice_to_length by done.
    by rewrite Hperm, length_seq.
  - by rewrite Hl1, Hl2, slice_to_from.
  - intros i r Hin. apply elem_of_app in Hin as [Hin | Hin].
    + rewrite Forall_forall in Hr1. by apply (Hr1 (i, r)).
    + rewrite Forall_forall in Hr2. by apply (Hr2 (i, r)).
  - rewrite <- fmap_app, <- (labelled_rows df) by (by apply Forall_app).
    rewrite fmap_app, Hl1, Hl2, slice_to_from. rewrite Hperm.
    pose proof (omap_lookup_seq df []) as Hall. simpl in Hall. by rewrite Hall.
Qed.

(** X9: the ratio check.  The function raises [AssertionError] exactly
    when the ratio is not strictly between 0 and 1; 0.0, 1.0 and NaN are
    refused, whatever the frame and the seed. *)
Theorem train_validation_set_split_ratio_check (df : DataFrame) (ratio : float)
    (seed : Z) :
  (train_validation_set_split df ratio seed = Raised (Exn (AssertionError ""))
   ↔ SFltb (S754_zero false) ratio && SFltb ratio (float_of_Z 1) = false)
  ∧ train_validation_set_split df (S754_zero false) seed
    = Raised (Exn (AssertionError ""))
  ∧ train_validation_set_split df (float_of_Z 1) seed
    = Raised (Exn (AssertionError ""))
  ∧ train_validation_set_split df S754_nan seed
    = Raised (Exn (AssertionError "")).
Proof.
  split_and!; try done.
  unfold train_validation_set_split.
  destruct (SFltb (S754_zero false) ratio && SFltb ratio (float_of_Z 1)) eqn:Hok;
    cbn [negb]; [|done].
  split; [|done]. intros Hraise. exfalso.
  destruct (py_round _) as [split|e] eqn:Hround; cbn in Hraise.
  - destruct (iloc df (slice_to _ _)) as [train|e1] eqn:H1; cbn in Hraise.
    + destruct (iloc df (slice_from _ _)) as [val|e2] eqn:H2; cbn in Hraise;
        [done|].
      injection Hraise as ->. by apply iloc_raises in H2.
    + injection Hraise as ->. by apply iloc_raises in H1.
  - injection Hraise as ->. unfold py_round in Hround.
    by destruct (int_times_float _ _).
Qed.
End SplitFacts.

(** Ties go to the even integer: of five rows, half is two. *)
Example round_ties_to_even :
  py_round (int_times_float 5 (Toy.dyadic 1 (-1))) = Done 2%Z
  ∧ py_round (int_times_float 7 (Toy.dyadic 1 (-1))) = Done 4%Z
  ∧ py_round (int_times_float 10 (S754_finite false 7205759403792794 (-53)))
    = Done 8%Z.
Proof. by vm_compute. Qed.
(** ** Selecting features by name *)

Lemma odict_set_same {V} (d : list (string * V)) k v :
  k ∈ odict_keys d → (∀ v', (k, v') ∈ d → v' = v) → odict_set d k v = d.
Proof.
  induction d as [|[k' v'] d IH]; simpl; intros Hk Hv; [by apply elem_of_nil in Hk|].
  case_decide as Hkk.
  - subst k'. f_equal. f_equal. symmetry. apply Hv. by left.
  - f_equal. apply IH.
    + by apply elem_of_cons in Hk as [->|].
    + intros v'' Hin. apply Hv. by right.
Qed.

Lemma for_each_app {X S} (xs ys : list X) (body : X → S → result S) s :
  for_each (xs ++ ys) body s = (s' ← for_each xs body s; for_each ys body s').
Proof.
  revert s. induction xs as [|x xs IH]; intros s; simpl; [done|].
  destruct (body x s); simpl; [apply IH | done].
Qed.

Lemma first_occurrences_elem seen l x :
  x ∈ first_occurrences seen l ↔ x ∈ l ∧ x ∉ seen.
Proof.
  revert seen. induction l as [|y l IH]; intros seen; simpl.
  - rewrite elem_of_nil. naive_solver.
  - case_decide as Hy.
    + rewrite IH, elem_of_cons. naive_solver.
    + rewrite !elem_of_cons, IH, elem_of_app, list_elem_of_singleton.
      destruct (decide (x = y)) as [->|]; naive_solver.
Qed.

Lemma first_occurrences_NoDup seen l : NoDup (first_occurrences seen l).
Proof.
  revert seen. induction l as [|y l IH]; intros seen; simpl; [constructor|].
  case_decide; [done|]. constructor; [|done].
  rewrite first_occurrences_elem, elem_of_app, list_elem_of_singleton.
  naive_solver.
Qed.

(** The comprehension's loop from a dict [d] that was built from the
    table: the names not yet in [d] are appended, in order of first
    occurrence. *)
Lemma select_loop {F} (all_features : gmap string F) feat_list : ∀ d,
  (∀ name f, (name, f) ∈ d → all_features !! name = Some f) →
  (∀ x, x ∈ feat_list → is_Some (all_features !! x)) →
  ∃ d', for_each feat_list
          (λ x d, f ← getitem all_features x; mret (odict_set d x f)) d
        = Ok (d ++ d')
        ∧ odict_keys d' = first_occurrences (odict_keys d) feat_list
        ∧ ∀ name f, (name, f) ∈ d' → all_features !! name = Some f.
Proof.
  induction feat_list as [|x l IH]; intros d Hd Hall; simpl.
  - exists []. rewrite app_nil_r. split_and!; [done..|]. by intros ?? ?%elem_of_nil.
  - destruct (Hall x) as [f Hf]; [by left|].
    rewrite (getitem_Some _ _ _ Hf). simpl.
    case_decide as Hseen.
    + rewrite odict_set_same; [|done|].
      * apply IH; [done|]. intros y Hy. apply Hall. by right.
      * intros f' Hin. apply Hd in Hin. congruence.
    + rewrite odict_set_fresh by done.
      destruct (IH (d ++ [(x, f)])) as (d' & Hrun & Hkeys & Hfrom).
      { intros name g [Hin | Hin%list_elem_of_singleton]%elem_of_app; [eauto|].
        by injection Hin as -> ->. }
      { intros y Hy. apply Hall. by right. }
      exists ((x, f) :: d'). rewrite Hrun, <- app_assoc.
      split_and!; [done | |].
      * simpl. f_equal. rewrite Hkeys. unfold odict_keys.
        by rewrite fmap_app.
      * intros name g [Heq | Hin]%elem_of_cons; [by injection Heq as -> ->|eauto].
Qed.

(** X10: selecting by name.  When every requested name is in the table,
    [make_features_dicts] returns a dict that has each requested name
    once, in the order of the names' first occurrence in the list (a
    repeated name does not move and adds nothing), and binds each name to
    the table's entry. *)
Theorem make_features_dicts_selects {F} (all_features : gmap string F)
    (feat_list : list string) :
  (∀ x, x ∈ feat_list → is_Some (all_features !! x)) →
  ∃ d,
    make_features_dicts all_features feat_list = Ok d
    ∧ odict_keys d = first_occurrences [] feat_list
    ∧ NoDup (odict_keys d)
    ∧ (∀ name, name ∈ odict_keys d ↔ name ∈ feat_list)
    ∧ (∀ name f, (name, f) ∈ d → all_features !! name = Some f).
Proof.
  intros Hall.
  destruct (select_loop all_features feat_list []) as (d & Hrun & Hkeys & Hfrom);
    [by intros ?? ?%elem_of_nil | done |].
  exists d. split_and!; [done | done | | | done].
  - rewrite Hkeys. apply first_occurrences_NoDup.
  - intros name. rewrite Hkeys, first_occurrences_elem, elem_of_nil.
    naive_solver.
Qed.

(** X11: a name that is not in the table.  The look-up raises
    [KeyError] with the first such name of the list, whatever follows it;
    no dict is returned. *)
Theorem make_features_dicts_unknown_name {F} (all_features : gmap string F)
    (known : list string) (x : string) (rest : list string) :
  (∀ y, y ∈ known → is_Some (all_features !! y)) →
  all_features !! x = None →
  make_features_dicts all_features (known ++ x :: rest) = Raise (KeyError x).
Proof.
  intros Hknown Hx. unfold make_features_dicts. rewrite for_each_app.
  destruct (select_loop all_features known []) as (d & -> & _);
    [by intros ?? ?%elem_of_nil | done |].
  simpl. by rewrite (getitem_None _ _ Hx).
Qed.
(** ** Graphs of whole molecules *)

Lemma mapM_length {X Y} (f : X → result Y) xs ys :
  mapM f xs = Ok ys → length ys = length xs.
Proof.
  revert ys. induction xs as [|x xs IH]; intros ys; [by intros [= <-]|].
  rewrite mapM_cons. destruct (f x); [|done]. cbn.
  destruct (mapM f xs) as [k|]; [|done]. cbn. intros [= <-].
  simpl. f_equal. by apply IH.
Qed.

(** Whatever the selection, a node tensor that is returned has one row
    per atom. *)
Lemma make_nodes_Ok mol atom_idx n_features t :
  make_nodes mol atom_idx n_features = Ok t →
  size0 t = Ok (length (GetAtoms mol)).
Proof.
  rewrite make_nodes_rows.
  destruct (mapM _ (GetAtoms mol)) as [x|] eqn:Hx; [|done]. cbn.
  unfold np_array. destruct (rectangular x); [|done]. cbn.
  intros Ht%torch_float_Ok. rewrite Ht. f_equal. by eapply mapM_length.
Qed.

Lemma mol_to_features_bondless mol atom_idx nf ef :
  GetBonds mol = [] → ∃ e, mol_to_features mol atom_idx nf ef = Raise e.
Proof.
  intros Hb. unfold mol_to_features.
  destruct (make_nodes mol atom_idx nf); cbn; [|by eexists].
  rewrite make_edges_and_attr_no_bonds by done. by eexists.
Qed.

(** X12: a structure without bonds (a lone atom or ion) has no graph.
    The edge builder has nothing to stack and raises [ValueError]; so
    [mol_to_features] and [mol_to_single_mol_data] raise on it (that
    [ValueError], unless the node builder raised before), and
    [mol_to_paired_mol_data] raises when either side is such a structure. *)
Theorem bondless_molecule_has_no_graph (mol : Mol) (atom_idx : Z)
    (nf : list (string * (Atom → Z → result pyval)))
    (ef : list (string * (Bond → result pyval))) :
  GetBonds mol = [] →
  make_edges_and_attr mol ef
  = Raise (ValueError "need at least one array to concatenate")
  ∧ (∀ nodes, make_nodes mol atom_idx nf = Ok nodes →
       mol_to_features mol atom_idx nf ef
       = Raise (ValueError "need at least one array to concatenate"))
  ∧ (∃ e, mol_to_features mol atom_idx nf ef = Raise e)
  ∧ (∃ e, mol_to_single_mol_data mol atom_idx nf ef = Raise e)
  ∧ (∀ other,
       (∃ e, mol_to_paired_mol_data mol other atom_idx nf ef = Raise e)
       ∧ (∃ e, mol_to_paired_mol_data other mol atom_idx nf ef = Raise e)).
Proof.
  intros Hb.
  pose proof (mol_to_features_bondless mol atom_idx nf ef Hb) as [e He].
  split_and!.
  - by apply make_edges_and_attr_no_bonds.
  - intros nodes Hn. unfold mol_to_features. rewrite Hn. cbn.
    by rewrite make_edges_and_attr_no_bonds.
  - by eexists.
  - unfold mol_to_single_mol_data. rewrite He. by eexists.
  - intros other. unfold mol_to_paired_mol_data. split.
    + rewrite He. by eexists.
    + destruct (mol_to_features other atom_idx nf ef) as [[[[? ?] ?] ?]|]; cbn;
        [|by eexists].
      rewrite He. by eexists.
Qed.

(** X13: a pair built from two structures is batched by their atom
    counts.  When [mol_to_paired_mol_data] returns a pair, the increment of
    "edge_index_p" is the number of atoms of the protonated structure and
    that of "edge_index_d" the number of atoms of the deprotonated one;
    [num_nodes] is the protonated count alone, and the two charges are the
    sums of the formal charges of the two structures. *)
Theorem paired_sample_increments {V}
    (super_inc : Data.t → string → V → result nat)
    (prot deprot : Mol) (atom_idx : Z)
    (nf : list (string * (Atom → Z → result pyval)))
    (ef : list (string * (Bond → result pyval)))
    (m : PairData.t) (value : V) :
  mol_to_paired_mol_data prot deprot atom_idx nf ef = Ok m →
  PairData.__inc__ super_inc m "edge_index_p" value = Ok (length (GetAtoms prot))
  ∧ PairData.__inc__ super_inc m "edge_index_d" value
    = Ok (length (GetAtoms deprot))
  ∧ Data.num_nodes (PairData.base m) = Some (length (GetAtoms prot))
  ∧ PairData.charge_prot m = foldr Z.add 0%Z (GetFormalCharge <$> GetAtoms prot)
  ∧ PairData.charge_deprot m
    = foldr Z.add 0%Z (GetFormalCharge <$> GetAtoms deprot).
Proof.
  unfold mol_to_paired_mol_data, mol_to_features.
  destruct (make_nodes prot atom_idx nf) as [node_p|] eqn:Hp; [|done]. cbn.
  destruct (make_edges_and_attr prot ef) as [[ei_p ea_p]|]; [|done]. cbn.
  destruct (make_nodes deprot atom_idx nf) as [node_d|] eqn:Hd; [|done]. cbn.
  destruct (make_edges_and_attr deprot ef) as [[ei_d ea_d]|]; [|done]. cbn.
  apply make_nodes_Ok in Hp. apply make_nodes_Ok in Hd.
  unfold PairData.__init__. rewrite Hp. cbn. intros [= <-].
  unfold PairData.__inc__. cbn. by rewrite Hp, Hd.
Qed.

(** X24: a pair is two single graphs side by side.  [mol_to_paired_mol_data]
    returns a pair exactly when [mol_to_single_mol_data] returns a graph
    for each of the two structures, and then the protonated side of the
    pair (node matrix, edge index, edge attributes, charge) is the single
    graph of the protonated structure, and the deprotonated side that of
    the deprotonated one. *)
Theorem pair_sides_are_single_graphs (prot deprot : Mol) (atom_idx : Z)
    (nf : list (string * (Atom → Z → result pyval)))
    (ef : list (string * (Bond → result pyval))) :
  ((∃ m, mol_to_paired_mol_data prot deprot atom_idx nf ef = Ok m)
   ↔ (∃ gp gd, mol_to_single_mol_data prot atom_idx nf ef = Ok gp
               ∧ mol_to_single_mol_data deprot atom_idx nf ef = Ok gd))
  ∧ ∀ m, mol_to_paired_mol_data prot deprot atom_idx nf ef = Ok m →
      ∃ gp gd,
        mol_to_single_mol_data prot atom_idx nf ef
        = Ok (gp, PairData.charge_prot m)
        ∧ mol_to_single_mol_data deprot atom_idx nf ef
          = Ok (gd, PairData.charge_deprot m)
        ∧ Data.x gp = PairData.x_p m
        ∧ Data.edge_index gp = Some (PairData.edge_index_p m)
        ∧ Data.edge_attr gp = Some (PairData.edge_attr_p m)
        ∧ Data.x gd = PairData.x_d m
        ∧ Data.edge_index gd = Some (PairData.edge_index_d m)
        ∧ Data.edge_attr gd = Some (PairData.edge_attr_d m).
Proof.
  unfold mol_to_paired_mol_data, mol_to_single_mol_data.
  destruct (mol_to_features prot atom_idx nf ef)
    as [[[[node_p ei_p] ea_p] q_p]|] eqn:Hp; cbn.
  2:{ split; [|done]. split; [by intros [? ?] | by intros (? & ? & ? & _)]. }
  destruct (mol_to_features deprot atom_idx nf ef)
    as [[[[node_d ei_d] ea_d] q_d]|] eqn:Hd; cbn.
  2:{ split; [|done]. split; [by intros [? ?] | by intros (? & ? & _ & ?)]. }
  assert (size0 node_p = Ok (length (GetAtoms prot))) as Hrows.
  { unfold mol_to_features in Hp.
    destruct (make_nodes prot atom_idx nf) as [t|] eqn:Ht; [|done]. cbn in Hp.
    destruct (make_edges_and_attr prot ef) as [[? ?]|]; [|done].
    cbn in Hp. injection Hp as <- _ _ _.
    by apply make_nodes_Ok in Ht. }
  unfold PairData.__init__. rewrite Hrows. cbn. split.
  - split; intros _; [by eexists _, _ | by eexists].
  - intros m [= <-]. eexists _, _. by split_and!.
Qed.
(** ** More of the dataset materializer *)

Section DatasetMore.
Context {constants : Constants}.

(** X14: one structure without bonds stops the whole dataset.  If some
    row holds a bondless structure in a column the call reads (the [mode]
    column for [paired=False], either column for [paired=True]), the call
    raises and returns no dataset, whatever the other rows hold. *)
Theorem dataset_stops_at_bondless_row (df : DataFrame)
    (list_n list_e : list string) (paired : bool) (mode col : string)
    (i : nat) (r : Row.t) (mol : Mol) :
  (if paired then col = "protonated" ∨ col = "deprotonated" else col = mode) →
  df !! i = Some r →
  Row.mols r !! col = Some mol →
  GetBonds mol = [] →
  ∃ out e,
    make_pyg_dataset_from_dataframe df list_n list_e paired mode
    = Py out (Raise e).
Proof.
  intros Hcol Hi Hmol Hbonds. unfold make_pyg_dataset_from_dataframe.
  assert (∀ A (m : py A), (∃ out e, m = Py out (Raise e)) →
            ∀ p, ∃ out e, (print p ≫= λ _, m) = Py out (Raise e)) as Hprint.
  { intros A m (out & e & ->) p. by eexists _, _. }
  apply Hprint.
  destruct (negb paired && bool_decide (mode ∉ ["protonated"; "deprotonated"]));
    [by eexists _, _|].
  destruct (make_features_dicts NODE_FEATURES list_n) as [nf|];
    [|by eexists _, _].
  rewrite bind_lift_Ok.
  destruct (make_features_dicts EDGE_FEATURES list_e) as [ef|];
    [|by eexists _, _].
  rewrite bind_lift_Ok.
  assert (i ∈ seq 0 (length df)) as Hin.
  { apply elem_of_seq. apply lookup_lt_Some in Hi. lia. }
  pose proof (bondless_row := mol_to_features_bondless mol (Row.marvin_atom r) nf ef Hbonds).
  destruct bondless_row as [e0 He0].
  destruct paired.
  - apply (for_each_py_raises _ _ i Hin). intros s.
    rewrite (df_row_Some _ _ _ Hi).
    destruct (df_mol df "protonated" i) as [prot|] eqn:Hp; [|by eexists _, _].
    rewrite bind_lift_Ok.
    destruct (df_mol df "deprotonated" i) as [deprot|] eqn:Hd; [|by eexists _, _].
    rewrite !bind_lift_Ok.
    assert (∃ e, mol_to_paired_mol_data prot deprot (Row.marvin_atom r) nf ef
                 = Raise e) as [e ->]; [|by eexists _, _].
    unfold mol_to_paired_mol_data.
    destruct Hcol as [-> | ->].
    + rewrite (df_mol_Some _ _ _ _ _ Hi Hmol) in Hp. injection Hp as <-.
      rewrite He0. by eexists.
    + rewrite (df_mol_Some _ _ _ _ _ Hi Hmol) in Hd. injection Hd as <-.
      destruct (mol_to_features prot _ nf ef) as [[[[? ?] ?] ?]|]; cbn;
        [|by eexists].
      rewrite He0. by eexists.
  - subst col. apply Hprint.
    apply (for_each_py_raises _ _ i Hin). intros s.
    rewrite (df_row_Some _ _ _ Hi). unfold mol_to_single_mol_data.
    case_decide as Hm1; [subst mode|case_decide as Hm2; [subst mode|]].
    + rewrite (df_mol_Some _ _ _ _ _ Hi Hmol), !bind_lift_Ok, He0.
      by eexists _, _.
    + rewrite (df_mol_Some _ _ _ _ _ Hi Hmol), !bind_lift_Ok, He0.
      by eexists _, _.
    + by eexists _, _.
Qed.

(** X15: a mode that names no side.  With [paired=False], a mode other
    than "protonated" and "deprotonated" (the default, "all", is one)
    raises [RuntimeError] naming the mode, after the first line of output
    and before the selections or the frame are looked at. *)
Theorem dataset_rejects_other_modes (df : DataFrame)
    (list_n list_e : list string) (mode : string) :
  mode ≠ "protonated" → mode ≠ "deprotonated" →
  make_pyg_dataset_from_dataframe df list_n list_e false mode
  = Py [Line "Generating data with paired boolean set to: False"]
       (Raise (RuntimeError ("Wrong combination of " +:+ mode +:+ " and False"))).
Proof.
  intros H1 H2. unfold make_pyg_dataset_from_dataframe.
  rewrite bool_decide_eq_true_2; [done|].
  rewrite !not_elem_of_cons. split_and!; [done..|]. apply not_elem_of_nil.
Qed.

(** X16: the selections are read before any row.  For a call that passes
    the mode check, a selection that [make_features_dicts] refuses (the
    node names first, then the edge names) makes the call raise that
    error after the first line of output, even on an empty frame. *)
Theorem dataset_reads_selections_first (df : DataFrame)
    (list_n list_e : list string) (paired : bool) (mode : string) (e : exn) :
  paired = true ∨ mode = "protonated" ∨ mode = "deprotonated" →
  make_features_dicts NODE_FEATURES list_n = Raise e
  ∨ ((∃ nf, make_features_dicts NODE_FEATURES list_n = Ok nf)
     ∧ make_features_dicts EDGE_FEATURES list_e = Raise e) →
  make_pyg_dataset_from_dataframe df list_n list_e paired mode
  = Py [Line ("Generating data with paired boolean set to: " +:+ str_bool paired)]
       (Raise e).
Proof.
  intros Hmode Hsel. unfold make_pyg_dataset_from_dataframe.
  apply print_then.
  assert (negb paired && bool_decide (mode ∉ ["protonated"; "deprotonated"])
          = false) as ->.
  { destruct Hmode as [-> | Hmode]; [done|].
    rewrite bool_decide_eq_false_2; [by destruct paired|].
    intros Hnot. apply Hnot. destruct Hmode as [-> | ->]; set_solver. }
  destruct Hsel as [-> | [[nf ->] Hef]]; [done|].
  rewrite bind_lift_Ok, Hef. done.
Qed.

Lemma paired_rows (df : DataFrame) list_n list_e mode nf ef ts :
  make_features_dicts NODE_FEATURES list_n = Ok nf →
  make_features_dicts EDGE_FEATURES list_e = Ok ef →
  run_rows (paired_row nf ef) 0 df = Some ts →
  make_pyg_dataset_from_dataframe df list_n list_e true mode
  = Py (Line "Generating data with paired boolean set to: True" :: concat ts.*2)
       (Ok ts.*1).
Proof.
  intros Hnf Hef Hrun. unfold make_pyg_dataset_from_dataframe.
  apply print_then. cbn [negb andb].
  eapply lift_then; [exact Hnf|]. eapply lift_then; [exact Hef|].
  pose proof (index_loop df
    (λ i dataset,
       prot ← lift (df_mol df "protonated" i);
       deprot ← lift (df_mol df "deprotonated" i);
       r ← lift (df_row df i);
       m ← lift (mol_to_paired_mol_data prot deprot (Row.marvin_atom r) nf ef);
       let m := PairData.on_base
                  (Data.set_reference_value (FloatVector [float32 (Row.pKa r)])) m in
       let m := PairData.on_base (Data.set_ID (PropStr (Row.ID r))) m in
       let m := PairData.on_base (Data.to DEVICE) m in
       mret (dataset ++ [Paired m]))
    (paired_row nf ef) (λ acc s, acc ++ [s])) as Hloop.
  rewrite (Hloop) with (pre := []) (ts := ts); [|clear Hloop|done|done].
  - by rewrite foldl_snoc.
  - intros i r t log s Hr Hspec. unfold paired_row in Hspec.
    destruct (Row.mols r !! "protonated") as [prot|] eqn:Hp; [|done].
    destruct (Row.mols r !! "deprotonated") as [deprot|] eqn:Hd; [|done].
    simpl in Hspec.
    destruct (mol_to_paired_mol_data prot deprot (Row.marvin_atom r) nf ef)
      as [m|] eqn:Hm; [|done].
    injection Hspec as <- <-.
    rewrite (df_row_Some _ _ _ Hr), (df_mol_Some _ _ _ _ _ Hr Hp),
      (df_mol_Some _ _ _ _ _ Hr Hd), !bind_lift_Ok, Hm.
    by rewrite !bind_lift_Ok.
Qed.

(** X17: with [paired=True], a frame of [n] rows whose pairs can all be
    built gives exactly [n] samples after one line of output; the [i]-th
    sample is the pair of the [i]-th row's protonated and deprotonated
    structures at the row's reaction centre, with the row's pKa as a
    one-element float32 tensor, the row's ID and the device set on it.
    The mode is not looked at. *)
Theorem paired_dataset (df : DataFrame) (list_n list_e : list string)
    (mode : string) (nf : list (string * (Atom → Z → result pyval)))
    (ef : list (string * (Bond → result pyval))) :
  make_features_dicts NODE_FEATURES list_n = Ok nf →
  make_features_dicts EDGE_FEATURES list_e = Ok ef →
  (∀ r, r ∈ df →
     ∃ prot deprot m,
       Row.mols r !! "protonated" = Some prot
       ∧ Row.mols r !! "deprotonated" = Some deprot
       ∧ mol_to_paired_mol_data prot deprot (Row.marvin_atom r) nf ef = Ok m) →
  ∃ samples,
    make_pyg_dataset_from_dataframe df list_n list_e true mode
    = Py [Line "Generating data with paired boolean set to: True"] (Ok samples)
    ∧ (∀ mode',
         make_pyg_dataset_from_dataframe df list_n list_e true mode'
         = make_pyg_dataset_from_dataframe df list_n list_e true mode)
    ∧ length samples = length df
    ∧ ∀ i r, df !! i = Some r →
        ∃ prot deprot m,
          Row.mols r !! "protonated" = Some prot
          ∧ Row.mols r !! "deprotonated" = Some deprot
          ∧ mol_to_paired_mol_data prot deprot (Row.marvin_atom r) nf ef = Ok m
          ∧ samples !! i
            = Some (Paired
                      (PairData.on_base (Data.to DEVICE)
                         (PairData.on_base (Data.set_ID (PropStr (Row.ID r)))
                            (PairData.on_base
                               (Data.set_reference_value
                                  (FloatVector [float32 (Row.pKa r)])) m)))).
Proof.
  intros Hnf Hef Hrows.
  destruct (run_rows_total (paired_row nf ef) df 0) as [ts Hts].
  { intros k r Hk.
    destruct (Hrows r) as (prot & deprot & m & Hp & Hd & Hm);
      [by eapply list_elem_of_lookup_2|].
    unfold paired_row. rewrite Hp, Hd. simpl. rewrite Hm. by eexists. }
  assert (concat ts.*2 = []) as Hquiet.
  { apply concat_nil_Forall, Forall_fmap, Forall_lookup. intros k [t log] Hk.
    destruct (lookup_lt_is_Some_2 df k) as [r Hr].
    { apply lookup_lt_Some in Hk. by rewrite <- (run_rows_length _ _ _ _ Hts). }
    destruct (run_rows_lookup _ _ _ _ _ _ Hts Hr) as (tl & Htl & Hspec).
    rewrite Hk in Htl. injection Htl as <-.
    unfold paired_row in Hspec.
    destruct (Row.mols r !! "protonated"); [|done].
    destruct (Row.mols r !! "deprotonated"); [|done]. simpl in Hspec.
    destruct (mol_to_paired_mol_data _ _ _ _ _); [|done].
    by injection Hspec as _ <-. }
  exists ts.*1. split_and!.
  - rewrite (paired_rows df list_n list_e mode nf ef ts) by done.
    by rewrite Hquiet.
  - intros mode'.
    by rewrite !(paired_rows df list_n list_e _ nf ef ts).
  - rewrite length_fmap. by eapply run_rows_length.
  - intros i r Hi.
    destruct (run_rows_lookup _ _ _ _ _ _ Hts Hi) as (tl & Htl & Hspec).
    unfold paired_row in Hspec.
    destruct (Row.mols r !! "protonated") as [prot|] eqn:Hp; [|done].
    destruct (Row.mols r !! "deprotonated") as [deprot|] eqn:Hd; [|done].
    simpl in Hspec.
    destruct (mol_to_paired_mol_data prot deprot (Row.marvin_atom r) nf ef)
      as [m|] eqn:Hm; [|done].
    injection Hspec as <-.
    exists prot, deprot, m. split_and!; try done.
    by rewrite list_lookup_fmap, Htl.
Qed.
End DatasetMore.
(** ** More of the preprocessing passes *)

Lemma sorted_pair_cases mol conj q1 q2 p d log :
  sorted_pair mol conj q1 q2 = (p, d, log) →
  ((p, d) = (mol, conj) ∧ (q2 ≤ q1)%Z ∨ (p, d) = (conj, mol) ∧ (q1 < q2)%Z)
  ∧ (log = [] ∨ log = [Line "prot = deprot"]).
Proof.
  unfold sorted_pair. repeat case_decide; intros [= <- <- <-];
    (split; [first [left; split; [done | lia] | right; split; [done | lia]]
            | by (left + right)]).
Qed.

(** The frame a full pass of [sort_conjugates] over the default columns
    returns, row by row. *)
Lemma sort_conjugates_sorted (df : DataFrame) :
  (∀ k r, df !! k = Some r →
     is_Some (sort_row "ROMol" "Conjugates" k r)) →
  ∃ out df',
    sort_conjugates df "ROMol" "Conjugates" = Py out (Ok df')
    ∧ length df' = length df
    ∧ Forall (λ line, line = Line "prot = deprot") out
    ∧ ∀ k r, df !! k = Some r →
        ∃ mol conj a b p d,
          Row.mols r !! "ROMol" = Some mol
          ∧ Row.mols r !! "Conjugates" = Some conj
          ∧ GetAtomWithIdx mol (Row.marvin_atom r) = Ok a
          ∧ GetAtomWithIdx conj (Row.marvin_atom r) = Ok b
          ∧ ((p, d) = (mol, conj) ∧ (GetFormalCharge b ≤ GetFormalCharge a)%Z
             ∨ (p, d) = (conj, mol) ∧ (GetFormalCharge a < GetFormalCharge b)%Z)
          ∧ df' !! k
            = Some (del_mol "Conjugates"
                      (del_mol "ROMol"
                         (set_mol "deprotonated" (set_mol "protonated" r p) d))).
Proof.
  intros Hall.
  destruct (run_rows_total (sort_row "ROMol" "Conjugates") df 0) as [ts Hts];
    [done|].
  pose proof (run_rows_length _ _ _ _ Hts) as Hlen.
  assert (∀ k r, df !! k = Some r →
            ∃ mol conj a b,
              Row.mols r !! "ROMol" = Some mol
              ∧ Row.mols r !! "Conjugates" = Some conj
              ∧ GetAtomWithIdx mol (Row.marvin_atom r) = Ok a
              ∧ GetAtomWithIdx conj (Row.marvin_atom r) = Ok b
              ∧ ts !! k = Some (sorted_pair mol conj (GetFormalCharge a)
                                  (GetFormalCharge b))) as Hrow.
  { intros k r Hk.
    destruct (run_rows_lookup _ _ _ _ _ _ Hts Hk) as (tl & Htl & Hspec).
    unfold sort_row in Hspec.
    destruct (Row.mols r !! "ROMol") as [mol|] eqn:Hmol; [|done].
    destruct (Row.mols r !! "Conjugates") as [conj|] eqn:Hconj; [|done].
    simpl in Hspec.
    destruct (GetAtomWithIdx mol (Row.marvin_atom r)) as [a|] eqn:Ha; [|done].
    destruct (GetAtomWithIdx conj (Row.marvin_atom r)) as [b|] eqn:Hb; [|done].
    simpl in Hspec. injection Hspec as <-. by exists mol, conj, a, b. }
  eexists _, _. split_and!.
  - rewrite (sort_conjugates_rows _ _ _ _ Hts).
    rewrite sorted_frame_ok; [done | by rewrite !length_fmap | by rewrite !length_fmap |].
    apply Forall_lookup. intros k r Hk.
    destruct (Hrow k r Hk) as (mol & conj & a & b & -> & -> & _).
    split; by eexists.
  - rewrite !length_fmap, length_zip_with_l_eq;
      rewrite length_zip_with_l_eq; rewrite ?length_fmap; congruence.
  - apply Forall_forall. intros line Hin.
    apply list_elem_of_In, in_concat in Hin as (log & Hlog & Hin).
    apply list_elem_of_In, list_elem_of_lookup in Hlog as [k Hk].
    rewrite list_lookup_fmap in Hk.
    destruct (ts !! k) as [[[p d] log']|] eqn:Htk; [|done].
    injection Hk as ->.
    destruct (lookup_lt_is_Some_2 df k) as [r Hr].
    { apply lookup_lt_Some in Htk. lia. }
    destruct (Hrow k r Hr) as (mol & conj & a & b & _ & _ & _ & _ & Hsp).
    rewrite Htk in Hsp. injection Hsp as Hsp. symmetry in Hsp.
    apply sorted_pair_cases in Hsp as [_ [-> | ->]].
    + by apply in_nil in Hin.
    + by destruct Hin as [<- | []].
  - intros k r Hk.
    destruct (Hrow k r Hk) as (mol & conj & a & b & Hmol & Hconj & Ha & Hb & Htk).
    destruct (sorted_pair mol conj (GetFormalCharge a) (GetFormalCharge b))
      as [[p d] log] eqn:Hsp.
    exists mol, conj, a, b, p, d. split_and!; [done..| |].
    + by apply sorted_pair_cases in Hsp as [? _].
    + rewrite !list_lookup_fmap, !lookup_zip_with, Hk, !list_lookup_fmap, Htk.
      done.
Qed.

(** X18: what [sort_conjugates] leaves behind.  On a frame whose rows
    all hold a structure and a conjugate with the reaction centre among
    their atoms, the pass returns a frame of the same length and prints
    nothing but its tie warning.  In every row the columns "ROMol" and
    "Conjugates" are gone, the identifier, the pKa and the reaction centre
    are untouched, and "protonated" and "deprotonated" hold the structure
    and its conjugate in one order or the other, so that the protonated one
    never has the lower formal charge at the reaction centre. *)
Theorem sort_conjugates_orders_charges (df : DataFrame) :
  (∀ k r, df !! k = Some r →
     is_Some (sort_row "ROMol" "Conjugates" k r)) →
  ∃ out df',
    sort_conjugates df "ROMol" "Conjugates" = Py out (Ok df')
    ∧ length df' = length df
    ∧ Forall (λ line, line = Line "prot = deprot") out
    ∧ ∀ k r, df !! k = Some r →
        ∃ r' mol conj p d a b,
          df' !! k = Some r'
          ∧ Row.ID r' = Row.ID r ∧ Row.pKa r' = Row.pKa r
          ∧ Row.marvin_atom r' = Row.marvin_atom r
          ∧ Row.mols r !! "ROMol" = Some mol
          ∧ Row.mols r !! "Conjugates" = Some conj
          ∧ Row.mols r' !! "ROMol" = None
          ∧ Row.mols r' !! "Conjugates" = None
          ∧ Row.mols r' !! "protonated" = Some p
          ∧ Row.mols r' !! "deprotonated" = Some d
          ∧ ((p, d) = (mol, conj) ∨ (p, d) = (conj, mol))
          ∧ GetAtomWithIdx p (Row.marvin_atom r) = Ok a
          ∧ GetAtomWithIdx d (Row.marvin_atom r) = Ok b
          ∧ (GetFormalCharge b ≤ GetFormalCharge a)%Z.
Proof.
  intros Hall.
  destruct (sort_conjugates_sorted df Hall) as (out & df' & Hrun & Hlen & Hout & Hrows).
  exists out, df'. split_and!; [done..|].
  intros k r Hk.
  destruct (Hrows k r Hk) as (mol & conj & a & b & p & d & Hmol & Hconj & Ha & Hb
                              & Hroles & ->).
  assert (∃ a' b', GetAtomWithIdx p (Row.marvin_atom r) = Ok a'
                   ∧ GetAtomWithIdx d (Row.marvin_atom r) = Ok b'
                   ∧ (GetFormalCharge b' ≤ GetFormalCharge a')%Z
                   ∧ ((p, d) = (mol, conj) ∨ (p, d) = (conj, mol)))
    as (a' & b' & Ha' & Hb' & Hle & Hpd).
  { destruct Hroles as [[[= -> ->] Hle] | [[= -> ->] Hlt]].
    - exists a, b. split_and!; try done. by left.
    - exists b, a. split_and!; try done; [lia | by right]. }
  eexists _, mol, conj, p, d, a', b'. split_and!; try done; simpl.
  - by rewrite lookup_delete_ne, lookup_delete_eq.
  - by rewrite lookup_delete_eq.
  - by rewrite !lookup_delete_ne, lookup_insert_ne, lookup_insert_eq.
  - by rewrite !lookup_delete_ne, lookup_insert_eq.
Qed.

Section ConjugateMore.
Context {chem : Chem}.

(** The frame and the output of [conjugates_to_dataframe], row by row. *)
Lemma conjugates_to_dataframe_frame (df : DataFrame) mol_col :
  Forall (λ r, is_Some (Row.mols r !! mol_col)) df →
  ∃ out df',
    conjugates_to_dataframe df mol_col = Py out (Ok df')
    ∧ length df' = length df
    ∧ (∀ k r mol, df !! k = Some r → Row.mols r !! mol_col = Some mol →
         df' !! k = Some (set_mol "Conjugates" r (conjugate_or_self r mol)))
    ∧ out = concat (imap (λ k r, from_option (conjugate_log k r) []
                                   (Row.mols r !! mol_col)) df).
Proof.
  intros Hcol.
  destruct (run_rows_total (conjugate_row mol_col) df 0) as [ts Hts].
  { intros k r Hk. destruct (Forall_lookup_1 _ _ _ _ Hcol Hk) as [mol Hmol].
    unfold conjugate_row. rewrite Hmol. by eexists. }
  pose proof (run_rows_length _ _ _ _ Hts) as Hlen.
  assert (∀ k r mol, df !! k = Some r → Row.mols r !! mol_col = Some mol →
            ts !! k = Some (conjugate_or_self r mol, conjugate_log k r mol))
    as Hrow.
  { intros k r mol Hk Hmol.
    destruct (run_rows_lookup _ _ _ _ _ _ Hts Hk) as (tl & Htl & Hspec).
    unfold conjugate_row in Hspec. rewrite Hmol in Hspec. simpl in Hspec.
    by injection Hspec as <-. }
  eexists _, _. split_and!.
  - by apply conjugates_to_dataframe_rows.
  - rewrite length_zip_with_l_eq; [done | by rewrite length_fmap].
  - intros k r mol Hk Hmol.
    by rewrite lookup_zip_with, Hk, list_lookup_fmap, (Hrow _ _ _ Hk Hmol).
  - f_equal. apply list_eq. intros k.
    rewrite list_lookup_fmap, list_lookup_imap.
    destruct (df !! k) as [r|] eqn:Hk; simpl.
    + destruct (Forall_lookup_1 _ _ _ _ Hcol Hk) as [mol Hmol].
      by rewrite (Hrow _ _ _ Hk Hmol), Hmol.
    + rewrite lookup_ge_None_2; [done|].
      apply lookup_ge_None_1 in Hk. lia.
Qed.

(** X19: no failure of the conjugate generator stops
    [conjugates_to_dataframe].  On a frame whose rows all have the
    structure column, the pass returns the frame with one more column,
    "Conjugates", whatever the generator raises: row [k] gets the
    generator's conjugate, or the row's own structure when the generator
    raised, every row is otherwise as it was, and the output is the rows'
    two-line failure notes in row order (nothing for a row that got a
    conjugate). *)
Theorem conjugates_to_dataframe_survives (df : DataFrame) (mol_col : string) :
  Forall (λ r, is_Some (Row.mols r !! mol_col)) df →
  ∃ out df',
    conjugates_to_dataframe df mol_col = Py out (Ok df')
    ∧ length df' = length df
    ∧ (∀ k r mol, df !! k = Some r → Row.mols r !! mol_col = Some mol →
         df' !! k = Some (set_mol "Conjugates" r (conjugate_or_self r mol)))
    ∧ out = concat (imap (λ k r, from_option (conjugate_log k r) []
                                   (Row.mols r !! mol_col)) df).
Proof. apply conjugates_to_dataframe_frame. Qed.

(** X20: [preprocess] as a whole, on a frame read from a structure file.
    When every row has a structure whose reaction centre is one of its
    atoms (and of its conjugate's), both passes get through: the frame
    returned has the same length, no "ROMol" and no "Conjugates" column,
    and in every row "protonated" and "deprotonated" hold the row's
    structure and what was stored as its conjugate (the structure itself
    where the generator failed), the one with the higher formal charge at
    the reaction centre as the protonated one. *)
Theorem preprocess_sorts_every_row (df : DataFrame) :
  Forall well_annotated df →
  ∃ out df',
    preprocess df = Py out (Ok df')
    ∧ length df' = length df
    ∧ ∀ k r, df !! k = Some r →
        ∃ r' mol p d a b,
          df' !! k = Some r'
          ∧ Row.ID r' = Row.ID r ∧ Row.pKa r' = Row.pKa r
          ∧ Row.marvin_atom r' = Row.marvin_atom r
          ∧ Row.mols r !! "ROMol" = Some mol
          ∧ Row.mols r' !! "ROMol" = None
          ∧ Row.mols r' !! "Conjugates" = None
          ∧ Row.mols r' !! "protonated" = Some p
          ∧ Row.mols r' !! "deprotonated" = Some d
          ∧ ((p, d) = (mol, conjugate_or_self r mol)
             ∨ (p, d) = (conjugate_or_self r mol, mol))
          ∧ GetAtomWithIdx p (Row.marvin_atom r) = Ok a
          ∧ GetAtomWithIdx d (Row.marvin_atom r) = Ok b
          ∧ (GetFormalCharge b ≤ GetFormalCharge a)%Z.
Proof.
  intros Hall.
  destruct (conjugates_to_dataframe_frame df "ROMol")
    as (out1 & df1 & Hrun1 & Hlen1 & Hrows1 & _).
  { eapply Forall_impl; [exact Hall|]. intros r (mol & _ & _ & -> & _).
    by eexists. }
  assert (∀ k r1, df1 !! k = Some r1 →
            ∃ r mol a b,
              df !! k = Some r
              ∧ r1 = set_mol "Conjugates" r (conjugate_or_self r mol)
              ∧ Row.mols r !! "ROMol" = Some mol
              ∧ GetAtomWithIdx mol (Row.marvin_atom r) = Ok a
              ∧ GetAtomWithIdx (conjugate_or_self r mol) (Row.marvin_atom r)
                = Ok b) as Hback.
  { intros k r1 Hk1.
    destruct (lookup_lt_is_Some_2 df k) as [r Hk].
    { apply lookup_lt_Some in Hk1. lia. }
    destruct (Forall_lookup_1 _ _ _ _ Hall Hk) as (mol & a & b & Hmol & Ha & Hb).
    rewrite (Hrows1 _ _ _ Hk Hmol) in Hk1. injection Hk1 as <-.
    by exists r, mol, a, b. }
  destruct (sort_conjugates_sorted df1) as (out2 & df2 & Hrun2 & Hlen2 & _ & Hrows2).
  { intros k r1 Hk1.
    destruct (Hback k r1 Hk1) as (r & mol & a & b & _ & -> & Hmol & Ha & Hb).
    unfold sort_row. simpl.
    rewrite (lookup_insert_ne _ "Conjugates" "ROMol"), Hmol, lookup_insert_eq
      by done.
    simpl. rewrite Ha, Hb. by eexists. }
  exists (out1 ++ out2), df2. split_and!.
  - unfold preprocess. rewrite Hrun1, bind_Py_Ok. by rewrite Hrun2.
  - congruence.
  - intros k r Hk.
    destruct (Forall_lookup_1 _ _ _ _ Hall Hk) as (mol & a & b & Hmol & Ha & Hb).
    pose proof (Hrows1 _ _ _ Hk Hmol) as Hk1.
    destruct (Hrows2 _ _ Hk1) as (mol' & conj & a' & b' & p & d & Hmol' & Hconj
                                  & Ha' & Hb' & Hroles & ->).
    simpl in Hmol', Hconj, Ha', Hb'.
    rewrite (lookup_insert_ne _ "Conjugates" "ROMol"), Hmol in Hmol' by done.
    injection Hmol' as <-.
    rewrite lookup_insert_eq in Hconj. injection Hconj as <-.
    rewrite Ha in Ha'. injection Ha' as <-.
    rewrite Hb in Hb'. injection Hb' as <-.
    assert (∃ a' b', GetAtomWithIdx p (Row.marvin_atom r) = Ok a'
                     ∧ GetAtomWithIdx d (Row.marvin_atom r) = Ok b'
                     ∧ (GetFormalCharge b' ≤ GetFormalCharge a')%Z
                     ∧ ((p, d) = (mol, conjugate_or_self r mol)
                        ∨ (p, d) = (conjugate_or_self r mol, mol)))
      as (a' & b' & Ha' & Hb' & Hle & Hpd).
    { destruct Hroles as [[[= -> ->] Hle] | [[= -> ->] Hlt]].
      - exists a, b. split_and!; try done. by left.
      - exists b, a. split_and!; try done; [lia | by right]. }
    eexists _, mol, p, d, a', b'. split_and!; try done; simpl.
    + by rewrite lookup_delete_ne, lookup_delete_eq.
    + by rewrite lookup_delete_eq.
    + by rewrite !lookup_delete_ne, lookup_insert_ne, lookup_insert_eq.
    + by rewrite !lookup_delete_ne, lookup_insert_eq.
Qed.
End ConjugateMore.

Lemma has_column_set_mol (df : DataFrame) c vs col :
  col ≠ c → length vs = length df →
  has_column (zip_with (set_mol c) df vs) col = has_column df col.
Proof.
  intros Hne Hlen. unfold has_column.
  assert (existsb (λ r, contains (Row.mols r) col) (zip_with (set_mol c) df vs)
          = existsb (λ r, contains (Row.mols r) col) df) as Hex.
  { revert vs Hlen. induction df as [|r df IH]; intros [|v vs] Hlen; try done.
    cbn [zip_with existsb]. rewrite IH by (simpl in Hlen; lia).
    f_equal. unfold contains. simpl. by rewrite lookup_insert_ne. }
  destruct df as [|r df], vs as [|v vs]; try done.
Qed.

(** X21: [sort_conjugates] drops the columns "ROMol" and "Conjugates",
    whatever names it was given for the two structure columns.  On a frame
    whose rows it can all sort but which lacks one of these two columns, it
    raises after the loop: one [KeyError] whose message lists, in this
    order, every one of the two labels that is no column, followed by
    " not found in axis". *)
Theorem sort_conjugates_drops_fixed_columns (df : DataFrame)
    (mol_col_1 mol_col_2 : string) :
  (∀ k r, df !! k = Some r → is_Some (sort_row mol_col_1 mol_col_2 k r)) →
  has_column df "ROMol" && has_column df "Conjugates" = false →
  ∃ out,
    sort_conjugates df mol_col_1 mol_col_2
    = Py out
        (Raise (KeyError
           (repr_list (filter (λ col, has_column df col = false)
                         ["ROMol"; "Conjugates"])
            +:+ " not found in axis"))).
Proof.
  intros Hall Hlacks.
  destruct (run_rows_total (sort_row mol_col_1 mol_col_2) df 0) as [ts Hts];
    [done|].
  pose proof (run_rows_length _ _ _ _ Hts) as Hlen.
  rewrite (sort_conjugates_rows _ _ _ _ Hts).
  rewrite df_set_column_ok by (by rewrite !length_fmap). cbn.
  rewrite df_set_column_ok
    by (rewrite length_zip_with_l_eq; by rewrite !length_fmap). cbn.
  set (df2 := zip_with (set_mol "deprotonated")
                (zip_with (set_mol "protonated") df ts.*1.*1) ts.*1.*2).
  assert (∀ col, col ≠ "protonated" → col ≠ "deprotonated" →
            has_column df2 col = has_column df col) as Hsame.
  { intros col H1 H2. unfold df2.
    rewrite has_column_set_mol;
      [|done|rewrite length_zip_with_l_eq; by rewrite !length_fmap].
    rewrite has_column_set_mol; [done | done | by rewrite !length_fmap]. }
  exists (concat ts.*2). f_equal. unfold df_drop.
  rewrite !filter_cons, !filter_nil, !Hsame by done.
  destruct (has_column df "ROMol"), (has_column df "Conjugates"); try done;
    repeat case_decide; done.
Qed.
(** ** More of the single-molecule path *)

Lemma try_except_lift_Ok {A} (a : A) catches handler :
  try_except (lift (Ok a)) catches handler = lift (Ok a).
Proof. reflexivity. Qed.

Lemma try_except_lift_Raise {A} e catches (handler : exn → py A) :
  try_except (lift (Raise e)) catches handler
  = if catches e then handler e else lift (Raise e).
Proof.
  unfold try_except. cbn [lift outcome output].
  destruct (catches e); [apply py_eta | done].
Qed.

Section AnnotatedMore.
Context {chem : Chem}.

Lemma read_atom_idx_either mol (props : gmap string propval) v :
  props !! "epik_atom" = Some v
  ∨ (props !! "epik_atom" = None ∧ props !! "marvin_atom" = Some v) →
  read_atom_idx mol props = Py [] (Ok v).
Proof.
  intros [H | [H1 H2]];
    [by apply read_atom_idx_primary | by apply read_atom_idx_fallback].
Qed.

Lemma single_path_after_lookups mol nf ef pka atom_idx :
  GetPropsAsDict mol !! "pKa" = Some pka →
  GetPropsAsDict mol !! "epik_atom" = Some atom_idx
  ∨ (GetPropsAsDict mol !! "epik_atom" = None
     ∧ GetPropsAsDict mol !! "marvin_atom" = Some atom_idx) →
  make_paired_pyg_data_from_mol mol nf ef
  = assemble_pair mol (GetPropsAsDict mol) pka atom_idx nf ef.
Proof.
  intros Hpka Hidx. unfold make_paired_pyg_data_from_mol. cbv zeta.
  rewrite (read_pKa_present _ _ _ Hpka), bind_Py_Ok.
  rewrite (read_atom_idx_either _ _ _ Hidx), bind_Py_Ok.
  simpl. apply py_eta.
Qed.

(** X22: a conjugate that cannot be made.  With the pKa and the reaction
    centre found, an exception of the conjugate generator leaves the entry
    point as it is: an [AssertionError] after the line "mol is failing
    because: " with its message, any other exception with nothing
    printed. *)
Theorem single_path_conjugate_failure (mol : Mol)
    (nf : list (string * (Atom → Z → result pyval)))
    (ef : list (string * (Bond → result pyval)))
    (pka : pynum) (atom_idx : Z) (e : exn) :
  GetPropsAsDict mol !! "pKa" = Some (PropNum pka) →
  GetPropsAsDict mol !! "epik_atom" = Some (PropNum (PyInt atom_idx))
  ∨ (GetPropsAsDict mol !! "epik_atom" = None
     ∧ GetPropsAsDict mol !! "marvin_atom" = Some (PropNum (PyInt atom_idx))) →
  create_conjugate mol atom_idx (float_of_num pka) false = Raise e →
  make_paired_pyg_data_from_mol mol nf ef
  = Py (if is_AssertionError e
        then [Line ("mol is failing because: " +:+ str_exn e)] else [])
       (Raise e).
Proof.
  intros Hpka Hidx Hconj.
  rewrite (single_path_after_lookups _ _ _ _ _ Hpka Hidx).
  unfold assemble_pair. cbn [as_index as_float]. cbn [mbind result_bind].
  rewrite Hconj, try_except_lift_Raise.
  by destruct (is_AssertionError e).
Qed.

(** X23: the pair the entry point returns.  With the pKa [v] and the
    reaction centre found, a conjugate made, the roles assigned and the
    pair built, the entry point prints nothing and returns that pair with
    three attributes set: [x] is the pKa as a float32 scalar, [pka_type]
    is the property "pka_number", else "marvin_pKa_type", else the empty
    string, and [ID] is the property "ID", else the empty string.  The
    protonated side is the structure or its conjugate, whichever the
    roles made it, and never has the lower formal charge at the reaction
    centre. *)
Theorem single_path_returns_pair (mol conj prot deprot : Mol)
    (nf : list (string * (Atom → Z → result pyval)))
    (ef : list (string * (Bond → result pyval)))
    (pka : pynum) (atom_idx : Z) (m : PairData.t) :
  GetPropsAsDict mol !! "pKa" = Some (PropNum pka) →
  GetPropsAsDict mol !! "epik_atom" = Some (PropNum (PyInt atom_idx))
  ∨ (GetPropsAsDict mol !! "epik_atom" = None
     ∧ GetPropsAsDict mol !! "marvin_atom" = Some (PropNum (PyInt atom_idx))) →
  create_conjugate mol atom_idx (float_of_num pka) false = Ok conj →
  assign_roles mol conj atom_idx = Ok (prot, deprot) →
  mol_to_paired_mol_data prot deprot atom_idx nf ef = Ok m →
  make_paired_pyg_data_from_mol mol nf ef
  = Py []
       (Ok (PairData.on_base
              (Data.set_ID (default (PropStr "") (GetPropsAsDict mol !! "ID")))
              (PairData.on_base
                 (Data.set_pka_type
                    (default
                       (default (PropStr "")
                          (GetPropsAsDict mol !! "marvin_pKa_type"))
                       (GetPropsAsDict mol !! "pka_number")))
                 (PairData.on_base
                    (Data.set_x (FloatScalar (float32 (float_of_num pka))))
                    m))))
  ∧ ((prot, deprot) = (mol, conj) ∨ (prot, deprot) = (conj, mol))
  ∧ ∃ a b,
      GetAtomWithIdx prot atom_idx = Ok a
      ∧ GetAtomWithIdx deprot atom_idx = Ok b
      ∧ (GetFormalCharge b ≤ GetFormalCharge a)%Z.
Proof.
  intros Hpka Hidx Hconj Hroles Hpair. split.
  - rewrite (single_path_after_lookups _ _ _ _ _ Hpka Hidx).
    unfold assemble_pair. cbn [as_index as_float]. cbn [mbind result_bind].
    rewrite Hconj, try_except_lift_Ok.
    rewrite !bind_lift_Ok. rewrite Hroles, bind_lift_Ok.
    rewrite Hpair, !bind_lift_Ok.
    unfold contains, getitem, try_except.
    destruct (GetPropsAsDict mol !! "pka_number");
      destruct (GetPropsAsDict mol !! "marvin_pKa_type");
      destruct (GetPropsAsDict mol !! "ID"); reflexivity.
  - unfold assign_roles in Hroles.
    destruct (GetAtomWithIdx mol atom_idx) as [a|] eqn:Ha; [|done].
    destruct (GetAtomWithIdx conj atom_idx) as [b|] eqn:Hb; [|done].
    cbn in Hroles. case_decide; injection Hroles as <- <-.
    + split; [by left|]. exists a, b. split_and!; [done..|lia].
    + split; [by right|]. exists b, a. split_and!; [done..|lia].
Qed.
End AnnotatedMore.
(** ** The further statements at work *)

Lemma slice_list_partition_witness :
  (0 < 2)%Z
  ∧ ∃ slices,
      slice_list [1; 2; 3; 4; 5] 2 = Done slices
      ∧ length slices = 2
      ∧ concat slices = [1; 2; 3; 4; 5].
Proof.
  split; [reflexivity|].
  destruct (slice_list_partition [1; 2; 3; 4; 5] 2 eq_refl) as (s & H1 & H2 & H3).
  by exists s.
Defined.

Lemma slice_list_balanced_witness :
  ∃ slices,
    slice_list [1; 2; 3; 4; 5] 3 = Done slices
    ∧ (∃ row, slices !! 1 = Some row ∧ length row = 2)
    ∧ (∃ row, slices !! 2 = Some row ∧ length row = 1).
Proof.
  destruct (slice_list_balanced [1; 2; 3; 4; 5] 3 eq_refl) as (s & H1 & H2).
  exists s. split; [exact H1|]. split.
  - destruct (H2 1) as (row & Hrow & Hlen); [simpl; lia|]. by exists row.
  - destruct (H2 2) as (row & Hrow & Hlen); [simpl; lia|]. by exists row.
Defined.

Lemma cross_val_lists_holds_out_witness :
  cross_val_lists [[1; 2]; [3; 4]; [5]] 1 = Ok ([1; 2; 5], [3; 4]).
Proof.
  destruct (cross_val_lists_holds_out [[1; 2]; [3; 4]; [5]] 1)
    as (v & Hv & Hrun & _); [simpl; lia|].
  injection Hv as <-. exact Hrun.
Defined.

Lemma cross_val_lists_negative_keeps_all_witness :
  cross_val_lists [[1; 2]; [3; 4]; [5]] (-1) = Ok ([1; 2; 3; 4; 5], [5]).
Proof.
  destruct (cross_val_lists_negative_keeps_all [[1; 2]; [3; 4]; [5]] (-1))
    as (v & Hv & Hrun); [simpl; lia|].
  injection Hv as <-. exact Hrun.
Defined.

Lemma cross_val_lists_out_of_range_witness :
  cross_val_lists [[1; 2]; [3; 4]; [5]] 3
  = Raise (IndexError "list index out of range")
  ∧ cross_val_lists (@nil (list nat)) 0
    = Raise (IndexError "list index out of range").
Proof.
  split.
  - apply (cross_val_lists_out_of_range [[1; 2]; [3; 4]; [5]] 3). simpl. lia.
  - apply (cross_val_lists_out_of_range (@nil (list nat)) 0). simpl. lia.
Defined.

Lemma slice_then_cross_val_witness :
  ∃ slices train_list val_list,
    slice_list [1; 2; 3; 4; 5] 2 = Done slices
    ∧ cross_val_lists slices 0 = Ok (train_list, val_list)
    ∧ train_list ++ val_list ≡ₚ [1; 2; 3; 4; 5]
    ∧ length val_list = 3.
Proof.
  destruct (slice_then_cross_val [1; 2; 3; 4; 5] 2 0)
    as (s & t & v & H1 & H2 & H3 & H4); [reflexivity | simpl; lia |].
  by exists s, t, v.
Defined.

Lemma train_validation_set_split_partition_witness :
  @shuffle Cases.reversing 42 (seq 0 2) ≡ₚ seq 0 2
  ∧ py_round (int_times_float 2 (Toy.dyadic 1 (-1))) = Done 1%Z
  ∧ ∃ train_df val_df,
      @train_validation_set_split Cases.reversing Toy.sorted_frame
        (Toy.dyadic 1 (-1)) 42
      = Done (train_df, val_df)
      ∧ length train_df = 1
      ∧ train_df.*1 ++ val_df.*1 = [1; 0]
      ∧ train_df.*2 ++ val_df.*2 ≡ₚ Toy.sorted_frame.
Proof.
  assert (@shuffle Cases.reversing 42 (seq 0 2) ≡ₚ seq 0 2) as Hperm
    by apply reverse_Permutation.
  assert (py_round (int_times_float 2 (Toy.dyadic 1 (-1))) = Done 1%Z) as Hround
    by reflexivity.
  split; [exact Hperm|]. split; [exact Hround|].
  destruct (@train_validation_set_split_partition Cases.reversing
              Toy.sorted_frame (Toy.dyadic 1 (-1)) 42 1 Hperm eq_refl eq_refl Hround)
    as (train & val & Hrun & _ & Hlen & Hids & _ & Hrows).
  by exists train, val.
Defined.

Lemma make_features_dicts_selects_witness :
  ∃ d,
    make_features_dicts Toy.node_features ["element"; "formal_charge"; "element"]
    = Ok d
    ∧ odict_keys d = ["element"; "formal_charge"].
Proof.
  destruct (make_features_dicts_selects Toy.node_features
              ["element"; "formal_charge"; "element"]) as (d & Hrun & Hkeys & _).
  { intros x Hx. cases_of_membership; by eexists. }
  by exists d.
Defined.

Lemma make_features_dicts_unknown_name_witness :
  make_features_dicts Toy.node_features ["element"; "bond_type"; "no_such_name"]
  = Raise (KeyError "bond_type").
Proof.
  apply (make_features_dicts_unknown_name Toy.node_features
           ["element"] "bond_type" ["no_such_name"]); [|reflexivity].
  intros y Hy. cases_of_membership. by eexists.
Defined.

Lemma bondless_molecule_has_no_graph_witness :
  GetBonds Cases.sodium = []
  ∧ mol_to_features Cases.sodium 0 Fixture.selected_nodes Fixture.selected_edges
    = Raise (ValueError "need at least one array to concatenate")
  ∧ ∃ e, mol_to_paired_mol_data Toy.amine Cases.sodium 0
           Fixture.selected_nodes Fixture.selected_edges = Raise e.
Proof.
  split; [reflexivity|].
  destruct (bondless_molecule_has_no_graph Cases.sodium 0
              Fixture.selected_nodes Fixture.selected_edges eq_refl)
    as (_ & Hfeat & _ & _ & Hpair).
  split.
  - by eapply Hfeat.
  - apply (Hpair Toy.amine).
Defined.

Lemma paired_sample_increments_witness :
  ∃ m,
    mol_to_paired_mol_data Toy.ammonium Toy.amine 0
      Fixture.selected_nodes Fixture.selected_edges = Ok m
    ∧ PairData.__inc__ Fixture.no_inc m "edge_index_p" tt = Ok 2
    ∧ PairData.__inc__ Fixture.no_inc m "edge_index_d" tt = Ok 2
    ∧ PairData.charge_prot m = 1%Z
    ∧ PairData.charge_deprot m = 0%Z.
Proof.
  destruct (mol_to_paired_mol_data Toy.ammonium Toy.amine 0
              Fixture.selected_nodes Fixture.selected_edges) as [m|] eqn:Hm;
    [|by vm_compute in Hm].
  exists m. split; [done|].
  destruct (paired_sample_increments Fixture.no_inc Toy.ammonium Toy.amine 0
              Fixture.selected_nodes Fixture.selected_edges m tt Hm)
    as (H1 & H2 & _ & H3 & H4).
  by split_and!.
Defined.

Lemma dataset_stops_at_bondless_row_witness :
  Cases.salt_frame !! 1 = Some Cases.salt_row
  ∧ Row.mols Cases.salt_row !! "deprotonated" = Some Cases.sodium
  ∧ (∃ out e,
       @make_pyg_dataset_from_dataframe Toy.constants Cases.salt_frame
         ["element"; "reaction_center"] ["bond_type"] false "deprotonated"
       = Py out (Raise e))
  ∧ (∃ out e,
       @make_pyg_dataset_from_dataframe Toy.constants Cases.salt_frame
         ["element"; "reaction_center"] ["bond_type"] true "all"
       = Py out (Raise e)).
Proof.
  split; [reflexivity|]. split; [reflexivity|]. split.
  - apply (@dataset_stops_at_bondless_row Toy.constants Cases.salt_frame
             ["element"; "reaction_center"] ["bond_type"] false
             "deprotonated" "deprotonated" 1 Cases.salt_row Cases.sodium);
      reflexivity.
  - apply (@dataset_stops_at_bondless_row Toy.constants Cases.salt_frame
             ["element"; "reaction_center"] ["bond_type"] true
             "all" "deprotonated" 1 Cases.salt_row Cases.sodium);
      [by right | reflexivity..].
Defined.

Lemma dataset_rejects_other_modes_witness :
  @make_pyg_dataset_from_dataframe Toy.constants Toy.sorted_frame
    ["element"] ["bond_type"] false "all"
  = Py [Line "Generating data with paired boolean set to: False"]
       (Raise (RuntimeError "Wrong combination of all and False")).
Proof.
  by apply (@dataset_rejects_other_modes Toy.constants Toy.sorted_frame
              ["element"] ["bond_type"] "all").
Defined.

Lemma dataset_reads_selections_first_witness :
  @make_pyg_dataset_from_dataframe Toy.constants [] ["bond_type"] ["bond_type"]
    true "all"
  = Py [Line "Generating data with paired boolean set to: True"]
       (Raise (KeyError "bond_type"))
  ∧ @make_pyg_dataset_from_dataframe Toy.constants Toy.sorted_frame
      ["element"] ["element"] false "protonated"
    = Py [Line "Generating data with paired boolean set to: False"]
         (Raise (KeyError "element")).
Proof.
  split.
  - apply (@dataset_reads_selections_first Toy.constants [] ["bond_type"]
             ["bond_type"] true "all"); [by left | by left].
  - apply (@dataset_reads_selections_first Toy.constants Toy.sorted_frame
             ["element"] ["element"] false "protonated");
      [right; by left | right; split; [by eexists | done]].
Defined.

Lemma paired_dataset_witness :
  ∃ samples,
    @make_pyg_dataset_from_dataframe Toy.constants Toy.sorted_frame
      ["element"; "reaction_center"] ["bond_type"] true "all"
    = Py [Line "Generating data with paired boolean set to: True"] (Ok samples)
    ∧ length samples = 2
    ∧ ∃ m, samples !! 0 = Some (Paired m)
           ∧ Data.reference_value (PairData.base m)
             = Some (FloatVector [float32 (Toy.dyadic 21 (-1))])
           ∧ PairData.charge_prot m = 1%Z
           ∧ PairData.charge_deprot m = 0%Z.
Proof.
  destruct (@paired_dataset Toy.constants Toy.sorted_frame
              ["element"; "reaction_center"] ["bond_type"] "all"
              Fixture.selected_nodes Fixture.selected_edges eq_refl eq_refl)
    as (samples & Hrun & _ & Hlen & Hrows).
  { intros r Hr. unfold Toy.sorted_frame in Hr.
    cases_of_membership; eexists _, _, _; split_and!; reflexivity. }
  exists samples. split; [exact Hrun|]. split; [exact Hlen|].
  destruct (Hrows 0 _ eq_refl) as (prot & deprot & m & Hp & Hd & Hm & Hs).
  injection Hp as <-. injection Hd as <-.
  eexists. split; [exact Hs|].
  vm_compute in Hm. injection Hm as <-. by split_and!.
Defined.

Lemma sort_conjugates_orders_charges_witness :
  ∃ df',
    sort_conjugates Fixture.tie_frame "ROMol" "Conjugates"
    = Py [Line "prot = deprot"] (Ok df')
    ∧ length df' = 1
    ∧ ∃ r' p d,
        df' !! 0 = Some r'
        ∧ Row.mols r' !! "ROMol" = None
        ∧ Row.mols r' !! "protonated" = Some p
        ∧ Row.mols r' !! "deprotonated" = Some d
        ∧ ((p, d) = (Toy.amine, Fixture.shifted)
           ∨ (p, d) = (Fixture.shifted, Toy.amine)).
Proof.
  destruct (sort_conjugates_orders_charges Fixture.tie_frame)
    as (out & df' & Hrun & Hlen & _ & Hrows).
  { intros k r Hk. destruct k as [|[|k]]; [|done..].
    injection Hk as <-. by eexists. }
  assert (out = [Line "prot = deprot"]) as ->.
  { assert (output (sort_conjugates Fixture.tie_frame "ROMol" "Conjugates") = out)
      as <- by (by rewrite Hrun).
    reflexivity. }
  exists df'. split; [exact Hrun|]. split; [exact Hlen|].
  destruct (Hrows 0 _ eq_refl)
    as (r' & mol & conj & p & d & a & b & Hr' & _ & _ & _ & Hmol & Hconj & Hno & _
        & Hp & Hd & Hroles & _).
  injection Hmol as <-. injection Hconj as <-.
  by exists r', p, d.
Defined.

Lemma conjugates_to_dataframe_survives_witness :
  ∃ df',
    @conjugates_to_dataframe Toy.deprotonate Toy.raw_frame "ROMol"
    = Py [Line "Could not create conjugate of mol number 1";
          Line "no proton to remove"]
         (Ok df')
    ∧ length df' = 2
    ∧ df_mol df' "Conjugates" 1 = Ok Toy.anion.
Proof.
  destruct (@conjugates_to_dataframe_survives Toy.deprotonate Toy.raw_frame
              "ROMol") as (out & df' & Hrun & Hlen & Hrows & ->).
  { repeat constructor; by eexists. }
  exists df'. split; [exact Hrun|]. split; [exact Hlen|].
  eapply df_mol_Some; [by apply (Hrows 1 _ Toy.anion eq_refl eq_refl)|].
  reflexivity.
Defined.

Lemma preprocess_sorts_every_row_witness :
  Forall (@well_annotated Toy.deprotonate) Toy.raw_frame
  ∧ ∃ out df',
      @preprocess Toy.deprotonate Toy.raw_frame = Py out (Ok df')
      ∧ length df' = 2
      ∧ ∃ r', df' !! 1 = Some r'
              ∧ Row.mols r' !! "ROMol" = None
              ∧ Row.mols r' !! "protonated" = Some Toy.anion
              ∧ Row.mols r' !! "deprotonated" = Some Toy.anion.
Proof.
  assert (Forall (@well_annotated Toy.deprotonate) Toy.raw_frame) as Hall.
  { repeat constructor; eexists _, _, _; split_and!; reflexivity. }
  split; [exact Hall|].
  destruct (@preprocess_sorts_every_row Toy.deprotonate Toy.raw_frame Hall)
    as (out & df' & Hrun & Hlen & Hrows).
  exists out, df'. split; [exact Hrun|]. split; [exact Hlen|].
  destruct (Hrows 1 _ eq_refl)
    as (r' & mol & p & d & a & b & Hr' & _ & _ & _ & Hmol & Hno & _ & Hp & Hd
        & Hroles & _).
  injection Hmol as <-. exists r'. split; [exact Hr'|]. split; [exact Hno|].
  by destruct Hroles as [[= -> ->] | [= -> ->]].
Defined.

Lemma sort_conjugates_drops_fixed_columns_witness :
  (∀ k r, Cases.renamed_frame !! k = Some r →
          is_Some (sort_row "mol" "conj" k r))
  ∧ has_column Cases.renamed_frame "ROMol"
    && has_column Cases.renamed_frame "Conjugates" = false
  ∧ ∃ out,
      sort_conjugates Cases.renamed_frame "mol" "conj"
      = Py out (Raise (KeyError "['ROMol', 'Conjugates'] not found in axis")).
Proof.
  assert (∀ k r, Cases.renamed_frame !! k = Some r →
                 is_Some (sort_row "mol" "conj" k r)) as Hpass.
  { intros k r Hk. destruct k as [|[|k]]; [|done..].
    injection Hk as <-. by eexists. }
  assert (has_column Cases.renamed_frame "ROMol"
          && has_column Cases.renamed_frame "Conjugates" = false) as Hlacks
    by reflexivity.
  split; [exact Hpass|]. split; [exact Hlacks|].
  destruct (sort_conjugates_drops_fixed_columns Cases.renamed_frame "mol" "conj"
              Hpass Hlacks) as (out & Hrun).
  exists out. exact Hrun.
Defined.

Lemma single_path_conjugate_failure_witness :
  @create_conjugate Toy.deprotonate Cases.annotated_anion 0
    (float_of_num (PyFloat (Toy.dyadic 21 (-1)))) false
  = Raise (AssertionError "no proton to remove")
  ∧ @make_paired_pyg_data_from_mol Toy.deprotonate Cases.annotated_anion
      Fixture.selected_nodes Fixture.selected_edges
    = Py [Line "mol is failing because: no proton to remove"]
         (Raise (AssertionError "no proton to remove")).
Proof.
  split; [reflexivity|].
  apply (@single_path_conjugate_failure Toy.deprotonate Cases.annotated_anion
           Fixture.selected_nodes Fixture.selected_edges
           (PyFloat (Toy.dyadic 21 (-1))) 0
           (AssertionError "no proton to remove"));
    [reflexivity | by left | reflexivity].
Defined.

Lemma single_path_returns_pair_witness :
  ∃ m,
    @make_paired_pyg_data_from_mol Toy.deprotonate Toy.amine
      Fixture.selected_nodes Fixture.selected_edges
    = Py [] (Ok m)
    ∧ Data.x (PairData.base m)
      = Some (FloatScalar (float32 (Toy.dyadic 21 (-1))))
    ∧ Data.pka_type (PairData.base m) = Some (PropStr "")
    ∧ Data.ID (PairData.base m) = Some (PropStr "mol1")
    ∧ PairData.charge_prot m = 0%Z
    ∧ PairData.charge_deprot m = (-1)%Z.
Proof.
  destruct (mol_to_paired_mol_data Toy.amine (Toy.set_charge Toy.amine 0 (-1)) 0
              Fixture.selected_nodes Fixture.selected_edges) as [m0|] eqn:Hm;
    [|by vm_compute in Hm].
  destruct (@single_path_returns_pair Toy.deprotonate Toy.amine
              (Toy.set_charge Toy.amine 0 (-1)) Toy.amine
              (Toy.set_charge Toy.amine 0 (-1))
              Fixture.selected_nodes Fixture.selected_edges
              (PyFloat (Toy.dyadic 21 (-1))) 0 m0)
    as (Hrun & _); [reflexivity | by left | reflexivity | reflexivity | exact Hm |].
  eexists. split; [exact Hrun|].
  vm_compute in Hm. injection Hm as <-. split_and!; by vm_compute.
Defined.
